(** * Car-equipment practice data: generator and diagnoser

    A shallow embedding of [data_generation.py] and
    [data_diagnosis/diagnose_data.py].  Cells of a table are a tagged
    variant; the random generator of the interpreter is an interface
    ([PyRandom]) through which the generator threads its state; the file
    system, the output stream, the CSV reader and the import machinery are
    fields of a [World] record. *)

From Stdlib Require Import ZArith QArith Ascii String List.
From stdpp Require Import base tactics option list sets numbers strings pretty
  sorting.

Local Open Scope string_scope.
Local Open Scope list_scope.
Local Open Scope Z_scope.

(** ** Cells *)

(** A Python [float] that is not NaN. *)
Inductive pyfloat :=
  | FInf (negative : bool)
  | FFin (q : Q).

(** What a cell holds.  [VNull] stands for both [None] and NaN: every
    operation of the diagnoser ([isna], [dropna], [to_numeric],
    [duplicated]) treats the two alike. *)
Inductive value :=
  | VNull
  | VInt (z : Z)
  | VFloat (x : pyfloat)
  | VBool (b : bool)
  | VStr (s : string).

Global Instance Q_eq_dec : EqDecision Q.
Proof. solve_decision. Defined.
Global Instance pyfloat_eq_dec : EqDecision pyfloat.
Proof. solve_decision. Defined.
Global Instance value_eq_dec : EqDecision value.
Proof. solve_decision. Defined.

(** ** Exceptions and results *)

Inductive exn :=
  | IndexError
  | KeyError
  | ValueError (msg : string)
  | ImportError (msg : string)
  | AttributeError (msg : string)
  | OtherError (msg : string)
  | OSError (msg : string).

Inductive result (A : Type) :=
  | Ok (a : A)
  | Raise (e : exn).
Arguments Ok {A} a.
Arguments Raise {A} e.

Definition is_ok {A} (r : result A) : bool :=
  match r with Ok _ => true | Raise _ => false end.

Definition result_map {A B} (f : A -> B) (r : result A) : result B :=
  match r with Ok a => Ok (f a) | Raise e => Raise e end.

(** ** Text formatting *)

Module Fmt.

(** [str(n)] for an integer. *)
Definition str_int (z : Z) : string := pretty z.

Fixpoint repeat_char (c : ascii) (n : nat) : string :=
  match n with
  | O => ""
  | S n' => String c (repeat_char c n')
  end.

(** [f"{n:03}"] for [n >= 0]: decimal, padded with zeros on the left up to
    width 3. *)
Definition zero_pad3 (n : nat) : string :=
  let s := pretty n in
  repeat_char "0" (3 - String.length s) +:+ s.

(** Digits grouped in threes from the right, [acc] the digits already
    placed and [k] how many of them since the last comma. *)
Fixpoint group_rev (ds : list ascii) (k : nat) (acc : string) : string :=
  match ds with
  | [] => acc
  | d :: ds' =>
      if (k =? 3)%nat then group_rev ds' 1 (String d (String "," acc))
      else group_rev ds' (S k) (String d acc)
  end.

(** [f"{n:,}"]: thousands separators. *)
Definition comma_int (z : Z) : string :=
  let digits := list_ascii_of_string (pretty (Z.abs_N z)) in
  let body := group_rev (List.rev digits) 0 "" in
  if z <? 0 then "-" +:+ body else body.

(** [sep.join(l)]. *)
Fixpoint join (sep : string) (l : list string) : string :=
  match l with
  | [] => ""
  | [x] => x
  | x :: rest => x +:+ sep +:+ join sep rest
  end.

End Fmt.

(** ** The random generator of the interpreter *)

(** [random.Random]: the two primitives every method used here is built on.
    [randbelow n] is [_randbelow(n)], an integer below [n]; [random53] is
    the numerator [k] of the float [k / 2^53] that [random()] returns. *)
Class PyRandom (rng : Type) := {
  Random : Z -> rng;
  randbelow : nat -> rng -> nat * rng;
  random53 : rng -> N * rng;
  randbelow_lt : forall n g, (0 < n)%nat -> ((randbelow n g).1 < n)%nat
}.

(** A float literal as the exact ratio of its double. *)
Record float_lit := FloatLit { fl_num : Z; fl_den : Z }.

Definition lit_0_20 := FloatLit 3602879701896397 18014398509481984.
Definition lit_0_18 := FloatLit 3242591731706757 18014398509481984.
Definition lit_0_15 := FloatLit 5404319552844595 36028797018963968.
Definition lit_0_12 := FloatLit 1080863910568919 9007199254740992.
Definition lit_0_10 := FloatLit 3602879701896397 36028797018963968.
Definition lit_0_14 := FloatLit 1261007895663739 9007199254740992.
Definition lit_0_08 := FloatLit 5764607523034235 72057594037927936.

Section Rng.
Context {rng : Type} `{PyRandom rng}.

(** Computations that draw from the generator and may raise. *)
Definition M (A : Type) : Type := rng -> result (A * rng).

Definition ret {A} (a : A) : M A := fun g => Ok (a, g).

Definition bind {A B} (m : M A) (k : A -> M B) : M B :=
  fun g => match m g with
           | Ok (a, g') => k a g'
           | Raise e => Raise e
           end.

Definition raise {A} (e : exn) : M A := fun _ => Raise e.

(** [rng.choice(seq)] *)
Definition choice {A} (seq : list A) : M A :=
  fun g =>
    match seq with
    | [] => Raise IndexError
    | _ =>
        let '(i, g') := randbelow (length seq) g in
        match seq !! i with
        | Some x => Ok (x, g')
        | None => Raise IndexError
        end
    end.

(** [rng.randrange(start, stop, step)] for a positive step. *)
Definition randrange (start stop step : Z) : M Z :=
  fun g =>
    let n := (stop - start + step - 1) / step in
    if n <=? 0 then Raise (ValueError "empty range for randrange()")
    else
      let '(k, g') := randbelow (Z.to_nat n) g in
      Ok (start + step * Z.of_nat k, g').

(** [rng.random() < lit] *)
Definition random_lt (lit : float_lit) : M bool :=
  fun g =>
    let '(k, g') := random53 g in
    Ok (Z.of_N k * fl_den lit <? fl_num lit * 2 ^ 53, g').

(** [x[i], x[j] = x[j], x[i]] *)
Definition swap {A} (x : list A) (i j : nat) : list A :=
  match x !! i, x !! j with
  | Some xi, Some xj => <[j := xi]> (<[i := xj]> x)
  | _, _ => x
  end.

(** [rng.shuffle(x)]: [for i in reversed(range(1, len(x)))], with [i]
    counting down from the argument. *)
Fixpoint shuffle_from {A} (i : nat) (x : list A) : M (list A) :=
  match i with
  | O => ret x
  | S i' =>
      bind (fun g => Ok (randbelow (S i) g)) (fun j =>
      shuffle_from i' (swap x i j))
  end.

Definition shuffle {A} (x : list A) : M (list A) :=
  shuffle_from (length x - 1) x.

End Rng.

Declare Scope py_scope.
Delimit Scope py_scope with py.
Notation "x <- m ;; k" := (bind m (fun x => k))
  (at level 100, m at next level, right associativity) : py_scope.

(** ** The generator ([data_generation.py]) *)

(** One record: the dict that the generator builds per row.  The three
    fields that are text throughout are strings; the others are cells,
    because a defect can change their kind (a year as text, a price as
    text, a missing colour). *)
Record row := Row {
  car_id : string;
  make : string;
  model : string;
  model_year : value;
  trim_level : string;
  exterior_color : value;
  transmission : string;
  fuel_type : string;
  infotainment_system : value;
  msrp : value
}.

Global Instance row_eq_dec : EqDecision row.
Proof. solve_decision. Defined.

Definition set_model (r : row) (v : string) : row :=
  Row (car_id r) (make r) v (model_year r) (trim_level r) (exterior_color r)
      (transmission r) (fuel_type r) (infotainment_system r) (msrp r).
Definition set_model_year (r : row) (v : value) : row :=
  Row (car_id r) (make r) (model r) v (trim_level r) (exterior_color r)
      (transmission r) (fuel_type r) (infotainment_system r) (msrp r).
Definition set_trim_level (r : row) (v : string) : row :=
  Row (car_id r) (make r) (model r) (model_year r) v (exterior_color r)
      (transmission r) (fuel_type r) (infotainment_system r) (msrp r).
Definition set_exterior_color (r : row) (v : value) : row :=
  Row (car_id r) (make r) (model r) (model_year r) (trim_level r) v
      (transmission r) (fuel_type r) (infotainment_system r) (msrp r).
Definition set_transmission (r : row) (v : string) : row :=
  Row (car_id r) (make r) (model r) (model_year r) (trim_level r)
      (exterior_color r) v (fuel_type r) (infotainment_system r) (msrp r).
Definition set_fuel_type (r : row) (v : string) : row :=
  Row (car_id r) (make r) (model r) (model_year r) (trim_level r)
      (exterior_color r) (transmission r) v (infotainment_system r) (msrp r).
Definition set_infotainment_system (r : row) (v : value) : row :=
  Row (car_id r) (make r) (model r) (model_year r) (trim_level r)
      (exterior_color r) (transmission r) (fuel_type r) v (msrp r).
Definition set_msrp (r : row) (v : value) : row :=
  Row (car_id r) (make r) (model r) (model_year r) (trim_level r)
      (exterior_color r) (transmission r) (fuel_type r)
      (infotainment_system r) v.

Definition models_by_make : list (string * list string) :=
  [ ("Toyota", ["Corolla"; "Camry"; "RAV4"; "Prius"]);
    ("Honda", ["Civic"; "Accord"; "CR-V"; "Pilot"]);
    ("Ford", ["Focus"; "Fusion"; "Escape"; "Explorer"]);
    ("BMW", ["320i"; "X5"; "X3"; "M3"]);
    ("Tesla", ["Model S"; "Model 3"; "Model X"; "Model Y"]) ].
Definition trims : list string := ["Base"; "Sport"; "Premium"; "Limited"].
Definition colors : list string :=
  ["Red"; "Blue"; "Black"; "White"; "Silver"; "Gray"].
Definition transmissions : list string :=
  ["automatic"; "manual"; "CVT"; "dual clutch"].
Definition fuels : list string := ["gasoline"; "diesel"; "hybrid"; "electric"].
Definition infotainment : list string :=
  ["Basic Audio"; "Touchscreen"; "Premium Audio"; "Navigation"].

(** [range(lo, hi)] *)
Definition range (lo hi : Z) : list Z :=
  map (fun k => lo + Z.of_nat k) (seq 0 (Z.to_nat (hi - lo))).

(** [d[key]] on a dict kept as its items in insertion order. *)
Fixpoint dict_get {V} (d : list (string * V)) (key : string) : option V :=
  match d with
  | [] => None
  | (k, v) :: d' => if String.eqb k key then Some v else dict_get d' key
  end.

Section Generator.
Context {rng : Type} `{PyRandom rng}.
Local Open Scope py_scope.

(** The guarded statements of the loop body: [if rng.random() < p: ...]. *)
Definition when_lt (p : float_lit) (r : row) (body : row -> M row) : M row :=
  hit <- random_lt p ;;
  if hit : bool then body r else ret r.

(** The body of [for idx in range(base_rows)], up to [data.append(row)]. *)
Definition make_row (idx : nat) : M row :=
  mk <- choice (map fst models_by_make) ;;
  models <- match dict_get models_by_make mk with
            | Some l => ret l
            | None => raise KeyError
            end ;;
  mdl <- choice models ;;
  price <- randrange 22000 70000 500 ;;
  year <- choice (range 2013 2024) ;;
  trim <- choice trims ;;
  color <- choice colors ;;
  trans <- choice transmissions ;;
  fuel <- choice fuels ;;
  info <- choice infotainment ;;
  let r := Row ("C" +:+ Fmt.zero_pad3 (idx + 1)) mk mdl (VInt year) trim
               (VStr color) trans fuel (VStr info) (VInt price) in
  r <- when_lt lit_0_20 r (fun r =>
         ret (set_model r (" " +:+ model r +:+ "  "))) ;;
  r <- when_lt lit_0_18 r (fun r => ret (set_exterior_color r VNull)) ;;
  r <- when_lt lit_0_15 r (fun r =>
         ret (set_model_year r
                (match model_year r with
                 | VInt y => VStr (Fmt.str_int y)
                 | v => v
                 end))) ;;
  r <- when_lt lit_0_12 r (fun r =>
         ret (set_msrp r (VStr ("$" +:+ Fmt.comma_int price)))) ;;
  r <- when_lt lit_0_10 r (fun r => ret (set_msrp r (VStr "N/A"))) ;;
  r <- when_lt lit_0_14 r (fun r =>
         t <- choice ["standart"; "Premuim"; "luxary"; trim_level r] ;;
         ret (set_trim_level r t)) ;;
  r <- when_lt lit_0_12 r (fun r =>
         t <- choice ["Automtic"; "manuall"; "automatic "; "AUTOMATIC"] ;;
         ret (set_transmission r t)) ;;
  r <- when_lt lit_0_10 r (fun r =>
         t <- choice ["gasolen"; "deisel"; fuel_type r] ;;
         ret (set_fuel_type r t)) ;;
  r <- when_lt lit_0_08 r (fun r => ret (set_infotainment_system r VNull)) ;;
  ret r.

(** [for idx in range(base_rows): ...; data.append(row)] *)
Fixpoint base_loop (idxs : list nat) (data : list row) : M (list row) :=
  match idxs with
  | [] => ret data
  | idx :: rest =>
      r <- make_row idx ;;
      base_loop rest (data ++ [r])
  end.

(** [for _ in range(duplicate_rows_needed): data.append(rng.choice(data).copy())] *)
Fixpoint duplicate_loop (n : nat) (data : list row) : M (list row) :=
  match n with
  | O => ret data
  | S n' =>
      duplicate_row <- choice data ;;
      duplicate_loop n' (data ++ [duplicate_row])
  end.

Definition duplicate_rows_needed (rows : Z) : Z := Z.max 2 (rows / 6).
Definition base_rows (rows : Z) : Z := rows - duplicate_rows_needed rows.

(** The list [data] as it stands when the frame is built from it. *)
Definition generate_data (rows seed : Z) : result (list row) :=
  let m :=
    data <- base_loop (seq 0 (Z.to_nat (base_rows rows))) [] ;;
    data <- duplicate_loop (Z.to_nat (duplicate_rows_needed rows)) data ;;
    shuffle data in
  result_map fst (m (Random seed)).

End Generator.

(** ** Tables *)

(** The dtype of a column; a column that holds text, or cells of more than
    one kind, is [object_]. *)
Inductive dtype := int64 | float64 | bool_ | object_.

Global Instance dtype_eq_dec : EqDecision dtype.
Proof. solve_decision. Defined.

(** A [DataFrame]: the column labels with their dtype, in order, and the
    rows; a row has one cell per column.  Labels are unique in every frame
    the two load paths deliver (dict keys, or the header of a CSV file,
    which the reader makes unique). *)
Record DataFrame := {
  df_columns : list (string * dtype);
  df_rows : list (list value)
}.

Definition columns (df : DataFrame) : list string := map fst (df_columns df).

(** The cells of the column at position [j]. *)
Definition column_at (df : DataFrame) (j : nat) : list value :=
  map (fun r => default VNull (r !! j)) (df_rows df).

Fixpoint index_of (name : string) (names : list string) : option nat :=
  match names with
  | [] => None
  | n :: rest =>
      if String.eqb n name then Some O else S <$> index_of name rest
  end.

(** [column in df.columns] *)
Definition has_column (df : DataFrame) (name : string) : bool :=
  bool_decide (name ∈ columns df).

(** [df[column]] for a label of the frame. *)
Definition get_column (df : DataFrame) (name : string) : list value :=
  match index_of name (columns df) with
  | Some j => column_at df j
  | None => []
  end.

Definition row_keys : list string :=
  ["car_id"; "make"; "model"; "model_year"; "trim_level"; "exterior_color";
   "transmission"; "fuel_type"; "infotainment_system"; "msrp"].

Definition row_cells (r : row) : list value :=
  [VStr (car_id r); VStr (make r); VStr (model r); model_year r;
   VStr (trim_level r); exterior_color r; VStr (transmission r);
   VStr (fuel_type r); infotainment_system r; msrp r].

Definition is_int (v : value) : bool :=
  match v with VInt _ => true | _ => false end.

(** The dtype that [pd.DataFrame] gives a column of these records: the
    cells are text, integers or [None], so the column is [int64] when every
    cell is an integer and [object] otherwise. *)
Definition infer_dtype (cells : list value) : dtype :=
  if forallb is_int cells then int64 else object_.

(** [pd.DataFrame(data).reset_index(drop=True)] for a list of records. *)
Definition pd_DataFrame (data : list row) : DataFrame :=
  let rows := map row_cells data in
  {| df_columns :=
       match data with
       | [] => []
       | _ => imap (fun j k =>
                (k, infer_dtype (map (fun r => default VNull (r !! j)) rows)))
                row_keys
       end;
     df_rows := rows |}.

Section GeneratorFrame.
Context {rng : Type} `{PyRandom rng}.

Definition generate_raw_car_equipment_data (rows seed : Z)
  : result DataFrame :=
  result_map pd_DataFrame (generate_data rows seed).

End GeneratorFrame.

(** ** Text helpers of the diagnoser *)

(** A text is a sequence of characters with code points below 256, one
    [ascii] for each: the first block of Unicode, in which the texts of the
    generator lie. *)
Module Str.

Definition nl : string := String (ascii_of_nat 10) "".

(** The characters that [str.strip()] removes, those for which
    [str.isspace] holds: the control characters 9 to 13 and 28 to 31, the
    space, the next-line character U+0085 and the no-break space U+00A0. *)
Definition isspace (c : ascii) : bool :=
  let n := nat_of_ascii c in
  ((9 <=? n) && (n <=? 13) || (28 <=? n) && (n <=? 32)
   || (n =? 133) || (n =? 160))%nat.

Fixpoint lstrip (s : string) : string :=
  match s with
  | String c s' => if isspace c then lstrip s' else s
  | EmptyString => EmptyString
  end.

(** [s.strip()] *)
Definition strip (s : string) : string :=
  String.rev (lstrip (String.rev (lstrip s))).

(** [s.lower()]: the capital letters are A to Z and U+00C0 to U+00DE
    without the multiplication sign U+00D7. *)
Definition lower_char (c : ascii) : ascii :=
  let n := nat_of_ascii c in
  if ((65 <=? n) && (n <=? 90)
      || (192 <=? n) && (n <=? 222) && negb (n =? 215))%nat
  then ascii_of_nat (n + 32) else c.

Fixpoint lower (s : string) : string :=
  match s with
  | String c s' => String (lower_char c) (lower s')
  | EmptyString => EmptyString
  end.

(** [s.endswith(t)] *)
Definition endswith (s t : string) : bool :=
  String.prefix (String.rev t) (String.rev s).

(** [s[:-n]] *)
Definition drop_last (n : nat) (s : string) : string :=
  String.substring 0 (String.length s - n) s.

(** [s.replace(a, b)] for one-character [a]. *)
Fixpoint replace_char (a : ascii) (b : string) (s : string) : string :=
  match s with
  | String c s' =>
      if Ascii.eqb c a then b +:+ replace_char a b s'
      else String c (replace_char a b s')
  | EmptyString => EmptyString
  end.

(** [s.split(sep)] for one-character [sep]: [cur] is the piece being
    read, reversed. *)
Fixpoint split_go (sep : ascii) (cur : string) (s : string) : list string :=
  match s with
  | String c s' =>
      if Ascii.eqb c sep then String.rev cur :: split_go sep "" s'
      else split_go sep (String c cur) s'
  | EmptyString => [String.rev cur]
  end.

Definition split (sep : ascii) (s : string) : list string :=
  split_go sep "" s.

(** [s.rfind(c)], [None] for -1. *)
Fixpoint rfind (c : ascii) (s : string) : option nat :=
  match s with
  | String d s' =>
      match rfind c s' with
      | Some i => Some (S i)
      | None => if Ascii.eqb d c then Some O else None
      end
  | EmptyString => None
  end.

(** [s[i:]] *)
Fixpoint drop (i : nat) (s : string) : string :=
  match i, s with
  | S i', String _ s' => drop i' s'
  | _, _ => s
  end.

End Str.

(** ** Paths ([pathlib], POSIX flavour) *)

Record path := { absolute : bool; parts : list string }.

Global Instance path_eq_dec : EqDecision path.
Proof. solve_decision. Defined.

(** [Path(s)] *)
Definition Path (s : string) : path :=
  {| absolute := String.prefix "/" s;
     parts := filter (fun p => p <> "" /\ p <> ".") (Str.split "/" s) |}.

(** [a / b]: an absolute right operand replaces the left one. *)
Definition joinpath (a b : path) : path :=
  if absolute b then b
  else {| absolute := absolute a; parts := parts a ++ parts b |}.

Definition parent (p : path) : path :=
  {| absolute := absolute p; parts := removelast (parts p) |}.

Definition name (p : path) : string := List.last (parts p) "".

(** [p.suffix]: from the last dot of the final component, unless that dot
    is its first or its last character. *)
Definition suffix (p : path) : string :=
  let nm := name p in
  match Str.rfind "." nm with
  | Some i =>
      if ((0 <? i) && (i <? String.length nm - 1))%nat then Str.drop i nm
      else ""
  | None => ""
  end.

(** [str(p)] *)
Definition path_str (p : path) : string :=
  match absolute p, parts p with
  | true, ps => "/" +:+ Fmt.join "/" ps
  | false, [] => "."
  | false, ps => Fmt.join "/" ps
  end.

(** ** The diagnoser ([data_diagnosis/diagnose_data.py]) *)

Definition EXPECTED_VALUES : list (string * list string) :=
  [ ("trim_level", ["Base"; "Sport"; "Premium"; "Limited"]);
    ("transmission", ["automatic"; "manual"; "CVT"; "dual clutch"]);
    ("fuel_type", ["gasoline"; "diesel"; "hybrid"; "electric"]) ].

(** [_module_name] *)
Definition _module_name (module_path : string) : string :=
  let module_name :=
    if Str.endswith module_path ".py" then Str.drop_last 3 module_path
    else module_path in
  Str.replace_char "/" "." module_name.

(** A loaded module, as far as the diagnoser looks at it: whether it has the
    attribute [generate_raw_car_equipment_data] and, if so, what calling it
    without arguments gives. *)
Record module := { generator_fn : option (result DataFrame) }.

(** What the diagnoser reads from its surroundings and does to them.  A
    call that can raise answers a [result]: [exists] answers [False] for a
    path that is not there and raises [OSError] when the path cannot be
    examined (a name too long, a directory that may not be searched);
    [mkdir], [write_text] and [print] raise when the directory, the file or
    the output stream cannot be written.  [resolve] is only called on a
    path for which [exists] has just answered [True], or that has just been
    written. *)
Record World := {
  script_dir : path;                       (* Path(__file__).resolve().parent *)
  path_exists : path -> result bool;       (* p.exists() *)
  path_resolve : path -> path;             (* p.resolve() *)
  read_csv : path -> result DataFrame;     (* pd.read_csv(p) *)
  has_loader : path -> bool;               (* spec_from_file_location gives a spec with a loader *)
  exec_module : path -> result module;     (* module_from_spec, then exec_module *)
  import_module : string -> result module; (* importlib.import_module(name) *)
  utcnow_stamp : string;                   (* datetime.utcnow().strftime("%Y%m%d_%H%M%S") *)
  print : string -> result unit;           (* print(text) *)
  mkdir : path -> result unit;             (* p.mkdir(parents=True, exist_ok=True) *)
  write_text : path -> string -> result unit (* p.write_text(text, encoding="utf-8") *)
}.

(** The candidates of [_resolve_candidate_path], in the order tried. *)
Definition candidates (w : World) (source : string) : list path :=
  let input_path := Path source in
  if absolute input_path then [input_path]
  else [input_path;
        joinpath (script_dir w) input_path;
        joinpath (parent (script_dir w)) input_path].

(** The loop over the candidates: an error of [exists] ends it, and the
    candidates after the one that raised are not looked at. *)
Fixpoint first_existing (w : World) (cands : list path)
  : result (option path) :=
  match cands with
  | [] => Ok None
  | candidate :: rest =>
      match path_exists w candidate with
      | Raise e => Raise e
      | Ok true => Ok (Some (path_resolve w candidate))
      | Ok false => first_existing w rest
      end
  end.

Definition _resolve_candidate_path (w : World) (source : string)
  : result (option path) :=
  first_existing w (candidates w source).

Definition call_generator (m : module) : result DataFrame :=
  match generator_fn m with
  | None =>
      Raise (AttributeError
        "Provided module does not expose generate_raw_car_equipment_data()")
  | Some r => r
  end.

Definition _load_dataframe (w : World) (source : string) : result DataFrame :=
  match _resolve_candidate_path w source with
  | Raise e => Raise e
  | Ok (Some resolved_path) =>
      if String.eqb (Str.lower (suffix resolved_path)) ".csv" then
        read_csv w resolved_path
      else if String.eqb (Str.lower (suffix resolved_path)) ".py" then
        if negb (has_loader w resolved_path) then
          Raise (ImportError
            ("Unable to load module from " +:+ path_str resolved_path))
        else
          match exec_module w resolved_path with
          | Raise e => Raise e
          | Ok m => call_generator m
          end
      else
        Raise (ValueError
          ("Unsupported file type '" +:+ suffix resolved_path
           +:+ "' for data source"))
  | Ok None =>
      match import_module w (_module_name source) with
      | Raise e => Raise e
      | Ok m => call_generator m
      end
  end.

(** *** The checks *)

(** What [pd.to_numeric(..., errors="coerce")] does to text is the
    library's: [str_coerces s] says that the text [s] becomes a number (and
    not NaN).  Two facts about it are used: decimal digits are a number,
    and the placeholder ["N/A"] is not. *)
Class ToNumeric := {
  str_coerces : string -> bool;
  str_coerces_digits : forall n : N, str_coerces (pretty n) = true;
  str_coerces_NA : str_coerces "N/A" = false
}.

Definition isna (v : value) : bool :=
  match v with VNull => true | _ => false end.

(** [series.dropna()] *)
Definition dropna (cells : list value) : list value :=
  filter (fun v => isna v = false) cells.

(** [type(val).__name__] *)
Definition type_name (v : value) : string :=
  match v with
  | VNull => "NoneType"
  | VInt _ => "int"
  | VFloat _ => "float"
  | VBool _ => "bool"
  | VStr _ => "str"
  end.

Definition isinstance_str (v : value) : bool :=
  match v with VStr _ => true | _ => false end.

(** The key under which [duplicated] hashes a cell: numbers that compare
    equal in Python ([1 == 1.0 == True]) have one key. *)
Definition hash_key (v : value) : value :=
  match v with
  | VBool b => VInt (if b then 1 else 0)
  | VFloat (FFin q) =>
      let r := Qred q in
      if (Zpos (Qden r) =? 1) then VInt (Qnum r) else VFloat (FFin r)
  | _ => v
  end.

(** The marks of [duplicated()]: an element is marked when an equal one
    came before it. *)
Fixpoint duplicated_from {A} `{EqDecision A} (seen : list A) (l : list A)
  : list bool :=
  match l with
  | [] => []
  | x :: l' => bool_decide (x ∈ seen) :: duplicated_from (x :: seen) l'
  end.

Definition count_true (l : list bool) : nat :=
  length (filter (fun b => b = true) l).

(** [sorted(set(l))] for texts. *)
Definition sorted_set (l : list string) : list string :=
  merge_sort String.le (remove_dups l).

Section Checks.
Context `{ToNumeric}.

(** [int(df.duplicated().sum())] *)
Definition duplicate_count (df : DataFrame) : nat :=
  match df_columns df with
  | [] => O
  | _ => count_true (duplicated_from [] (map (map hash_key) (df_rows df)))
  end.

(** [df.isna().sum()], as its items. *)
Definition null_counts (df : DataFrame) : list (string * nat) :=
  imap (fun j col => (col, length (filter (fun v => isna v = true)
                                     (column_at df j))))
       (columns df).

Definition null_columns (df : DataFrame) : list string :=
  map (fun '(col, count) => col +:+ " (" +:+ pretty count +:+ ")")
      (filter (fun '(col, count) => (0 < count)%nat) (null_counts df)).

Definition null_line (df : DataFrame) : string :=
  match null_columns df with
  | [] => "- Columns containing null values: none"
  | cols => "- Columns containing null values: " +:+ Fmt.join ", " cols
  end.

(** The lines of [for column in df.columns] on mixed types. *)
Definition mixed_type_line (column : string) (cells : list value)
  : list string :=
  let distinct_types := remove_dups (map type_name (dropna cells)) in
  if (1 <? length distinct_types)%nat then
    ["- Mixed data types in '" +:+ column +:+ "': "
     +:+ Fmt.join ", " (merge_sort String.le distinct_types)]
  else [].

Definition mixed_type_lines (df : DataFrame) : list string :=
  concat (imap (fun j column => mixed_type_line column (column_at df j))
               (columns df)).

(** The number of texts of a column that differ from their stripped
    form. *)
Definition differs_from_strip (v : value) : bool :=
  match v with
  | VStr s => negb (String.eqb s (Str.strip s))
  | _ => false
  end.

Definition trimmed_mismatch (cells : list value) : nat :=
  let series := dropna cells in
  let string_series := filter (fun v => isinstance_str v = true) series in
  length (filter (fun v => differs_from_strip v = true) string_series).

Definition string_issue_line (j : nat) (cd : string * dtype)
  (df : DataFrame) : list string :=
  match cd with
  | (column, object_) =>
      let count := trimmed_mismatch (column_at df j) in
      if (0 <? count)%nat then
        ["- " +:+ pretty count +:+ " values in '" +:+ column
         +:+ "' have leading/trailing spaces"]
      else []
  | _ => []
  end.

Definition string_issue_lines (df : DataFrame) : list string :=
  concat (imap (fun j cd => string_issue_line j cd df) (df_columns df)).

(** What one cell adds to [unexpected_values]. *)
Definition offender (expected : list string) (v : value) : option string :=
  match v with
  | VStr s => if bool_decide (s ∈ expected) then None else Some s
  | _ => Some (type_name v)
  end.

Definition unexpected_values (expected : list string) (cells : list value)
  : list string :=
  sorted_set (omap (offender expected) (dropna cells)).

Definition unexpected_line (df : DataFrame) (ce : string * list string)
  : list string :=
  let '(column, expected) := ce in
  if negb (has_column df column) then []
  else
    match unexpected_values expected (get_column df column) with
    | [] => []
    | vals =>
        ["- Unexpected values in '" +:+ column +:+ "': "
         +:+ Fmt.join ", " vals]
    end.

Definition unexpected_lines (df : DataFrame) : list string :=
  concat (map (unexpected_line df) EXPECTED_VALUES).

(** Whether [pd.to_numeric(..., errors="coerce")] leaves NaN in the place
    of a cell. *)
Definition coerce_isna (v : value) : bool :=
  match v with
  | VNull => true
  | VStr s => negb (str_coerces s)
  | _ => false
  end.

(** [int(pd.to_numeric(df[column], errors="coerce").isna().sum())] *)
Definition non_numeric_count (df : DataFrame) (column : string) : nat :=
  length (filter (fun v => coerce_isna v = true) (get_column df column)).

Definition msrp_line (df : DataFrame) : list string :=
  if has_column df "msrp" then
    let count := non_numeric_count df "msrp" in
    if (0 <? count)%nat then
      ["- 'msrp' contains " +:+ pretty count +:+ " non-numeric values"]
    else []
  else [].

Definition model_year_line (df : DataFrame) : list string :=
  if has_column df "model_year" then
    if (0 <? non_numeric_count df "model_year")%nat then
      ["- 'model_year' includes non-numeric entries"]
    else []
  else [].

(** [report_lines] as it stands when the report text is joined. *)
Definition report_lines (df : DataFrame) : list string :=
  [ "Data diagnosis report";
    "- Rows: " +:+ pretty (length (df_rows df));
    "- Columns: " +:+ pretty (length (df_columns df)) ]
  ++ [ "- Duplicate rows detected: " +:+ pretty (duplicate_count df) ]
  ++ [ null_line df ]
  ++ mixed_type_lines df
  ++ string_issue_lines df
  ++ unexpected_lines df
  ++ msrp_line df
  ++ model_year_line df.

(** *** The entry point and what it leaves behind *)

(** What a run has done to its surroundings, in the order done. *)
Inductive event :=
  | Print (text : string)
  | Mkdir (dir : path)
  | WriteText (file : path) (text : string).

(** The directory that is created and the file that is written. *)
Definition report_target (w : World) (report_path : option string)
  : path * path :=
  match report_path with
  | None =>
      let default_dir := Path "generated_data" in
      (default_dir,
       joinpath default_dir
         (Path ("diagnosis_report_" +:+ utcnow_stamp w +:+ ".txt")))
  | Some p =>
      let report_file := Path p in
      (parent report_file, report_file)
  end.

(** The outcome of a run and what it has done by then: an error of the
    load, of a [print], of [mkdir] or of [write_text] ends the run where it
    is raised. *)
Definition diagnose_generated_data (w : World) (source : string)
  (report_path : option string) : result unit * list event :=
  match _load_dataframe w source with
  | Raise e => (Raise e, [])
  | Ok df =>
      let report_text := Fmt.join Str.nl (report_lines df) in
      match print w report_text with
      | Raise e => (Raise e, [])
      | Ok _ =>
          let '(dir, report_file) := report_target w report_path in
          match mkdir w dir with
          | Raise e => (Raise e, [ Print report_text ])
          | Ok _ =>
              match write_text w report_file (report_text +:+ Str.nl) with
              | Raise e => (Raise e, [ Print report_text; Mkdir dir ])
              | Ok _ =>
                  let saved :=
                    "Report saved to "
                    +:+ path_str (path_resolve w report_file) in
                  let so_far :=
                    [ Print report_text; Mkdir dir;
                      WriteText report_file (report_text +:+ Str.nl) ] in
                  match print w saved with
                  | Raise e => (Raise e, so_far)
                  | Ok _ => (Ok tt, so_far ++ [ Print saved ])
                  end
              end
          end
      end
  end.

End Checks.

(** ** Vocabulary of the statements *)

Section Returns.
Context {rng : Type} `{PyRandom rng}.

(** [m] returns, from every state of the generator, a value that
    satisfies [P]: it does not raise. *)
Definition returns {A} (m : @M rng A) (P : A -> Prop) : Prop :=
  forall g, exists a g', m g = Ok (a, g') /\ P a.

End Returns.

(** The identifier of the base record built at index [idx]. *)
Definition car_id_of (idx : nat) : string := "C" +:+ Fmt.zero_pad3 (idx + 1).

(** A year cell of the generator: a year of the range, as a number or as
    its decimal text. *)
Definition year_cell (v : value) : Prop :=
  exists y, 2013 <= y < 2024 /\ (v = VInt y \/ v = VStr (Fmt.str_int y)).

(** What holds of a record all through the body of the loop. *)
Definition row_inv (idx : nat) (r : row) : Prop :=
  car_id r = car_id_of idx /\ year_cell (model_year r).

(** The shape of [data] when the frame is built: a reordering of the base
    records followed by the copies. *)
Definition data_shape (rows : Z) (data : list row) : Prop :=
  exists base dups,
    data ≡ₚ base ++ dups
    /\ length base = Z.to_nat (base_rows rows)
    /\ length dups = Z.to_nat (duplicate_rows_needed rows)
    /\ Forall2 row_inv (seq 0 (length base)) base
    /\ Forall (fun d => d ∈ base) dups.

(** Two generator objects answer alike: related states give the same
    draws and related next states. *)
Definition draws_alike {rng1 rng2 : Type} `{PyRandom rng1} `{PyRandom rng2}
    (sim : rng1 -> rng2 -> Prop) : Prop :=
  forall g1 g2, sim g1 g2 ->
    (forall n, (randbelow n g1).1 = (randbelow n g2).1
               /\ sim (randbelow n g1).2 (randbelow n g2).2)
    /\ (random53 g1).1 = (random53 g2).1
    /\ sim (random53 g1).2 (random53 g2).2.

(** Two computations, each on its own generator object, come out alike from
    related states: the same value and related states, or the same
    exception. *)
Definition alike {rng1 rng2 : Type} (sim : rng1 -> rng2 -> Prop) {A}
    (m1 : @M rng1 A) (m2 : @M rng2 A) : Prop :=
  forall g1 g2, sim g1 g2 ->
    match m1 g1, m2 g2 with
    | Ok (a1, g1'), Ok (a2, g2') => a1 = a2 /\ sim g1' g2'
    | Raise e1, Raise e2 => e1 = e2
    | _, _ => False
    end.

(** The null listing in the spec's words: going through the columns in
    order, a pair [column (count)] for each column whose number of missing
    cells is above zero, where [j] is the position of the first column of
    [cols] in the frame. *)
Fixpoint null_listing_from (df : DataFrame) (j : nat) (cols : list string)
  : list string :=
  match cols with
  | [] => []
  | col :: rest =>
      let count := length (filter (fun v => isna v = true) (column_at df j)) in
      (if (0 <? count)%nat
       then [col +:+ " (" +:+ pretty count +:+ ")"] else [])
      ++ null_listing_from df (S j) rest
  end.

(** The world [w] with another import machinery. *)
Definition with_import (w : World) (f : string -> result module) : World :=
  {| script_dir := script_dir w;
     path_exists := path_exists w;
     path_resolve := path_resolve w;
     read_csv := read_csv w;
     has_loader := has_loader w;
     exec_module := exec_module w;
     import_module := f;
     utcnow_stamp := utcnow_stamp w;
     print := print w;
     mkdir := mkdir w;
     write_text := write_text w |}.

(** The module that a source leads to, when it leads to one: the module
    file executed, or the module imported by name. *)
Definition resolved_module (w : World) (source : string) : option module :=
  match _resolve_candidate_path w source with
  | Ok (Some p) =>
      if String.eqb (Str.lower (suffix p)) ".py" && has_loader w p then
        match exec_module w p with Ok m => Some m | Raise _ => None end
      else None
  | Ok None =>
      match import_module w (_module_name source) with
      | Ok m => Some m
      | Raise _ => None
      end
  | Raise _ => None
  end.

(** The three causes of a load failure that the spec names. *)
Definition unresolved_source (w : World) (source : string) : Prop :=
  _resolve_candidate_path w source = Ok None
  /\ is_ok (import_module w (_module_name source)) = false.

Definition unsupported_extension (w : World) (source : string) : Prop :=
  exists p, _resolve_candidate_path w source = Ok (Some p)
            /\ Str.lower (suffix p) <> ".csv"
            /\ Str.lower (suffix p) <> ".py".

Definition missing_entry_point (w : World) (source : string) : Prop :=
  exists m, resolved_module w source = Some m /\ generator_fn m = None.

(** The causes it leaves to the callee: the check of a candidate path, the
    CSV reader, the loading and the execution of a module file, and the
    call of the entry point. *)
Definition candidate_check_fails (w : World) (source : string) : Prop :=
  exists before c after e,
    candidates w source = before ++ c :: after
    /\ (forall b, b ∈ before -> path_exists w b = Ok false)
    /\ path_exists w c = Raise e.

Definition csv_reader_fails (w : World) (source : string) : Prop :=
  exists p, _resolve_candidate_path w source = Ok (Some p)
            /\ Str.lower (suffix p) = ".csv"
            /\ is_ok (read_csv w p) = false.

Definition module_file_fails (w : World) (source : string) : Prop :=
  exists p, _resolve_candidate_path w source = Ok (Some p)
            /\ Str.lower (suffix p) = ".py"
            /\ (has_loader w p = false \/ is_ok (exec_module w p) = false).

Definition entry_point_fails (w : World) (source : string) : Prop :=
  exists m r, resolved_module w source = Some m
              /\ generator_fn m = Some r /\ is_ok r = false.

(** The value of a text of decimal digits, read from the left. *)
Fixpoint digits_value (s : string) (acc : N) : N :=
  match s with
  | String c s' => digits_value s' (10 * acc + (N_of_ascii c - 48))%N
  | EmptyString => acc
  end.

(** [m] satisfies [P] whenever it returns; it may raise. *)
Definition ensures {rng : Type} {A} (m : @M rng A) (P : A -> Prop) : Prop :=
  forall g a g', m g = Ok (a, g') -> P a.

(** The variants that the generator puts in the place of a valid trim,
    transmission or fuel. *)
Definition trim_variants : list string := ["standart"; "Premuim"; "luxary"].
Definition transmission_variants : list string :=
  ["Automtic"; "manuall"; "automatic "; "AUTOMATIC"].
Definition fuel_variants : list string := ["gasolen"; "deisel"].

(** A model cell of a record of make [mk]: a model of that make in the
    catalog, as it is or with one space before and two after. *)
Definition model_of_make (mk mdl : string) : Prop :=
  exists models m,
    dict_get models_by_make mk = Some models /\ m ∈ models
    /\ (mdl = m \/ mdl = " " +:+ m +:+ "  ").

(** The prices that [randrange(22000, 70000, 500)] draws from. *)
Definition list_price (p : Z) : Prop :=
  exists k, (k < 96)%nat /\ p = 22000 + 500 * Z.of_nat k.

(** A price cell: a list price as a number, the same with currency
    formatting, or the placeholder. *)
Definition price_cell (v : value) : Prop :=
  v = VStr "N/A"
  \/ exists p, list_price p
               /\ (v = VInt p \/ v = VStr ("$" +:+ Fmt.comma_int p)).

(** A cell that is missing or a text of [vocab]. *)
Definition nullable_in (vocab : list string) (v : value) : Prop :=
  v = VNull \/ exists s, v = VStr s /\ s ∈ vocab.

(** Where the fields of a generated record lie. *)
Definition row_domain (r : row) : Prop :=
  model_of_make (make r) (model r)
  /\ price_cell (msrp r)
  /\ trim_level r ∈ trims ++ trim_variants
  /\ transmission r ∈ transmissions ++ transmission_variants
  /\ fuel_type r ∈ fuels ++ fuel_variants
  /\ nullable_in colors (exterior_color r)
  /\ nullable_in infotainment (infotainment_system r).

(** A text without its commas. *)
Fixpoint strip_commas (s : string) : string :=
  match s with
  | String c s' =>
      if Ascii.eqb c "," then strip_commas s' else String c (strip_commas s')
  | EmptyString => EmptyString
  end.

(** The characters of a text. *)
Definition chars (s : string) : list ascii := list_ascii_of_string s.

(** A text that starts or ends with a whitespace character. *)
Definition outer_space (s : string) : bool :=
  match chars s with
  | [] => false
  | c :: _ => Str.isspace c || Str.isspace (List.last (chars s) c)
  end.

(** A cell that is a text with whitespace at one of its ends. *)
Definition has_outer_space (v : value) : bool :=
  match v with
  | VStr s => outer_space s
  | _ => false
  end.

(** The catalog models, all makes together. *)
Definition catalog_models : list string :=
  concat (map snd models_by_make).

(** Decimal digits, and texts made of them only. *)
Definition is_digit (c : ascii) : bool :=
  let n := nat_of_ascii c in ((48 <=? n) && (n <=? 57))%nat.

Fixpoint all_digits (s : string) : bool :=
  match s with
  | String c s' => is_digit c && all_digits s'
  | EmptyString => true
  end.

(** ** Samples to run the model on *)

Module Sample.

(** A linear congruential generator in the place of the interpreter's
    Mersenne Twister. *)
Definition lcg_next (s : N) : N :=
  ((6364136223846793005 * s + 1442695040888963407) mod 2 ^ 64)%N.

Definition lcg_randbelow (n : nat) (s : N) : nat * N :=
  let s' := lcg_next s in
  (N.to_nat ((s' / 2 ^ 16) mod N.of_nat n)%N, s').

Definition lcg_random53 (s : N) : N * N :=
  let s' := lcg_next s in ((s' / 2 ^ 11)%N, s').

(** Non-empty texts of decimal digits, the least that [to_numeric]
    accepts. *)
Definition decimal (s : string) : bool :=
  match s with
  | EmptyString => false
  | _ => all_digits s
  end.

(** A table of one cell, and a world around the diagnoser in which the
    name [data_generation.py] is both a file under the working directory
    and, without its extension, an importable module. *)
Definition frame_of (tag : string) : DataFrame :=
  {| df_columns := [("car_id", object_)]; df_rows := [[VStr tag]] |}.

Definition both_ways : World :=
  {| script_dir := Path "/repo/data_diagnosis";
     path_exists := fun p => Ok (bool_decide (p = Path "data_generation.py"));
     path_resolve := fun p => joinpath (Path "/repo") p;
     read_csv := fun _ => Raise (OtherError "no such file");
     has_loader := fun _ => true;
     exec_module := fun _ =>
       Ok {| generator_fn := Some (Ok (frame_of "from the file")) |};
     import_module := fun _ =>
       Ok {| generator_fn := Some (Ok (frame_of "from the import")) |};
     utcnow_stamp := "20240101_000000";
     print := fun _ => Ok tt;
     mkdir := fun _ => Ok tt;
     write_text := fun _ _ => Ok tt |}.

(** A world in which [data.csv] lies in the parent of the diagnoser's
    directory and nowhere else. *)
Definition above_only : World :=
  {| script_dir := Path "/repo/data_diagnosis";
     path_exists := fun p => Ok (bool_decide (p = Path "/repo/data.csv"));
     path_resolve := fun p => p;
     read_csv := fun _ => Ok (frame_of "from the parent");
     has_loader := fun _ => true;
     exec_module := fun _ => Raise (OtherError "not a module");
     import_module := fun _ => Raise (ImportError "No module named 'data'");
     utcnow_stamp := "20240101_000000";
     print := fun _ => Ok tt;
     mkdir := fun _ => Ok tt;
     write_text := fun _ _ => Ok tt |}.

(** A world in which [data.csv] exists and the reader rejects it. *)
Definition bad_csv : World :=
  {| script_dir := Path "/repo/data_diagnosis";
     path_exists := fun p => Ok (bool_decide (p = Path "data.csv"));
     path_resolve := fun p => joinpath (Path "/repo") p;
     read_csv := fun _ => Raise (OtherError "No columns to parse from file");
     has_loader := fun _ => true;
     exec_module := fun _ => Raise (OtherError "not a module");
     import_module := fun _ => Raise (ImportError "No module named 'data'");
     utcnow_stamp := "20240101_000000";
     print := fun _ => Ok tt;
     mkdir := fun _ => Ok tt;
     write_text := fun _ _ => Ok tt |}.

End Sample.

(** * Properties *)

(** ** The samples implement the interfaces *)

Lemma lcg_randbelow_lt n g :
  (0 < n)%nat -> ((Sample.lcg_randbelow n g).1 < n)%nat.
Proof.
  intros Hn. unfold Sample.lcg_randbelow. cbn [fst].
  assert (Hlt : ((Sample.lcg_next g / 2 ^ 16) mod N.of_nat n < N.of_nat n)%N)
    by (apply N.mod_lt; lia).
  lia.
Qed.

Global Instance lcg : PyRandom N := {|
  Random := fun seed => Z.abs_N seed;
  randbelow := Sample.lcg_randbelow;
  random53 := Sample.lcg_random53;
  randbelow_lt := lcg_randbelow_lt
|}.

Lemma pretty_N_char_digit x : is_digit (pretty_N_char x) = true.
Proof. unfold pretty_N_char. by repeat case_match. Qed.

Lemma pretty_N_go_digits x s :
  all_digits s = true -> all_digits (pretty_N_go x s) = true.
Proof.
  revert s. induction (N.lt_wf_0 x) as [x _ IH]; intros s Hs.
  destruct (decide (x = 0)%N) as [->|Hx]; [by rewrite pretty_N_go_0|].
  rewrite pretty_N_go_step by lia.
  apply IH; [apply N.div_lt; lia|].
  cbn [all_digits]. by rewrite pretty_N_char_digit, Hs.
Qed.

Lemma pretty_N_go_nonempty x s : s <> "" -> pretty_N_go x s <> "".
Proof.
  revert s. induction (N.lt_wf_0 x) as [x _ IH]; intros s Hs.
  destruct (decide (x = 0)%N) as [->|Hx]; [by rewrite pretty_N_go_0|].
  rewrite pretty_N_go_step by lia.
  apply IH; [apply N.div_lt; lia|done].
Qed.

Lemma decimal_pretty (n : N) : Sample.decimal (pretty n) = true.
Proof.
  unfold pretty, pretty_N. case_decide; [done|].
  assert (Hne : pretty_N_go n "" <> "").
  { rewrite pretty_N_go_step by lia. by apply pretty_N_go_nonempty. }
  unfold Sample.decimal. destruct (pretty_N_go n "") eqn:E; [done|].
  rewrite <- E. by apply pretty_N_go_digits.
Qed.

Global Instance digits_only : ToNumeric := {|
  str_coerces := Sample.decimal;
  str_coerces_digits := decimal_pretty;
  str_coerces_NA := eq_refl
|}.


(** ** Decimal texts *)

Lemma string_app_nil_r (s : string) : s +:+ "" = s.
Proof.
  induction s as [|c s IH]; [done|].
  change (String c (s +:+ "") = String c s). by rewrite IH.
Qed.

Lemma string_app_assoc (a b c : string) : (a +:+ b) +:+ c = a +:+ (b +:+ c).
Proof.
  induction a as [|x a IH]; [done|].
  change (String x ((a +:+ b) +:+ c) = String x (a +:+ (b +:+ c))).
  by rewrite IH.
Qed.

Lemma pretty_N_go_app x s : pretty_N_go x s = pretty_N_go x "" +:+ s.
Proof.
  revert s. induction (N.lt_wf_0 x) as [x _ IH]; intros s.
  destruct (decide (x = 0)%N) as [->|Hx]; [by rewrite !pretty_N_go_0|].
  rewrite (pretty_N_go_step x s), (pretty_N_go_step x "") by lia.
  assert (Hlt : (x `div` 10 < x)%N) by (apply N.div_lt; lia).
  rewrite (IH _ Hlt (String _ s)), (IH _ Hlt (String _ "")).
  by rewrite string_app_assoc.
Qed.

Lemma digits_value_app a b acc :
  digits_value (a +:+ b) acc = digits_value b (digits_value a acc).
Proof. revert acc. induction a as [|c a IH]; intros acc; [done|apply IH]. Qed.

Lemma digit_of_pretty_N_char d :
  (d < 10)%N -> (N_of_ascii (pretty_N_char d) - 48)%N = d.
Proof.
  intros Hd.
  assert (d = 0 \/ d = 1 \/ d = 2 \/ d = 3 \/ d = 4 \/ d = 5 \/ d = 6
          \/ d = 7 \/ d = 8 \/ d = 9)%N as Hcases by lia.
  destruct_or!; subst; reflexivity.
Qed.

Lemma digits_value_pretty_N_go x : digits_value (pretty_N_go x "") 0 = x.
Proof.
  induction (N.lt_wf_0 x) as [x _ IH].
  destruct (decide (x = 0)%N) as [->|Hx]; [done|].
  rewrite pretty_N_go_step, pretty_N_go_app, digits_value_app by lia.
  rewrite IH by (apply N.div_lt; lia). cbn [digits_value].
  rewrite digit_of_pretty_N_char by (apply N.mod_lt; lia).
  pose proof (N.div_mod x 10) as Hd. lia.
Qed.

Lemma digits_value_pretty (n : N) : digits_value (pretty n) 0 = n.
Proof.
  unfold pretty, pretty_N. case_decide; [by subst|].
  apply digits_value_pretty_N_go.
Qed.

Lemma digits_value_zeros k s :
  digits_value (Fmt.repeat_char "0" k +:+ s) 0 = digits_value s 0.
Proof. induction k as [|k IH]; [done|]. cbn. apply IH. Qed.

Lemma zero_pad3_value n : digits_value (Fmt.zero_pad3 n) 0 = N.of_nat n.
Proof.
  unfold Fmt.zero_pad3. rewrite digits_value_zeros.
  apply (digits_value_pretty (N.of_nat n)).
Qed.

Lemma car_id_of_inj i j : car_id_of i = car_id_of j -> i = j.
Proof.
  unfold car_id_of. intros Heq. simplify_eq/=.
  assert (Hv : N.of_nat (i + 1) = N.of_nat (j + 1))
    by (rewrite <- !zero_pad3_value; congruence).
  lia.
Qed.

Lemma NoDup_car_id_of n : NoDup (map car_id_of (seq 0 n)).
Proof.
  apply (NoDup_fmap_2_strong car_id_of).
  - intros i j _ _. apply car_id_of_inj.
  - apply NoDup_seq.
Qed.

(** ** Reasoning about draws *)

Section ReturnsRules.
Context {rng : Type} `{PyRandom rng}.
Local Open Scope py_scope.

Lemma returns_ret {A} (a : A) (P : A -> Prop) :
  P a -> returns (rng:=rng) (ret a) P.
Proof. intros Ha g. by exists a, g. Qed.

Lemma returns_bind {A B} (m : @M rng A) (k : A -> @M rng B) Q
  (P : B -> Prop) :
  returns m Q ->
  (forall a, Q a -> returns (k a) P) ->
  returns (bind m k) P.
Proof.
  intros Hm Hk g. destruct (Hm g) as (a & g1 & Hrun & Ha).
  destruct (Hk a Ha g1) as (b & g2 & Hrun' & Hb).
  exists b, g2. unfold bind. by rewrite Hrun.
Qed.

Lemma returns_weaken {A} (m : @M rng A) (P Q : A -> Prop) :
  returns m P -> (forall a, P a -> Q a) -> returns m Q.
Proof.
  intros Hm HPQ g. destruct (Hm g) as (a & g' & Hrun & Ha). eauto.
Qed.

Lemma returns_choice {A} (seq : list A) :
  seq <> [] -> returns (choice seq) (fun x => x ∈ seq).
Proof.
  intros Hne g. unfold choice.
  destruct seq as [|x0 seq0] eqn:Eseq; [done|]. rewrite <- Eseq.
  assert (Hlen : (0 < length seq)%nat) by (subst seq; simpl; lia).
  pose proof (randbelow_lt (length seq) g Hlen) as Hlt.
  destruct (randbelow (length seq) g) as [i g'].
  destruct (lookup_lt_is_Some_2 seq i Hlt) as [x Hx].
  exists x, g'. rewrite Hx. split; [done|].
  by eapply list_elem_of_lookup_2.
Qed.

Lemma choice_empty {A} g : choice (A:=A) [] g = Raise IndexError.
Proof. done. Qed.

Lemma returns_randbelow n :
  returns (fun g => Ok (randbelow n g)) (fun _ => True).
Proof. intros g. destruct (randbelow n g) as [j g'] eqn:E. by exists j, g'. Qed.

Lemma returns_randrange start stop step :
  0 < (stop - start + step - 1) / step ->
  returns (randrange start stop step) (fun _ => True).
Proof.
  intros Hn g. unfold randrange.
  destruct (Z.leb_spec ((stop - start + step - 1) / step) 0); [lia|].
  destruct (randbelow _ g) as [k g']. by eexists _, g'.
Qed.

Lemma returns_random_lt p : returns (random_lt p) (fun _ => True).
Proof.
  intros g. unfold random_lt. destruct (random53 g) as [k g'].
  by eexists _, g'.
Qed.

Lemma returns_when_lt p r body (P : row -> Prop) :
  P r ->
  (forall r', P r' -> returns (body r') P) ->
  returns (when_lt p r body) P.
Proof.
  intros Hr Hbody. unfold when_lt.
  eapply returns_bind; [apply returns_random_lt|].
  intros [] _; [by apply Hbody|by apply returns_ret].
Qed.

Lemma swap_Permutation {A} (x : list A) i j : swap x i j ≡ₚ x.
Proof.
  unfold swap. destruct (x !! i) as [xi|] eqn:Ei; [|done].
  destruct (x !! j) as [xj|] eqn:Ej; [|done].
  by apply Permutation_insert_swap.
Qed.

Lemma returns_shuffle_from {A} i (x : list A) :
  returns (shuffle_from i x) (fun y => y ≡ₚ x).
Proof.
  revert x. induction i as [|i IH]; intros x.
  - by apply returns_ret.
  - cbn [shuffle_from].
    eapply returns_bind; [apply returns_randbelow|]. intros j _.
    eapply returns_weaken; [apply IH|]. intros y Hy.
    by rewrite Hy, swap_Permutation.
Qed.

Lemma returns_shuffle {A} (x : list A) :
  returns (shuffle x) (fun y => y ≡ₚ x).
Proof. apply returns_shuffle_from. Qed.

End ReturnsRules.

(** ** The generator *)

Lemma elem_of_range lo hi y : y ∈ range lo hi -> lo <= y < hi.
Proof.
  unfold range. intros Hy. apply list_elem_of_fmap in Hy as (k & -> & Hk).
  apply elem_of_seq in Hk. lia.
Qed.

Lemma duplicate_rows_needed_ge rows : 2 <= duplicate_rows_needed rows.
Proof. unfold duplicate_rows_needed. lia. Qed.

Lemma base_rows_pos rows : 3 <= rows -> 1 <= base_rows rows.
Proof.
  intros Hrows. unfold base_rows, duplicate_rows_needed.
  pose proof (Z.div_mod rows 6) as Hd.
  pose proof (Z.mod_pos_bound rows 6). lia.
Qed.

Lemma base_rows_nonpos rows : rows <= 2 -> base_rows rows <= 0.
Proof. intros Hrows. unfold base_rows, duplicate_rows_needed. lia. Qed.

Section GeneratorFacts.
Context {rng : Type} `{PyRandom rng}.
Local Open Scope py_scope.

Local Ltac draw :=
  eapply returns_bind;
  [ first [ apply returns_choice; by compute
          | apply returns_randrange; by compute
          | apply returns_random_lt ]
  | intros ? ?; cbv beta in * ].

Local Ltac guarded idx :=
  eapply returns_bind;
  [ apply returns_when_lt with (P := row_inv idx); [eassumption|]
  | intros ? ?; cbv beta in * ].

Lemma returns_make_row idx : returns (make_row idx) (row_inv idx).
Proof.
  unfold make_row.
  eapply returns_bind; [apply returns_choice; by compute|].
  intros mk Hmk.
  assert (Hmodels : exists l, dict_get models_by_make mk = Some l /\ l <> []).
  { cbn in Hmk. set_unfold. destruct_or!; subst; try done;
      eexists; (split; [reflexivity|done]). }
  destruct Hmodels as (l & -> & Hl).
  eapply returns_bind; [by apply (returns_ret l (fun l' => l' = l))|].
  intros ? ->.
  eapply returns_bind; [by apply returns_choice|]. intros mdl _.
  draw. draw.
  match goal with Hy : _ ∈ range _ _ |- _ => apply elem_of_range in Hy end.
  draw. draw. draw. draw. draw.
  match goal with
  | |- returns (bind (when_lt _ ?r _) _) _ =>
      assert (Hinv : row_inv idx r) by (split; [done|eexists; eauto])
  end.
  guarded idx.
  { intros r [Hid Hyear]. by apply returns_ret. }
  guarded idx.
  { intros r [Hid Hyear]. by apply returns_ret. }
  guarded idx.
  { intros r [Hid Hyear]. apply returns_ret. split; [done|].
    destruct Hyear as (y & Hy & [Hv|Hv]); rewrite Hv; cbn;
      exists y; eauto. }
  guarded idx.
  { intros r [Hid Hyear]. by apply returns_ret. }
  guarded idx.
  { intros r [Hid Hyear]. by apply returns_ret. }
  guarded idx.
  { intros r [Hid Hyear]. draw. by apply returns_ret. }
  guarded idx.
  { intros r [Hid Hyear]. draw. by apply returns_ret. }
  guarded idx.
  { intros r [Hid Hyear]. draw. by apply returns_ret. }
  guarded idx.
  { intros r [Hid Hyear]. by apply returns_ret. }
  by apply returns_ret.
Qed.

Lemma returns_base_loop idxs data :
  returns (base_loop idxs data)
    (fun out => exists new, out = data ++ new /\ Forall2 row_inv idxs new).
Proof.
  revert data. induction idxs as [|idx idxs IH]; intros data.
  - apply returns_ret. exists []. by rewrite app_nil_r.
  - cbn [base_loop].
    eapply returns_bind; [apply returns_make_row|]. intros r Hr.
    eapply returns_weaken; [apply IH|].
    intros out (new & -> & Hnew). exists (r :: new).
    split; [by rewrite <- app_assoc|by constructor].
Qed.

Lemma returns_duplicate_loop n data :
  data <> [] ->
  returns (duplicate_loop n data)
    (fun out => exists dups, out = data ++ dups /\ length dups = n
                             /\ Forall (fun d => d ∈ data) dups).
Proof.
  revert data. induction n as [|n IH]; intros data Hne.
  - apply returns_ret. exists []. by rewrite app_nil_r.
  - cbn [duplicate_loop].
    eapply returns_bind; [by apply returns_choice|]. intros d Hd.
    eapply returns_weaken; [apply IH; by destruct data|].
    intros out (dups & -> & Hlen & Hdups). exists (d :: dups).
    split; [by rewrite <- app_assoc|]. split; [simpl; lia|].
    constructor; [done|].
    eapply Forall_impl; [exact Hdups|]. intros x Hx.
    apply elem_of_app in Hx as [Hx|Hx]; [done|].
    apply list_elem_of_singleton in Hx. by subst.
Qed.

Lemma duplicate_loop_empty n g :
  duplicate_loop (S n) [] g = Raise IndexError.
Proof. done. Qed.

Lemma generate_data_returns rows seed :
  3 <= rows ->
  exists data, generate_data rows seed = Ok data /\ data_shape rows data.
Proof.
  intros Hrows. unfold generate_data.
  pose proof (base_rows_pos rows Hrows) as Hbase.
  set (m := bind _ _).
  assert (Hm : returns m (data_shape rows)).
  { subst m.
    eapply returns_bind; [apply returns_base_loop|].
    intros data (base & -> & Hbase_inv). cbn [app] in *.
    assert (Hlen : length base = Z.to_nat (base_rows rows)).
    { apply Forall2_length in Hbase_inv.
      by rewrite length_seq in Hbase_inv. }
    eapply returns_bind.
    { apply returns_duplicate_loop. intros ->. simpl in Hlen. lia. }
    intros data (dups & -> & Hdups_len & Hdups).
    eapply returns_weaken; [apply returns_shuffle|].
    intros out Hout. exists base, dups.
    repeat split; try done. by rewrite Hlen. }
  destruct (Hm (Random seed)) as (data & g' & Hrun & Hshape).
  exists data. by rewrite Hrun.
Qed.

Lemma generate_data_raises rows seed :
  rows <= 2 -> generate_data rows seed = Raise IndexError.
Proof.
  intros Hrows. unfold generate_data.
  pose proof (base_rows_nonpos rows Hrows) as Hbase.
  replace (Z.to_nat (base_rows rows)) with 0%nat by lia.
  assert (Hdup : duplicate_rows_needed rows = 2).
  { unfold duplicate_rows_needed.
    assert (rows / 6 < 1) by (apply Z.div_lt_upper_bound; lia). lia. }
  rewrite Hdup. done.
Qed.

Lemma data_shape_length rows data :
  3 <= rows -> data_shape rows data -> Z.of_nat (length data) = rows.
Proof.
  intros Hrows (base & dups & Hperm & Hb & Hd & _).
  rewrite Hperm, length_app, Hb, Hd.
  pose proof (base_rows_pos rows Hrows).
  pose proof (duplicate_rows_needed_ge rows).
  unfold base_rows in *. lia.
Qed.

Lemma data_shape_row_inv rows data r :
  data_shape rows data -> r ∈ data -> exists idx, row_inv idx r.
Proof.
  intros (base & dups & Hperm & _ & _ & Hbase & Hdups) Hr.
  assert (Hin_base : forall b, b ∈ base -> exists idx, row_inv idx b).
  { intros b Hb. apply list_elem_of_lookup in Hb as [i Hi].
    destruct (Forall2_lookup_r _ _ _ _ _ Hbase Hi) as (idx & _ & Hinv).
    eauto. }
  rewrite Hperm in Hr. apply elem_of_app in Hr as [Hr|Hr]; [eauto|].
  rewrite Forall_forall in Hdups. eauto.
Qed.

Lemma base_car_ids (base : list row) :
  Forall2 row_inv (seq 0 (length base)) base ->
  map car_id base = map car_id_of (seq 0 (length base)).
Proof.
  intros Hbase. symmetry.
  induction Hbase as [|idx r idxs rs [Hid _] _ IH]; [done|].
  cbn. by rewrite Hid, IH.
Qed.

End GeneratorFacts.

(** ** Frames built from records *)

Lemma pd_DataFrame_rows data : df_rows (pd_DataFrame data) = map row_cells data.
Proof. done. Qed.

Lemma pd_DataFrame_columns data :
  data <> [] -> columns (pd_DataFrame data) = row_keys.
Proof. intros Hne. by destruct data. Qed.

Lemma pd_DataFrame_car_id data :
  data <> [] ->
  get_column (pd_DataFrame data) "car_id" = map (fun r => VStr (car_id r)) data.
Proof.
  intros Hne. unfold get_column. rewrite pd_DataFrame_columns by done.
  cbn [index_of row_keys String.eqb Ascii.eqb Bool.eqb]. unfold column_at.
  rewrite pd_DataFrame_rows, map_map. done.
Qed.

Lemma pd_DataFrame_model_year data :
  data <> [] ->
  get_column (pd_DataFrame data) "model_year" = map model_year data.
Proof.
  intros Hne. unfold get_column. rewrite pd_DataFrame_columns by done.
  replace (index_of "model_year" row_keys) with (Some 3%nat) by reflexivity.
  unfold column_at. rewrite pd_DataFrame_rows, map_map. done.
Qed.


(** ** Counting duplicates *)

Section Duplicates.
Context {A : Type} `{EqDecision A}.

(** Every element outside [seen] that is not marked is a new element: if
    the new elements all come from a list [k] without repetition, at most
    [length k] elements are unmarked. *)
Lemma duplicated_from_bound (l seen k : list A) :
  NoDup k ->
  (forall x, x ∈ l -> x ∈ seen \/ x ∈ k) ->
  (forall x, x ∈ k -> x ∉ seen) ->
  (length l <= count_true (duplicated_from seen l) + length k)%nat.
Proof.
  revert seen k. induction l as [|x l IH]; intros seen k Hk Hcover Hfresh.
  - simpl. lia.
  - cbn [duplicated_from]. unfold count_true in *.
    rewrite filter_cons. case_bool_decide as Hseen.
    + rewrite decide_True by done. cbn [length].
      assert (Hcover' : forall y, y ∈ l -> y ∈ x :: seen \/ y ∈ k).
      { intros y Hy. destruct (Hcover y) as [?|?];
          [by right| left; by right |by right]. }
      assert (Hfresh' : forall y, y ∈ k -> y ∉ x :: seen).
      { intros y Hy Hys. apply elem_of_cons in Hys as [->|Hys];
          by eapply Hfresh. }
      specialize (IH (x :: seen) k Hk Hcover' Hfresh'). lia.
    + rewrite decide_False by done.
      destruct (Hcover x) as [?|Hxk]; [by left|done|].
      apply elem_of_Permutation in Hxk as [k' Hk'].
      rewrite Hk' in Hk. apply NoDup_cons in Hk as [Hxk' Hk'nd].
      assert (Hcover' : forall y, y ∈ l -> y ∈ x :: seen \/ y ∈ k').
      { intros y Hy. destruct (decide (y = x)) as [->|Hne]; [left; by left|].
        destruct (Hcover y) as [?|Hyk]; [by right| left; by right |].
        right. rewrite Hk' in Hyk.
        by apply elem_of_cons in Hyk as [?|?]. }
      assert (Hfresh' : forall y, y ∈ k' -> y ∉ x :: seen).
      { intros y Hy Hys. apply elem_of_cons in Hys as [->|Hys]; [done|].
        eapply Hfresh; [|done]. rewrite Hk'. by right. }
      specialize (IH (x :: seen) k' Hk'nd Hcover' Hfresh').
      rewrite Hk'. cbn [length]. lia.
Qed.



End Duplicates.

(** ** What the generator returns *)

Section GeneratorClaims.
Context {rng : Type} `{PyRandom rng}.

Lemma generate_frame_returns rows seed :
  3 <= rows ->
  exists data,
    generate_raw_car_equipment_data rows seed = Ok (pd_DataFrame data)
    /\ data_shape rows data.
Proof.
  intros Hrows.
  destruct (generate_data_returns rows seed Hrows) as (data & Hrun & Hshape).
  exists data. unfold generate_raw_car_equipment_data. by rewrite Hrun.
Qed.

Lemma generate_frame_inv rows seed df :
  generate_raw_car_equipment_data rows seed = Ok df ->
  3 <= rows /\ exists data, df = pd_DataFrame data /\ data_shape rows data.
Proof.
  intros Hrun. destruct (Z.le_gt_cases 3 rows) as [Hrows|Hrows].
  - split; [done|].
    destruct (generate_frame_returns rows seed Hrows) as (data & Hrun' & ?).
    exists data. split; [congruence|done].
  - unfold generate_raw_car_equipment_data in Hrun.
    rewrite generate_data_raises in Hrun by lia. discriminate.
Qed.

Lemma data_shape_nonempty rows data :
  3 <= rows -> data_shape rows data -> data <> [].
Proof.
  intros Hrows Hshape Hnil.
  pose proof (data_shape_length rows data Hrows Hshape) as Hlen.
  subst data. simpl in Hlen. lia.
Qed.


End GeneratorClaims.

(** C9.  The generator returns a table exactly from three rows on.  For
    [rows >= 3] and every seed it returns a table of exactly [rows] rows.
    For [rows <= 2] the number of base records, [rows - max(2, rows // 6)],
    is at most zero, the first loop leaves [data] empty, the copying loop
    draws from the empty list and raises, and so does the call. *)
Theorem generate_total_from_three_rows {rng : Type} `{PyRandom rng}
    (rows seed : Z) :
  (3 <= rows ->
     exists df, generate_raw_car_equipment_data rows seed = Ok df
                /\ Z.of_nat (length (df_rows df)) = rows)
  /\ (rows <= 2 ->
        base_rows rows <= 0
        /\ (forall g, base_loop (seq 0 (Z.to_nat (base_rows rows))) [] g
                      = Ok ([], g))
        /\ (forall g, duplicate_loop
                        (Z.to_nat (duplicate_rows_needed rows)) [] g
                      = Raise IndexError)
        /\ generate_raw_car_equipment_data rows seed = Raise IndexError).
Proof.
  split; intros Hrows.
  - destruct (generate_frame_returns rows seed Hrows) as (data & Hrun & Hsh).
    exists (pd_DataFrame data). split; [done|].
    rewrite pd_DataFrame_rows, length_map.
    by apply data_shape_length.
  - pose proof (base_rows_nonpos rows Hrows) as Hbase.
    repeat split.
    + done.
    + intros g. by replace (Z.to_nat (base_rows rows)) with 0%nat by lia.
    + intros g. pose proof (duplicate_rows_needed_ge rows) as Hdup.
      destruct (Z.to_nat (duplicate_rows_needed rows)) as [|n] eqn:En;
        [lia|done].
    + unfold generate_raw_car_equipment_data.
      by rewrite generate_data_raises.
Qed.

Lemma generate_total_from_three_rows_witness :
  (3 <= 3 /\
     exists df, generate_raw_car_equipment_data (rng:=N) 3 7 = Ok df
                /\ Z.of_nat (length (df_rows df)) = 3)
  /\ (2 <= 2 /\
        generate_raw_car_equipment_data (rng:=N) 2 7 = Raise IndexError).
Proof.
  destruct (generate_total_from_three_rows (rng:=N) 3 7) as [Hthree _].
  destruct (generate_total_from_three_rows (rng:=N) 2 7) as [_ Htwo].
  split; (split; [lia|]).
  - apply Hthree. lia.
  - apply Htwo. lia.
Defined.

(** C1, as stated, fails: with three rows the table holds one base record
    and two copies of it, so the identifier [C001] stands in all three
    rows. *)
Lemma car_id_not_unique_in_table :
  exists df,
    generate_raw_car_equipment_data (rng:=N) 3 7 = Ok df
    /\ get_column df "car_id" = [VStr "C001"; VStr "C001"; VStr "C001"]
    /\ ~ NoDup (get_column df "car_id").
Proof.
  eexists. split; [vm_compute; reflexivity|].
  split; [vm_compute; reflexivity|].
  vm_compute. intros Hnd. apply NoDup_cons in Hnd as [Hnotin _].
  apply Hnotin. by left.
Qed.

(** C1, amended.  In every table that the generator returns, the identifier
    is unique among the base records only: the table is a reordering of
    [rows - max(2, rows // 6)] base records, which carry the identifiers
    [C001], [C002], ... without repetition, and of [max(2, rows // 6)]
    copies, each equal to a base record and so sharing its identifier; the
    identifier column of the whole table therefore always has a repeated
    value. *)
Theorem car_id_unique_among_base_records {rng : Type} `{PyRandom rng}
    (rows seed : Z) (df : DataFrame) :
  generate_raw_car_equipment_data rows seed = Ok df ->
  exists base dups : list row,
    df_rows df ≡ₚ map row_cells (base ++ dups)
    /\ get_column df "car_id" ≡ₚ map (fun r => VStr (car_id r)) (base ++ dups)
    /\ Z.of_nat (length base) = rows - Z.max 2 (rows / 6)
    /\ Z.of_nat (length dups) = Z.max 2 (rows / 6)
    /\ map car_id base = map car_id_of (seq 0 (length base))
    /\ NoDup (map car_id base)
    /\ Forall (fun d => d ∈ base) dups
    /\ ~ NoDup (get_column df "car_id").
Proof.
  intros Hrun.
  destruct (generate_frame_inv rows seed df Hrun)
    as (Hrows & data & -> & Hshape).
  pose proof (data_shape_nonempty rows data Hrows Hshape) as Hne.
  destruct Hshape as (base & dups & Hperm & Hb & Hd & Hinv & Hdups).
  pose proof (base_rows_pos rows Hrows) as Hbase.
  pose proof (duplicate_rows_needed_ge rows) as Hdup.
  pose proof (base_car_ids base Hinv) as Hids.
  assert (Hcol : get_column (pd_DataFrame data) "car_id"
                 ≡ₚ map (fun r => VStr (car_id r)) (base ++ dups)).
  { rewrite pd_DataFrame_car_id by done. by rewrite Hperm. }
  exists base, dups. repeat split.
  - rewrite pd_DataFrame_rows. by rewrite Hperm.
  - done.
  - rewrite Hb. unfold base_rows, duplicate_rows_needed in *. lia.
  - rewrite Hd. unfold duplicate_rows_needed in *. lia.
  - done.
  - rewrite Hids. apply NoDup_car_id_of.
  - done.
  - rewrite Hcol, map_app. intros Hnd.
    apply NoDup_app in Hnd as (_ & Hdisj & _).
    destruct dups as [|d dups]; [simpl in Hd; lia|].
    apply Forall_cons in Hdups as [Hd_base _].
    apply (Hdisj (VStr (car_id d))).
    + by apply (list_elem_of_fmap_2 (fun r => VStr (car_id r))).
    + by left.
Qed.

Lemma car_id_unique_among_base_records_witness :
  exists df,
    generate_raw_car_equipment_data (rng:=N) 30 7 = Ok df
    /\ exists base dups : list row,
         df_rows df ≡ₚ map row_cells (base ++ dups)
         /\ get_column df "car_id"
            ≡ₚ map (fun r => VStr (car_id r)) (base ++ dups)
         /\ Z.of_nat (length base) = 30 - Z.max 2 (30 / 6)
         /\ Z.of_nat (length dups) = Z.max 2 (30 / 6)
         /\ map car_id base = map car_id_of (seq 0 (length base))
         /\ NoDup (map car_id base)
         /\ Forall (fun d => d ∈ base) dups
         /\ ~ NoDup (get_column df "car_id").
Proof.
  eexists. split; [vm_compute; reflexivity|].
  apply (car_id_unique_among_base_records (rng:=N) 30 7).
  vm_compute; reflexivity.
Defined.



(** ** Two invocations *)

Section TwoGenerators.
Context {rng1 rng2 : Type} `{R1 : PyRandom rng1} `{R2 : PyRandom rng2}.
Context (sim : rng1 -> rng2 -> Prop).
Hypothesis Hsim : draws_alike sim.
Local Open Scope py_scope.

Lemma alike_ret {A} (a : A) : alike sim (ret a) (ret a).
Proof. by intros g1 g2 Hg. Qed.

Lemma alike_raise {A} e : alike sim (raise (A:=A) e) (raise e).
Proof. by intros g1 g2 Hg. Qed.

Lemma alike_bind {A B} (m1 : @M rng1 A) (m2 : @M rng2 A)
    (k1 : A -> @M rng1 B) (k2 : A -> @M rng2 B) :
  alike sim m1 m2 ->
  (forall a, alike sim (k1 a) (k2 a)) ->
  alike sim (bind m1 k1) (bind m2 k2).
Proof.
  intros Hm Hk g1 g2 Hg. specialize (Hm g1 g2 Hg). unfold bind.
  destruct (m1 g1) as [[a1 g1']|e1], (m2 g2) as [[a2 g2']|e2];
    try done.
  destruct Hm as [-> Hg']. by apply Hk.
Qed.

Lemma alike_randbelow n :
  alike sim (fun g => Ok (randbelow n g)) (fun g => Ok (randbelow n g)).
Proof.
  intros g1 g2 Hg. destruct (Hsim g1 g2 Hg) as [Hbelow _].
  destruct (Hbelow n) as [Hout Hnext].
  by destruct (randbelow n g1), (randbelow n g2).
Qed.

Lemma alike_choice {A} (seq : list A) : alike sim (choice seq) (choice seq).
Proof.
  intros g1 g2 Hg. unfold choice. destruct seq as [|x seq]; [done|].
  pose proof (alike_randbelow (length (x :: seq)) g1 g2 Hg) as Hdraw.
  cbv beta in Hdraw.
  destruct (randbelow _ g1) as [i1 g1'], (randbelow _ g2) as [i2 g2'].
  destruct Hdraw as [Hi Hg']. subst i2.
  by destruct ((x :: seq) !! i1).
Qed.

Lemma alike_randrange start stop step :
  alike sim (randrange start stop step) (randrange start stop step).
Proof.
  intros g1 g2 Hg. unfold randrange.
  destruct ((stop - start + step - 1) / step <=? 0); [by cbn|].
  pose proof (alike_randbelow
                (Z.to_nat ((stop - start + step - 1) / step)) g1 g2 Hg)
    as Hdraw.
  cbv beta in Hdraw.
  destruct (randbelow _ g1) as [i1 g1'], (randbelow _ g2) as [i2 g2'].
  by destruct Hdraw as [-> Hg'].
Qed.

Lemma alike_random_lt p : alike sim (random_lt p) (random_lt p).
Proof.
  intros g1 g2 Hg. unfold random_lt.
  destruct (Hsim g1 g2 Hg) as (_ & Hout & Hnext).
  destruct (random53 g1) as [k1 g1'], (random53 g2) as [k2 g2'].
  simpl in *. by subst.
Qed.

Lemma alike_when_lt p r (body1 : row -> @M rng1 row)
    (body2 : row -> @M rng2 row) :
  (forall r', alike sim (body1 r') (body2 r')) ->
  alike sim (when_lt p r body1) (when_lt p r body2).
Proof.
  intros Hbody. unfold when_lt.
  apply alike_bind; [apply alike_random_lt|].
  intros []; [apply Hbody|apply alike_ret].
Qed.

Lemma alike_shuffle_from {A} i (x : list A) :
  alike sim (shuffle_from i x) (shuffle_from i x).
Proof.
  revert x. induction i as [|i IH]; intros x; [apply alike_ret|].
  cbn [shuffle_from]. apply alike_bind; [apply alike_randbelow|].
  intros j. apply IH.
Qed.

Local Ltac alike_step :=
  first [ apply alike_ret
        | apply alike_choice
        | apply alike_randrange
        | apply alike_raise
        | apply alike_when_lt; intros ?
        | apply alike_bind; [|intros ?] ].

Lemma alike_make_row idx : alike sim (make_row idx) (make_row idx).
Proof.
  unfold make_row.
  apply alike_bind; [apply alike_choice|]. intros mk.
  apply alike_bind.
  { destruct (dict_get models_by_make mk);
      [apply alike_ret|apply alike_raise]. }
  intros models. repeat alike_step.
Qed.

Lemma alike_base_loop idxs data :
  alike sim (base_loop idxs data) (base_loop idxs data).
Proof.
  revert data. induction idxs as [|idx idxs IH]; intros data;
    [apply alike_ret|].
  cbn [base_loop]. apply alike_bind; [apply alike_make_row|].
  intros r. apply IH.
Qed.

Lemma alike_duplicate_loop n data :
  alike sim (duplicate_loop n data) (duplicate_loop n data).
Proof.
  revert data. induction n as [|n IH]; intros data; [apply alike_ret|].
  cbn [duplicate_loop]. apply alike_bind; [apply alike_choice|].
  intros d. apply IH.
Qed.

Lemma alike_generate_data rows seed :
  sim (Random seed) (Random seed) ->
  generate_data (rng:=rng1) rows seed = generate_data (rng:=rng2) rows seed.
Proof.
  intros Hseed. unfold generate_data.
  set (m1 := bind _ _). set (m2 := bind _ _).
  assert (Hm : alike sim m1 m2).
  { subst m1 m2. apply alike_bind; [apply alike_base_loop|].
    intros data. apply alike_bind; [apply alike_duplicate_loop|].
    intros data'. apply alike_shuffle_from. }
  specialize (Hm _ _ Hseed).
  destruct (m1 (Random seed)) as [[a1 g1']|e1],
           (m2 (Random seed)) as [[a2 g2']|e2]; try done.
  - destruct Hm as [-> _]. done.
  - by subst.
Qed.

End TwoGenerators.

(** C4.  The generator is deterministic.  Two invocations with the same
    [rows] and [seed] each seed a generator object of their own; whenever
    the two objects answer draws alike from the states that the seed gives
    them, the two invocations return the same result: the same table, rows,
    values and order, or the same exception.  Nothing but the draws and the
    arguments enters the table. *)
Theorem generate_deterministic {rng1 rng2 : Type}
    `{R1 : PyRandom rng1} `{R2 : PyRandom rng2}
    (sim : rng1 -> rng2 -> Prop) (rows seed : Z) :
  draws_alike sim ->
  sim (Random seed) (Random seed) ->
  generate_raw_car_equipment_data (rng:=rng1) rows seed
  = generate_raw_car_equipment_data (rng:=rng2) rows seed.
Proof.
  intros Hsim Hseed. unfold generate_raw_car_equipment_data.
  by rewrite (alike_generate_data sim Hsim rows seed Hseed).
Qed.

Lemma generate_deterministic_witness :
  draws_alike (rng1:=N) (rng2:=N) eq
  /\ Random (rng:=N) 7 = Random (rng:=N) 7
  /\ generate_raw_car_equipment_data (rng:=N) 30 7
     = generate_raw_car_equipment_data (rng:=N) 30 7.
Proof.
  assert (Halike : draws_alike (rng1:=N) (rng2:=N) eq).
  { intros g1 g2 ->. repeat split. }
  split; [exact Halike|]. split; [reflexivity|].
  apply (generate_deterministic (rng1:=N) (rng2:=N) eq 30 7 Halike).
  reflexivity.
Defined.

(** ** The lines of the report *)

Lemma pretty_N_first_digit (n : N) :
  exists c s, pretty n = String c s /\ is_digit c = true.
Proof.
  pose proof (decimal_pretty n) as Hdec. unfold Sample.decimal in Hdec.
  destruct (pretty n) as [|c s]; [done|].
  exists c, s. split; [done|]. cbn in Hdec. by apply andb_true_iff in Hdec as [? _].
Qed.

Lemma pretty_nat_first_digit (n : nat) :
  exists c s, pretty n = String c s /\ is_digit c = true.
Proof. apply (pretty_N_first_digit (N.of_nat n)). Qed.

Lemma prefix_app (p rest : string) : String.prefix p (p +:+ rest) = true.
Proof.
  induction p as [|a p IH]; [by destruct rest|].
  change (String.prefix (String a p) (String a p +:+ rest))
    with (if ascii_dec a a then String.prefix p (p +:+ rest) else false).
  by destruct (ascii_dec a a).
Qed.

Lemma elem_of_concat {A} (ls : list (list A)) (x : A) :
  x ∈ concat ls <-> exists l, x ∈ l /\ l ∈ ls.
Proof.
  rewrite list_elem_of_In, in_concat. split.
  - intros (l & Hl & Hx). exists l. by rewrite !list_elem_of_In.
  - intros (l & Hx & Hl). exists l. by rewrite <- !list_elem_of_In.
Qed.

Section ReportLines.
Context `{ToNumeric}.

Lemma elem_of_report_lines df s :
  s ∈ report_lines df <->
    s = "Data diagnosis report"
    \/ s = "- Rows: " +:+ pretty (length (df_rows df))
    \/ s = "- Columns: " +:+ pretty (length (df_columns df))
    \/ s = "- Duplicate rows detected: " +:+ pretty (duplicate_count df)
    \/ s = null_line df
    \/ s ∈ mixed_type_lines df
    \/ s ∈ string_issue_lines df
    \/ s ∈ unexpected_lines df
    \/ s ∈ msrp_line df
    \/ s ∈ model_year_line df.
Proof.
  unfold report_lines. rewrite !elem_of_app, !elem_of_cons, elem_of_nil.
  tauto.
Qed.

Lemma null_line_shape df :
  exists rest, null_line df = "- Columns containing null values: " +:+ rest.
Proof. unfold null_line. destruct (null_columns df); eauto. Qed.

Lemma mixed_type_lines_shape df s :
  s ∈ mixed_type_lines df ->
  exists rest, s = "- Mixed data types in '" +:+ rest.
Proof.
  unfold mixed_type_lines. intros Hs.
  apply elem_of_concat in Hs as (l & Hs & Hl).
  apply elem_of_lookup_imap_1 in Hl as (j & column & -> & _).
  unfold mixed_type_line in Hs. case_match; [|by apply elem_of_nil in Hs].
  apply list_elem_of_singleton in Hs as ->. eauto.
Qed.

Lemma string_issue_lines_shape df s :
  s ∈ string_issue_lines df ->
  exists c rest, s = "- " +:+ String c rest /\ is_digit c = true.
Proof.
  unfold string_issue_lines. intros Hs.
  apply elem_of_concat in Hs as (l & Hs & Hl).
  apply elem_of_lookup_imap_1 in Hl as (j & [column dt] & -> & _).
  unfold string_issue_line in Hs.
  destruct dt; try by apply elem_of_nil in Hs.
  case_match; [|by apply elem_of_nil in Hs].
  apply list_elem_of_singleton in Hs as ->.
  destruct (pretty_nat_first_digit (trimmed_mismatch (column_at df j)))
    as (c & rest & -> & Hc).
  by exists c, (rest +:+ " values in '" +:+ column
                +:+ "' have leading/trailing spaces").
Qed.

Lemma unexpected_lines_shape df s :
  s ∈ unexpected_lines df ->
  exists column expected,
    (column, expected) ∈ EXPECTED_VALUES
    /\ has_column df column = true
    /\ unexpected_values expected (get_column df column) <> []
    /\ s = "- Unexpected values in '" +:+ column +:+ "': "
           +:+ Fmt.join ", "
                 (unexpected_values expected (get_column df column)).
Proof.
  unfold unexpected_lines. intros Hs.
  apply elem_of_concat in Hs as (l & Hs & Hl).
  apply list_elem_of_fmap in Hl as ([column expected] & -> & Hce).
  exists column, expected. unfold unexpected_line in Hs.
  destruct (has_column df column); [|by apply elem_of_nil in Hs].
  cbn [negb] in Hs.
  destruct (unexpected_values expected (get_column df column)) as [|v vs]
    eqn:Evals; [by apply elem_of_nil in Hs|].
  apply list_elem_of_singleton in Hs as ->. done.
Qed.

Lemma unexpected_lines_intro df column expected :
  (column, expected) ∈ EXPECTED_VALUES ->
  has_column df column = true ->
  unexpected_values expected (get_column df column) <> [] ->
  ("- Unexpected values in '" +:+ column +:+ "': "
   +:+ Fmt.join ", " (unexpected_values expected (get_column df column)))
    ∈ unexpected_lines df.
Proof.
  intros Hce Hcol Hvals. unfold unexpected_lines.
  apply elem_of_concat. eexists. split;
    [|apply (list_elem_of_fmap_2 (unexpected_line df)); exact Hce].
  unfold unexpected_line. rewrite Hcol. cbn [negb].
  destruct (unexpected_values expected (get_column df column)); [done|].
  by left.
Qed.

Lemma msrp_line_elem df s :
  s ∈ msrp_line df <->
    has_column df "msrp" = true
    /\ (0 < non_numeric_count df "msrp")%nat
    /\ s = "- 'msrp' contains " +:+ pretty (non_numeric_count df "msrp")
           +:+ " non-numeric values".
Proof.
  unfold msrp_line. destruct (has_column df "msrp").
  - destruct (Nat.ltb_spec 0 (non_numeric_count df "msrp")).
    + rewrite list_elem_of_singleton.
      split; [by intros ->|by intros (_ & _ & ->)].
    + rewrite elem_of_nil. split; [done|]. intros (_ & ? & _). lia.
  - rewrite elem_of_nil. split; [done|by intros [? _]].
Qed.

Lemma model_year_line_elem df s :
  s ∈ model_year_line df <->
    has_column df "model_year" = true
    /\ (0 < non_numeric_count df "model_year")%nat
    /\ s = "- 'model_year' includes non-numeric entries".
Proof.
  unfold model_year_line. destruct (has_column df "model_year").
  - destruct (Nat.ltb_spec 0 (non_numeric_count df "model_year")).
    + rewrite list_elem_of_singleton.
      split; [by intros ->|by intros (_ & _ & ->)].
    + rewrite elem_of_nil. split; [done|]. intros (_ & ? & _). lia.
  - rewrite elem_of_nil. split; [done|by intros [? _]].
Qed.

End ReportLines.

(** Each check writes lines of its own: a line is told from the lines of the
    other checks by how it starts. *)
Section LineFamilies.
Context `{ToNumeric}.

Lemma prefix_cons a s1 b s2 :
  String.prefix (String a s1) (String b s2) = true ->
  a = b /\ String.prefix s1 s2 = true.
Proof.
  change (String.prefix (String a s1) (String b s2))
    with (if ascii_dec a b then String.prefix s1 s2 else false).
  by destruct (ascii_dec a b).
Qed.

Lemma prefix_third q p c rest :
  String.prefix (String "-" (String " " (String q p)))
                ("- " +:+ String c rest) = true ->
  q = c.
Proof.
  change ("- " +:+ String c rest)
    with (String "-" (String " " (String c rest))).
  intros Hp. apply prefix_cons in Hp as [_ Hp].
  apply prefix_cons in Hp as [_ Hp]. by apply prefix_cons in Hp as [? _].
Qed.

Local Ltac families Hs :=
  apply elem_of_report_lines in Hs;
  destruct Hs as [Hs|[Hs|[Hs|[Hs|[Hs|[Hs|[Hs|[Hs|[Hs|Hs]]]]]]]]].

Local Ltac not_this_family Hp :=
  first
    [ by (cbn in Hp)
    | match goal with
      | Hd : is_digit ?c = true |- _ =>
          apply prefix_third in Hp; subst c; by cbn in Hd
      end ].


Lemma report_line_model_year df s :
  s ∈ report_lines df ->
  String.prefix "- 'mo" s = true ->
  s ∈ model_year_line df.
Proof.
  intros Hs Hp. families Hs; try done.
  - subst. not_this_family Hp.
  - subst. not_this_family Hp.
  - subst. not_this_family Hp.
  - subst. not_this_family Hp.
  - destruct (null_line_shape df) as [rest Hrest].
    rewrite Hs, Hrest in Hp. not_this_family Hp.
  - apply mixed_type_lines_shape in Hs as [rest ->]. not_this_family Hp.
  - apply string_issue_lines_shape in Hs as (c & rest & -> & Hc).
    not_this_family Hp.
  - apply unexpected_lines_shape in Hs as (? & ? & _ & _ & _ & ->).
    not_this_family Hp.
  - apply msrp_line_elem in Hs as (_ & _ & ->). not_this_family Hp.
Qed.

Lemma report_line_null df s :
  s ∈ report_lines df ->
  String.prefix "- Columns c" s = true ->
  s = null_line df.
Proof.
  intros Hs Hp. families Hs; try done.
  - subst. not_this_family Hp.
  - subst. not_this_family Hp.
  - subst. not_this_family Hp.
  - subst. not_this_family Hp.
  - apply mixed_type_lines_shape in Hs as [rest ->]. not_this_family Hp.
  - apply string_issue_lines_shape in Hs as (c & rest & -> & Hc).
    not_this_family Hp.
  - apply unexpected_lines_shape in Hs as (? & ? & _ & _ & _ & ->).
    not_this_family Hp.
  - apply msrp_line_elem in Hs as (_ & _ & ->). not_this_family Hp.
  - apply model_year_line_elem in Hs as (_ & _ & ->). not_this_family Hp.
Qed.

Lemma report_line_unexpected df s :
  s ∈ report_lines df ->
  String.prefix "- U" s = true ->
  s ∈ unexpected_lines df.
Proof.
  intros Hs Hp. families Hs; try done.
  - subst. not_this_family Hp.
  - subst. not_this_family Hp.
  - subst. not_this_family Hp.
  - subst. not_this_family Hp.
  - destruct (null_line_shape df) as [rest Hrest].
    rewrite Hs, Hrest in Hp. not_this_family Hp.
  - apply mixed_type_lines_shape in Hs as [rest ->]. not_this_family Hp.
  - apply string_issue_lines_shape in Hs as (c & rest & -> & Hc).
    not_this_family Hp.
  - apply msrp_line_elem in Hs as (_ & _ & ->). not_this_family Hp.
  - apply model_year_line_elem in Hs as (_ & _ & ->). not_this_family Hp.
Qed.

End LineFamilies.

(** ** The null check *)

Section NullCheck.
Context `{ToNumeric}.

Lemma null_listing_imap df k cols :
  map (fun '(col, count) => col +:+ " (" +:+ pretty count +:+ ")")
      (filter (fun '(col, count) => (0 < count)%nat)
         (imap (fun j col =>
                  (col, length (filter (fun v => isna v = true)
                                  (column_at df (k + j)))))
               cols))
  = null_listing_from df k cols.
Proof.
  revert k. induction cols as [|col cols IH]; intros k; [done|].
  rewrite imap_cons. cbn [null_listing_from].
  rewrite Nat.add_0_r, filter_cons.
  assert (Hrest :
    imap ((fun j col0 =>
             (col0, length (filter (fun v => isna v = true)
                              (column_at df (k + j))))) ∘ S) cols
    = imap (fun j col0 =>
              (col0, length (filter (fun v => isna v = true)
                               (column_at df (S k + j))))) cols).
  { apply imap_ext. intros j col0 _. cbn. by rewrite Nat.add_succ_r. }
  rewrite Hrest, <- (IH (S k)).
  destruct (Nat.ltb_spec 0 (length (filter (fun v => isna v = true)
                                      (column_at df k)))).
  - by rewrite decide_True by done.
  - by rewrite decide_False by lia.
Qed.

Lemma null_columns_listing df :
  null_columns df = null_listing_from df 0 (columns df).
Proof. unfold null_columns, null_counts. apply (null_listing_imap df 0). Qed.

Lemma null_listing_nil df k cols :
  null_listing_from df k cols = [] <->
  forall j, (j < length cols)%nat ->
    length (filter (fun v => isna v = true) (column_at df (k + j))) = 0%nat.
Proof.
  revert k. induction cols as [|col cols IH]; intros k.
  - split; [intros _ j Hj; simpl in Hj; lia|done].
  - cbn [null_listing_from length]. split.
    + intros Hnil. apply app_nil in Hnil as [Hhead Htail].
      intros [|j] Hj.
      * rewrite Nat.add_0_r.
        destruct (Nat.ltb_spec 0
                    (length (filter (fun v => isna v = true)
                               (column_at df k)))) as [Hpos|Hzero];
          [done|lia].
      * rewrite Nat.add_succ_r. apply (proj1 (IH (S k)) Htail). lia.
    + intros Hall. apply app_nil. split.
      * specialize (Hall 0%nat ltac:(lia)). rewrite Nat.add_0_r in Hall.
        by rewrite Hall.
      * apply IH. intros j Hj. specialize (Hall (S j) ltac:(lia)).
        by rewrite Nat.add_succ_r in Hall.
Qed.

Lemma lines_around_null df s :
  s ∈ [ "Data diagnosis report";
        "- Rows: " +:+ pretty (length (df_rows df));
        "- Columns: " +:+ pretty (length (df_columns df));
        "- Duplicate rows detected: " +:+ pretty (duplicate_count df) ]
      ++ (mixed_type_lines df ++ string_issue_lines df
          ++ unexpected_lines df ++ msrp_line df ++ model_year_line df) ->
  String.prefix "- Columns containing null values: " s = false.
Proof.
  intros Hs. destruct (String.prefix _ s) eqn:Hp; [exfalso|done].
  rewrite !elem_of_app, !elem_of_cons, elem_of_nil in Hs.
  destruct_or!; try done; subst; try by (cbn in Hp).
  - match goal with
    | Hm : _ ∈ mixed_type_lines _ |- _ =>
        apply mixed_type_lines_shape in Hm as [rest ->]
    end. by cbn in Hp.
  - match goal with
    | Hm : _ ∈ string_issue_lines _ |- _ =>
        apply string_issue_lines_shape in Hm as (c & rest & -> & Hc)
    end. apply prefix_third in Hp. subst c. by cbn in Hc.
  - match goal with
    | Hm : _ ∈ unexpected_lines _ |- _ =>
        apply unexpected_lines_shape in Hm as (? & ? & _ & _ & _ & ->)
    end. by cbn in Hp.
  - match goal with
    | Hm : _ ∈ msrp_line _ |- _ =>
        apply msrp_line_elem in Hm as (_ & _ & ->)
    end. by cbn in Hp.
  - match goal with
    | Hm : _ ∈ model_year_line _ |- _ =>
        apply model_year_line_elem in Hm as (_ & _ & ->)
    end. by cbn in Hp.
Qed.

End NullCheck.

(** C7.  The null check writes exactly one line, the fifth of the report.
    It is the literal line [- Columns containing null values: none] when no
    column has a missing cell; otherwise it lists, after the same heading
    and separated by commas, the pairs [column (count)] in column order, for
    exactly the columns whose number of missing cells is above zero. *)
Theorem null_check_one_line `{ToNumeric} (df : DataFrame) :
  (exists before after,
     report_lines df = before ++ null_line df :: after
     /\ length before = 4%nat
     /\ forall s, s ∈ before ++ after ->
          String.prefix "- Columns containing null values: " s = false)
  /\ String.prefix "- Columns containing null values: " (null_line df) = true
  /\ ((forall j, (j < length (columns df))%nat ->
         length (filter (fun v => isna v = true) (column_at df j)) = 0%nat) ->
      null_line df = "- Columns containing null values: none")
  /\ (~ (forall j, (j < length (columns df))%nat ->
           length (filter (fun v => isna v = true) (column_at df j)) = 0%nat) ->
      null_line df
      = "- Columns containing null values: "
        +:+ Fmt.join ", " (null_listing_from df 0 (columns df))).
Proof.
  split; [|split; [|split]].
  - eexists [_; _; _; _], _. split; [reflexivity|]. split; [done|].
    apply lines_around_null.
  - destruct (null_line_shape df) as [rest ->]. apply prefix_app.
  - intros Hnone. unfold null_line. rewrite null_columns_listing.
    by rewrite (proj2 (null_listing_nil df 0 (columns df)) Hnone).
  - intros Hsome. unfold null_line. rewrite null_columns_listing.
    destruct (null_listing_from df 0 (columns df)) eqn:Elist; [|done].
    destruct Hsome. by apply (null_listing_nil df 0 (columns df)).
Qed.

Lemma null_check_one_line_witness :
  let df := {| df_columns := [("a", object_); ("b", object_); ("c", int64)];
               df_rows := [[VStr "x"; VNull; VInt 1];
                           [VNull; VNull; VInt 2];
                           [VStr "y"; VStr "z"; VInt 3]] |} in
  null_line df = "- Columns containing null values: a (1), b (2)"
  /\ null_line {| df_columns := [("a", object_)]; df_rows := [[VStr "x"]] |}
     = "- Columns containing null values: none".
Proof.
  intros df.
  destruct (null_check_one_line (H:=digits_only) df)
    as (_ & _ & _ & Hsome).
  destruct (null_check_one_line (H:=digits_only)
              {| df_columns := [("a", object_)]; df_rows := [[VStr "x"]] |})
    as (_ & _ & Hnone & _).
  split.
  - rewrite Hsome; [vm_compute; reflexivity|].
    intros Hall. specialize (Hall 0%nat ltac:(simpl; lia)). vm_compute in Hall.
    discriminate.
  - apply Hnone. intros [|j] Hj; [reflexivity|simpl in Hj; lia].
Defined.

(** ** Numeric coercion *)

Section Coercion.
Context `{ToNumeric}.



Lemma coerce_isna_year y :
  0 < y -> coerce_isna (VStr (Fmt.str_int y)) = false.
Proof.
  intros Hy. cbn [coerce_isna]. unfold Fmt.str_int.
  destruct y as [|p|p]; try lia.
  change (pretty (Z.pos p)) with (pretty (N.pos p)).
  by rewrite str_coerces_digits.
Qed.

Lemma coerce_isna_year_cell v : year_cell v -> coerce_isna v = false.
Proof.
  intros (y & Hy & [->| ->]); [done|]. apply coerce_isna_year. lia.
Qed.

Lemma filter_positive_length {A} (P : A -> Prop) `{forall x, Decision (P x)}
    (l : list A) :
  (0 < length (filter P l))%nat <-> exists x, x ∈ l /\ P x.
Proof.
  split.
  - intros Hlen. destruct (filter P l) as [|x l'] eqn:E;
      [simpl in Hlen; lia|].
    exists x. apply and_comm, (list_elem_of_filter P l x).
    rewrite E. by left.
  - intros (x & Hx & HP).
    assert (Hin : x ∈ filter P l) by by apply list_elem_of_filter.
    destruct (filter P l); [by apply elem_of_nil in Hin|simpl; lia].
Qed.

End Coercion.




(** ** Years *)

Section Years.
Context {rng : Type} `{PyRandom rng} `{ToNumeric}.

Lemma generated_years rows seed df :
  generate_raw_car_equipment_data rows seed = Ok df ->
  has_column df "model_year" = true
  /\ columns df !! 3%nat = Some "model_year"
  /\ get_column df "model_year" = column_at df 3
  /\ Forall year_cell (get_column df "model_year").
Proof.
  intros Hrun.
  destruct (generate_frame_inv rows seed df Hrun)
    as (Hrows & data & -> & Hshape).
  pose proof (data_shape_nonempty rows data Hrows Hshape) as Hne.
  assert (Hcols : columns (pd_DataFrame data) = row_keys)
    by by apply pd_DataFrame_columns.
  split; [|split; [|split]].
  - unfold has_column. rewrite Hcols. by vm_compute.
  - by rewrite Hcols.
  - unfold get_column. by rewrite Hcols.
  - rewrite pd_DataFrame_model_year by done.
    apply Forall_fmap, Forall_forall. intros r Hr.
    destruct (data_shape_row_inv rows data r Hshape Hr) as (idx & _ & Hy).
    exact Hy.
Qed.

Lemma type_names_of_years (cells : list value) :
  Forall year_cell cells ->
  (exists z, VInt z ∈ cells) ->
  (exists s, VStr s ∈ cells) ->
  remove_dups (map type_name (dropna cells)) ≡ₚ ["int"; "str"].
Proof.
  intros Hyears (z & Hz) (s & Hs).
  apply NoDup_Permutation.
  - apply NoDup_remove_dups.
  - apply NoDup_cons. split; [|apply NoDup_singleton].
    rewrite list_elem_of_singleton. discriminate.
  - intros name. rewrite elem_of_remove_dups, list_elem_of_fmap. split.
    + intros (v & -> & Hv). apply list_elem_of_filter in Hv as [_ Hv].
      rewrite Forall_forall in Hyears.
      destruct (Hyears v Hv) as (y & _ & [-> | ->]); cbn;
        [by left|right; by left].
    + intros Hname. apply elem_of_cons in Hname as [->|Hname].
      * exists (VInt z). split; [done|]. by apply list_elem_of_filter.
      * apply list_elem_of_singleton in Hname as ->.
        exists (VStr s). split; [done|]. by apply list_elem_of_filter.
Qed.

Lemma sorted_int_str (l : list string) :
  l ≡ₚ ["int"; "str"] -> merge_sort String.le l = ["int"; "str"].
Proof.
  intros Hl. apply (Sorted_unique String.le).
  - apply Sorted_merge_sort, _.
  - repeat constructor.
  - by rewrite merge_sort_Permutation.
Qed.

Lemma mixed_years_line cells :
  Forall year_cell cells ->
  (exists z, VInt z ∈ cells) ->
  (exists s, VStr s ∈ cells) ->
  mixed_type_line "model_year" cells
  = ["- Mixed data types in 'model_year': int, str"].
Proof.
  intros Hyears Hint Hstr. unfold mixed_type_line.
  pose proof (type_names_of_years cells Hyears Hint Hstr) as Hperm.
  assert (Hlen : length (remove_dups (map type_name (dropna cells))) = 2%nat)
    by by rewrite Hperm.
  rewrite Hlen. cbn [Nat.ltb Nat.leb].
  by rewrite (sorted_int_str _ Hperm).
Qed.

End Years.

(** C10.  The report holds the line
    [- 'model_year' includes non-numeric entries] exactly when the table
    has a [model_year] column and the coercion leaves some cell of it
    without a number.  A year written as text is a text of decimal digits
    and is coerced to a number, so for no table that the generator returns
    does the report hold that line; when such a table has years of both
    kinds, they show in the mixed-type line of the column. *)
Theorem model_year_line_never_for_generated {rng : Type} `{PyRandom rng}
    `{ToNumeric} :
  (forall df,
     "- 'model_year' includes non-numeric entries" ∈ report_lines df <->
     has_column df "model_year" = true
     /\ exists v, v ∈ get_column df "model_year" /\ coerce_isna v = true)
  /\ (forall y, 2013 <= y < 2024 ->
        coerce_isna (VStr (Fmt.str_int y)) = false)
  /\ (forall rows seed df,
        generate_raw_car_equipment_data rows seed = Ok df ->
        "- 'model_year' includes non-numeric entries" ∉ report_lines df)
  /\ (forall rows seed df,
        generate_raw_car_equipment_data rows seed = Ok df ->
        (exists z, VInt z ∈ get_column df "model_year") ->
        (exists s, VStr s ∈ get_column df "model_year") ->
        "- Mixed data types in 'model_year': int, str" ∈ report_lines df).
Proof.
  assert (Hiff : forall df,
    "- 'model_year' includes non-numeric entries" ∈ report_lines df <->
    has_column df "model_year" = true
    /\ exists v, v ∈ get_column df "model_year" /\ coerce_isna v = true).
  { intros df. split.
    - intros Hs. apply report_line_model_year in Hs; [|done].
      apply model_year_line_elem in Hs as (Hcol & Hpos & _).
      split; [done|]. by apply filter_positive_length in Hpos.
    - intros [Hcol Hv]. apply elem_of_report_lines. do 9 right.
      apply model_year_line_elem. split; [done|]. split; [|done].
      by apply filter_positive_length. }
  split; [exact Hiff|]. split; [|split].
  - intros y Hy. apply coerce_isna_year. lia.
  - intros rows seed df Hrun Hline.
    apply Hiff in Hline as (_ & v & Hv & Hna).
    destruct (generated_years rows seed df Hrun) as (_ & _ & _ & Hyears).
    rewrite Forall_forall in Hyears.
    rewrite (coerce_isna_year_cell v (Hyears v Hv)) in Hna. discriminate.
  - intros rows seed df Hrun Hint Hstr.
    destruct (generated_years rows seed df Hrun)
      as (_ & Hthird & Hcolumn & Hyears).
    apply elem_of_report_lines. do 5 right. left.
    unfold mixed_type_lines. apply elem_of_concat.
    exists (mixed_type_line "model_year" (column_at df 3)). split.
    + rewrite <- Hcolumn. rewrite mixed_years_line by done. by left.
    + by apply (elem_of_lookup_imap_2
                  (fun j column => mixed_type_line column (column_at df j))).
Qed.

Lemma model_year_line_never_for_generated_witness :
  exists df,
    generate_raw_car_equipment_data (rng:=N) 30 7 = Ok df
    /\ ("- 'model_year' includes non-numeric entries"
          ∉ report_lines (H:=digits_only) df)
    /\ ("- Mixed data types in 'model_year': int, str"
          ∈ report_lines (H:=digits_only) df).
Proof.
  destruct (model_year_line_never_for_generated
              (rng:=N) (H0:=digits_only))
    as (_ & _ & Hnever & Hmixed).
  eexists. split; [vm_compute; reflexivity|]. split.
  - apply (Hnever 30 7). vm_compute; reflexivity.
  - apply (Hmixed 30 7); [vm_compute; reflexivity|..].
    + eexists. vm_compute. repeat first [by left | right].
    + eexists. vm_compute. repeat first [by left | right].
Defined.

(** ** The vocabulary check *)

Section Vocabulary.
Context `{ToNumeric}.

Lemma sorted_set_Sorted l : Sorted String.le (sorted_set l).
Proof. apply Sorted_merge_sort, _. Qed.

Lemma sorted_set_NoDup l : NoDup (sorted_set l).
Proof.
  unfold sorted_set. rewrite merge_sort_Permutation.
  apply NoDup_remove_dups.
Qed.

Lemma elem_of_sorted_set l x : x ∈ sorted_set l <-> x ∈ l.
Proof.
  unfold sorted_set. by rewrite merge_sort_Permutation, elem_of_remove_dups.
Qed.

Lemma offender_spec expected v x :
  offender expected v = Some x <->
  (exists s, v = VStr s /\ (s ∉ expected) /\ x = s)
  \/ (isinstance_str v = false /\ x = type_name v).
Proof.
  destruct v as [|z|f|b|s]; cbn [offender isinstance_str].
  1-4: split; [intros [= <-]; by right
              |intros [(s & ? & _)|[_ ->]]; [done|done]].
  case_bool_decide as Hin.
  - split; [done|]. intros [(s' & [= <-] & ? & _)|[? _]]; done.
  - split.
    + intros [= <-]. left. by exists s.
    + intros [(s' & [= <-] & _ & ->)|[? _]]; done.
Qed.

Lemma elem_of_unexpected_values expected cells x :
  x ∈ unexpected_values expected cells <->
  exists v, v ∈ cells /\ isna v = false /\ offender expected v = Some x.
Proof.
  unfold unexpected_values. rewrite elem_of_sorted_set, list_elem_of_omap.
  unfold dropna. split.
  - intros (v & Hv & Hoff). apply list_elem_of_filter in Hv as [Hna Hv].
    by exists v.
  - intros (v & Hv & Hna & Hoff). exists v. split; [|done].
    by apply list_elem_of_filter.
Qed.

End Vocabulary.

Lemma join_item sep l x :
  x ∈ l ->
  exists pre post,
    Fmt.join sep l = pre +:+ x +:+ post
    /\ (pre = "" \/ exists p, pre = p +:+ sep)
    /\ (post = "" \/ exists q, post = sep +:+ q).
Proof.
  induction l as [|y l IH]; [by intros ?%elem_of_nil|].
  intros [->|Hin]%elem_of_cons.
  - destruct l as [|z l].
    + exists "", "". cbn [Fmt.join]. split; [|by split; left].
      change ("" +:+ y +:+ "") with (y +:+ ""). by rewrite string_app_nil_r.
    + exists "", (sep +:+ Fmt.join sep (z :: l)).
      split; [done|]. split; [by left|right; by eexists].
  - destruct (IH Hin) as (pre & post & Heq & Hpre & Hpost).
    destruct l as [|z l]; [by apply elem_of_nil in Hin|].
    exists (y +:+ sep +:+ pre), post.
    change (Fmt.join sep (y :: z :: l))
      with (y +:+ sep +:+ Fmt.join sep (z :: l)).
    rewrite Heq. split; [by rewrite !string_app_assoc|].
    split; [right|done]. destruct Hpre as [->|(p & ->)].
    + exists y. by rewrite string_app_nil_r.
    + exists (y +:+ sep +:+ p). by rewrite !string_app_assoc.
Qed.

(** C8.  For each of the three columns of the vocabulary table that the
    table has, the diagnoser collects, from the cells that are not missing,
    the texts outside the column's vocabulary and, for a cell that is no
    text, the name of its type; the offenders are listed once each, in
    ascending order, on one line of the report, and no line is written for
    a column without offenders.  Each offender stands in the text of that
    line, after the heading, as an item of its own: at the start or after
    a comma and a space, and at the end or before a comma and a space.  A
    [trim_level] cell ["luxary"] is among the offenders that the report
    lists for [trim_level], and the text [luxary] stands in that line. *)
Theorem unexpected_values_reported `{ToNumeric} (df : DataFrame) :
  map fst EXPECTED_VALUES = ["trim_level"; "transmission"; "fuel_type"]
  /\ (forall column expected,
        (column, expected) ∈ EXPECTED_VALUES ->
        has_column df column = true ->
        let offenders := unexpected_values expected (get_column df column) in
        Sorted String.le offenders
        /\ NoDup offenders
        /\ (forall x,
              x ∈ offenders <->
              exists v, v ∈ get_column df column /\ isna v = false
                /\ ((exists s, v = VStr s /\ (s ∉ expected) /\ x = s)
                    \/ (isinstance_str v = false /\ x = type_name v)))
        /\ (offenders <> [] ->
            ("- Unexpected values in '" +:+ column +:+ "': "
             +:+ Fmt.join ", " offenders) ∈ report_lines df)
        /\ (offenders = [] ->
            forall rest,
              ("- Unexpected values in '" +:+ column +:+ "': " +:+ rest)
                ∉ report_lines df))
  /\ (has_column df "trim_level" = true ->
      VStr "luxary" ∈ get_column df "trim_level" ->
      exists offenders,
        "luxary" ∈ offenders
        /\ ("- Unexpected values in 'trim_level': "
            +:+ Fmt.join ", " offenders) ∈ report_lines df)
  /\ (forall column expected x,
        (column, expected) ∈ EXPECTED_VALUES ->
        has_column df column = true ->
        x ∈ unexpected_values expected (get_column df column) ->
        exists pre post,
          ("- Unexpected values in '" +:+ column +:+ "': "
           +:+ pre +:+ x +:+ post) ∈ report_lines df
          /\ (pre = "" \/ exists p, pre = p +:+ ", ")
          /\ (post = "" \/ exists q, post = ", " +:+ q))
  /\ (has_column df "trim_level" = true ->
      VStr "luxary" ∈ get_column df "trim_level" ->
      exists pre post,
        ("- Unexpected values in 'trim_level': "
         +:+ pre +:+ "luxary" +:+ post) ∈ report_lines df
        /\ (pre = "" \/ exists p, pre = p +:+ ", ")
        /\ (post = "" \/ exists q, post = ", " +:+ q)).
Proof.
  assert (Hreport : forall column expected,
    (column, expected) ∈ EXPECTED_VALUES ->
    has_column df column = true ->
    unexpected_values expected (get_column df column) <> [] ->
    ("- Unexpected values in '" +:+ column +:+ "': "
     +:+ Fmt.join ", " (unexpected_values expected (get_column df column)))
      ∈ report_lines df).
  { intros column expected Hce Hcol Hne.
    apply elem_of_report_lines. do 7 right. left.
    by apply unexpected_lines_intro. }
  assert (Hitem : forall column expected x,
    (column, expected) ∈ EXPECTED_VALUES ->
    has_column df column = true ->
    x ∈ unexpected_values expected (get_column df column) ->
    exists pre post,
      ("- Unexpected values in '" +:+ column +:+ "': "
       +:+ pre +:+ x +:+ post) ∈ report_lines df
      /\ (pre = "" \/ exists p, pre = p +:+ ", ")
      /\ (post = "" \/ exists q, post = ", " +:+ q)).
  { intros column expected x Hce Hcol Hx.
    destruct (join_item ", " _ x Hx) as (pre & post & Heq & Hpre & Hpost).
    exists pre, post. split; [|done]. rewrite <- Heq.
    apply Hreport; [done|done|].
    intros Hnil. rewrite Hnil in Hx. by apply elem_of_nil in Hx. }
  assert (Hlux : VStr "luxary" ∈ get_column df "trim_level" ->
    "luxary" ∈ unexpected_values ["Base"; "Sport"; "Premium"; "Limited"]
                 (get_column df "trim_level")).
  { intros Hcell. apply elem_of_unexpected_values. exists (VStr "luxary").
    split; [done|]. split; [done|]. by vm_compute. }
  split; [done|]. split; [|split; [|split]].
  - intros column expected Hce Hcol offenders.
    split; [apply sorted_set_Sorted|]. split; [apply sorted_set_NoDup|].
    split; [|split].
    + intros x. unfold offenders. rewrite elem_of_unexpected_values.
      by setoid_rewrite offender_spec.
    + by apply Hreport.
    + intros Hnil rest Hline.
      apply report_line_unexpected in Hline; [|reflexivity].
      apply unexpected_lines_shape
        in Hline as (column' & expected' & Hce' & _ & Hne' & Heq).
      assert (Hsame : column' = column /\ expected' = expected).
      { unfold EXPECTED_VALUES in Hce, Hce'.
        rewrite !elem_of_cons, elem_of_nil in Hce, Hce'.
        destruct_or!; simplify_eq; try done; by (cbn in Heq). }
      destruct Hsame as [-> ->]. done.
  - intros Hcol Hcell.
    exists (unexpected_values ["Base"; "Sport"; "Premium"; "Limited"]
              (get_column df "trim_level")).
    pose proof (Hlux Hcell) as Hin.
    split; [done|].
    apply (Hreport "trim_level"); [by left|done|].
    intros Hnil. rewrite Hnil in Hin. by apply elem_of_nil in Hin.
  - exact Hitem.
  - intros Hcol Hcell.
    apply (Hitem "trim_level" ["Base"; "Sport"; "Premium"; "Limited"]);
      [by left|done|by apply Hlux].
Qed.

Lemma unexpected_values_reported_witness :
  let df := {| df_columns := [("car_id", object_); ("trim_level", object_)];
               df_rows := [[VStr "C001"; VStr "Sport"];
                           [VStr "C002"; VStr "luxary"];
                           [VStr "C003"; VInt 3];
                           [VStr "C004"; VStr "Premuim"];
                           [VStr "C005"; VStr "luxary"]] |} in
  has_column df "trim_level" = true
  /\ VStr "luxary" ∈ get_column df "trim_level"
  /\ unexpected_values ["Base"; "Sport"; "Premium"; "Limited"]
       (get_column df "trim_level") = ["Premuim"; "int"; "luxary"]
  /\ (exists offenders,
       "luxary" ∈ offenders
       /\ ("- Unexpected values in 'trim_level': "
           +:+ Fmt.join ", " offenders)
            ∈ report_lines (H:=digits_only) df)
  /\ "- Unexpected values in 'trim_level': Premuim, int, luxary"
       ∈ report_lines (H:=digits_only) df.
Proof.
  intros df.
  assert (Hlux : VStr "luxary" ∈ get_column df "trim_level")
    by (vm_compute; right; left).
  split; [reflexivity|]. split; [exact Hlux|].
  split; [vm_compute; reflexivity|].
  destruct (unexpected_values_reported (H:=digits_only) df)
    as (_ & Hcolumn & Hluxary & _).
  split; [by apply Hluxary|].
  destruct (Hcolumn "trim_level" ["Base"; "Sport"; "Premium"; "Limited"]
              ltac:(by left) eq_refl) as (_ & _ & _ & Hline & _).
  assert (Htext :
    "- Unexpected values in '" +:+ "trim_level" +:+ "': "
    +:+ Fmt.join ", "
          (unexpected_values ["Base"; "Sport"; "Premium"; "Limited"]
             (get_column df "trim_level"))
    = "- Unexpected values in 'trim_level': Premuim, int, luxary")
    by (vm_compute; reflexivity).
  rewrite <- Htext. apply Hline. by vm_compute.
Defined.

(** ** Loading *)

Lemma joinpath_absolute a b : absolute b = true -> joinpath a b = b.
Proof. intros Hb. unfold joinpath. by rewrite Hb. Qed.

Lemma candidates_first_existing w source :
  first_existing w (candidates w source)
  = first_existing w
      [ Path source;
        joinpath (script_dir w) (Path source);
        joinpath (parent (script_dir w)) (Path source) ].
Proof.
  unfold candidates. destruct (absolute (Path source)) eqn:Habs; [|done].
  rewrite !joinpath_absolute by done. cbn [first_existing].
  by destruct (path_exists w (Path source)) as [[]|].
Qed.

Lemma resolve_with_import w f source :
  _resolve_candidate_path (with_import w f) source
  = _resolve_candidate_path w source.
Proof.
  unfold _resolve_candidate_path, candidates. cbn [with_import script_dir].
  generalize (if absolute (Path source) then [Path source]
              else [Path source; joinpath (script_dir w) (Path source);
                    joinpath (parent (script_dir w)) (Path source)]).
  intros l. induction l as [|c l IH]; [done|].
  cbn [first_existing with_import path_exists path_resolve]. by rewrite IH.
Qed.

Lemma load_with_import w f source :
  _resolve_candidate_path w source <> Ok None ->
  _load_dataframe (with_import w f) source = _load_dataframe w source.
Proof.
  intros Hsome. unfold _load_dataframe. rewrite resolve_with_import.
  by destruct (_resolve_candidate_path w source) as [[]|].
Qed.

(** C5.  The source string is resolved through the literal path, then the
    path under the diagnoser's directory, then the path under that
    directory's parent: the first of the three that exists is the answer,
    and the others are not looked at.  The string is taken as the name of a
    module to import only when none of the three exists.  When a candidate
    exists the import machinery has no part in the result, so a source that
    names both a file and an importable module is loaded from the file.
    When the check of a candidate raises, the load fails with that error
    and the import machinery has no part either. *)
Theorem resolution_order (w : World) (source : string) :
  let literal := Path source in
  let beside := joinpath (script_dir w) (Path source) in
  let above := joinpath (parent (script_dir w)) (Path source) in
  _resolve_candidate_path w source
  = first_existing w [literal; beside; above]
  /\ (path_exists w literal = Ok true ->
      _resolve_candidate_path w source = Ok (Some (path_resolve w literal)))
  /\ (path_exists w literal = Ok false -> path_exists w beside = Ok true ->
      _resolve_candidate_path w source = Ok (Some (path_resolve w beside)))
  /\ (path_exists w literal = Ok false -> path_exists w beside = Ok false ->
      path_exists w above = Ok true ->
      _resolve_candidate_path w source = Ok (Some (path_resolve w above)))
  /\ (path_exists w literal = Ok false -> path_exists w beside = Ok false ->
      path_exists w above = Ok false ->
      _resolve_candidate_path w source = Ok None
      /\ _load_dataframe w source
         = match import_module w (_module_name source) with
           | Raise e => Raise e
           | Ok m => call_generator m
           end)
  /\ (path_exists w literal = Ok true \/ path_exists w beside = Ok true
      \/ path_exists w above = Ok true ->
      forall f,
        _load_dataframe (with_import w f) source = _load_dataframe w source)
  /\ (path_exists w literal = Ok true ->
      is_ok (import_module w (_module_name source)) = true ->
      _resolve_candidate_path w source = Ok (Some (path_resolve w literal))
      /\ forall f,
           _load_dataframe (with_import w f) source
           = _load_dataframe w source)
  /\ (forall e, _resolve_candidate_path w source = Raise e ->
      forall f, _load_dataframe (with_import w f) source = Raise e).
Proof.
  intros literal beside above.
  assert (Horder : _resolve_candidate_path w source
                   = first_existing w [literal; beside; above])
    by apply candidates_first_existing.
  assert (Hfile : path_exists w literal = Ok true
                  \/ path_exists w beside = Ok true
                  \/ path_exists w above = Ok true ->
                  _resolve_candidate_path w source <> Ok None).
  { rewrite Horder. cbn [first_existing].
    destruct (path_exists w literal) as [[]|], (path_exists w beside) as [[]|],
      (path_exists w above) as [[]|]; intros [?|[?|?]]; done. }
  split; [exact Horder|].
  split; [|split; [|split; [|split; [|split; [|split]]]]].
  - intros Hl. rewrite Horder. cbn [first_existing]. by rewrite Hl.
  - intros Hl Hb. rewrite Horder. cbn [first_existing]. by rewrite Hl, Hb.
  - intros Hl Hb Ha. rewrite Horder. cbn [first_existing].
    by rewrite Hl, Hb, Ha.
  - intros Hl Hb Ha. split.
    + rewrite Horder. cbn [first_existing]. by rewrite Hl, Hb, Ha.
    + unfold _load_dataframe. rewrite Horder. cbn [first_existing].
      by rewrite Hl, Hb, Ha.
  - intros Hsome f. apply load_with_import. by apply Hfile.
  - intros Hl _. split.
    + rewrite Horder. cbn [first_existing]. by rewrite Hl.
    + intros f. apply load_with_import. apply Hfile. by left.
  - intros e He f. unfold _load_dataframe.
    by rewrite resolve_with_import, He.
Qed.

Lemma resolution_order_witness :
  path_exists Sample.both_ways (Path "data_generation.py") = Ok true
  /\ is_ok (import_module Sample.both_ways
              (_module_name "data_generation.py")) = true
  /\ _resolve_candidate_path Sample.both_ways "data_generation.py"
     = Ok (Some (Path "/repo/data_generation.py"))
  /\ _load_dataframe Sample.both_ways "data_generation.py"
     = Ok (Sample.frame_of "from the file")
  /\ _resolve_candidate_path Sample.above_only "data.csv"
     = Ok (Some (Path "/repo/data.csv"))
  /\ _load_dataframe Sample.above_only "data.csv"
     = Ok (Sample.frame_of "from the parent").
Proof.
  destruct (resolution_order Sample.both_ways "data_generation.py")
    as (_ & _ & _ & _ & _ & _ & Hboth & _).
  destruct (Hboth eq_refl eq_refl) as [Hresolved _].
  destruct (resolution_order Sample.above_only "data.csv")
    as (_ & _ & _ & Habove & _).
  split; [reflexivity|]. split; [reflexivity|].
  split; [rewrite Hresolved; reflexivity|]. split; [reflexivity|].
  split; [exact (Habove eq_refl eq_refl eq_refl)|reflexivity].
Defined.

(** C6, as stated, fails: a CSV file that exists and that the reader rejects
    makes the load fail although the source is resolved, its extension is
    one of the two recognized ones and no module is involved. *)
Lemma load_fails_outside_named_causes :
  is_ok (_load_dataframe Sample.bad_csv "data.csv") = false
  /\ ~ (unresolved_source Sample.bad_csv "data.csv"
        \/ unsupported_extension Sample.bad_csv "data.csv"
        \/ missing_entry_point Sample.bad_csv "data.csv").
Proof.
  split; [reflexivity|].
  assert (Hres : _resolve_candidate_path Sample.bad_csv "data.csv"
                 = Ok (Some (Path "/repo/data.csv"))) by reflexivity.
  intros [[Hnone _]|[(p & Hp & Hcsv & _)|(m & Hm & _)]].
  - rewrite Hres in Hnone. discriminate.
  - rewrite Hres in Hp. injection Hp as <-. by apply Hcsv.
  - unfold resolved_module in Hm. rewrite Hres in Hm. discriminate.
Qed.

Lemma first_existing_raises w before c after e :
  (forall b, b ∈ before -> path_exists w b = Ok false) ->
  path_exists w c = Raise e ->
  first_existing w (before ++ c :: after) = Raise e.
Proof.
  intros Hbefore Hc. induction before as [|b before IH]; cbn [first_existing app].
  - by rewrite Hc.
  - rewrite (Hbefore b) by by left. apply IH.
    intros b' Hb'. apply Hbefore. by right.
Qed.

Section LoadFailure.
Context `{ToNumeric}.

Lemma call_generator_fails m :
  is_ok (call_generator m) = false <->
  generator_fn m = None
  \/ exists r, generator_fn m = Some r /\ is_ok r = false.
Proof.
  unfold call_generator. destruct (generator_fn m) as [r|].
  - split; [intros Hr; right; by exists r|].
    by intros [?|(r' & [= <-] & ?)].
  - split; [by left|done].
Qed.

Local Ltac causes :=
  repeat match goal with
         | Hc : _ \/ _ |- _ => destruct Hc
         | Hc : _ /\ _ |- _ => destruct Hc
         | Hc : exists _, _ |- _ => destruct Hc
         end;
  simplify_eq; try done; try congruence.

Lemma load_fails_if w source :
  candidate_check_fails w source
  \/ unresolved_source w source \/ unsupported_extension w source
  \/ missing_entry_point w source \/ csv_reader_fails w source
  \/ module_file_fails w source \/ entry_point_fails w source ->
  is_ok (_load_dataframe w source) = false.
Proof.
  intros [(before & c & after & e & Hcands & Hbefore & Hc)|Hcause].
  { unfold _load_dataframe, _resolve_candidate_path.
    by rewrite Hcands, (first_existing_raises w before c after e). }
  revert Hcause.
  unfold unresolved_source, unsupported_extension, missing_entry_point,
    csv_reader_fails, module_file_fails, entry_point_fails,
    resolved_module, _load_dataframe.
  destruct (_resolve_candidate_path w source) as [[p|]|e]; [| |done].
  - destruct (String.eqb (Str.lower (suffix p)) ".csv") eqn:Ecsv.
    { apply String.eqb_eq in Ecsv.
      assert (Epy : String.eqb (Str.lower (suffix p)) ".py" = false)
        by (by rewrite Ecsv).
      rewrite Epy. cbn [andb]. intros Hc. causes. }
    apply String.eqb_neq in Ecsv.
    destruct (String.eqb (Str.lower (suffix p)) ".py") eqn:Epy; [|done].
    apply String.eqb_eq in Epy. cbn [andb].
    destruct (has_loader w p) eqn:Hloader; cbn [negb]; [|done].
    destruct (exec_module w p) as [m|e] eqn:Hexec; [|done].
    rewrite call_generator_fails.
    intros Hc. causes; first [by left | right; by eexists | idtac].
    by rewrite Hexec in *.
  - destruct (import_module w (_module_name source)) as [m|e] eqn:Himp;
      [|done].
    rewrite call_generator_fails.
    intros Hc. causes; first [by left | right; by eexists].
Qed.

End LoadFailure.

(** C6, amended.  The load fails with a fatal error whenever no candidate
    path exists and the import fails, whenever the resolved file has an
    extension other than [.csv] and [.py], and whenever the module that
    the source leads to lacks [generate_raw_car_equipment_data].  These are
    not the only causes: the load fails as well when the check of a
    candidate path raises before a candidate is found to exist, when the
    CSV reader fails on the resolved file, when the resolved module file
    has no loader or raises while it is executed, and when the call of the
    entry point raises.  On every load failure the diagnoser raises the
    same error and has printed and written nothing; when the load returns a
    table, the report is the first thing printed. *)
Theorem load_failure_causes `{ToNumeric} (w : World) (source : string)
    (report_path : option string) :
  (unresolved_source w source \/ unsupported_extension w source
   \/ missing_entry_point w source ->
   is_ok (_load_dataframe w source) = false)
  /\ (candidate_check_fails w source \/ csv_reader_fails w source
      \/ module_file_fails w source \/ entry_point_fails w source ->
      is_ok (_load_dataframe w source) = false)
  /\ (forall e, _load_dataframe w source = Raise e ->
      diagnose_generated_data w source report_path = (Raise e, []))
  /\ (forall df, _load_dataframe w source = Ok df ->
      print w (Fmt.join Str.nl (report_lines df)) = Ok tt ->
      exists rest,
        (diagnose_generated_data w source report_path).2
        = Print (Fmt.join Str.nl (report_lines df)) :: rest).
Proof.
  split; [|split; [|split]].
  - intros Hcause. apply load_fails_if. tauto.
  - intros Hcause. apply load_fails_if. tauto.
  - intros e Hload. unfold diagnose_generated_data. by rewrite Hload.
  - intros df Hload Hprint. unfold diagnose_generated_data.
    rewrite Hload, Hprint.
    destruct (report_target w report_path) as [dir report_file].
    destruct (mkdir w dir); [|by eexists].
    destruct (write_text w report_file _); [|by eexists].
    clear Hprint.
    destruct (print w _); eexists; reflexivity.
Qed.

Lemma load_failure_causes_witness :
  unresolved_source Sample.bad_csv "missing.py"
  /\ is_ok (_load_dataframe Sample.bad_csv "missing.py") = false
  /\ diagnose_generated_data (H:=digits_only) Sample.bad_csv
       "missing.py" None
     = (Raise (ImportError "No module named 'data'"), []).
Proof.
  destruct (load_failure_causes (H:=digits_only) Sample.bad_csv
              "missing.py" None) as (Hnamed & _ & Hnothing & _).
  assert (Hcause : unresolved_source Sample.bad_csv "missing.py")
    by (split; reflexivity).
  split; [exact Hcause|]. split.
  - apply Hnamed. by left.
  - apply Hnothing. reflexivity.
Defined.

(** * Further properties of the generator *)

Section MoreDraws.
Context {rng : Type} `{PyRandom rng}.
Local Open Scope py_scope.

Lemma returns_ensures {A} (m : @M rng A) (P : A -> Prop) :
  returns m P -> ensures m P.
Proof.
  intros Hm g a g' Hrun. destruct (Hm g) as (a' & g'' & Hrun' & Ha).
  congruence.
Qed.

Lemma ensures_ret {A} (a : A) (P : A -> Prop) :
  P a -> ensures (rng:=rng) (ret a) P.
Proof. intros Ha g a' g' [= <- <-]. done. Qed.

Lemma ensures_bind {A B} (m : @M rng A) (k : A -> @M rng B) Q
    (P : B -> Prop) :
  ensures m Q ->
  (forall a, Q a -> ensures (k a) P) ->
  ensures (bind m k) P.
Proof.
  intros Hm Hk g b g' Hrun. unfold bind in Hrun.
  destruct (m g) as [[a g1]|e] eqn:Em; [|done].
  eapply Hk; [|exact Hrun]. by eapply Hm.
Qed.

Lemma ensures_weaken {A} (m : @M rng A) (P Q : A -> Prop) :
  ensures m P -> (forall a, P a -> Q a) -> ensures m Q.
Proof. intros Hm HPQ g a g' Hrun. eapply HPQ, Hm, Hrun. Qed.

Lemma ensures_choice {A} (seq : list A) :
  ensures (choice seq) (fun x => x ∈ seq).
Proof.
  destruct seq as [|x0 seq0] eqn:Eseq; [by intros g a g'|].
  rewrite <- Eseq. apply returns_ensures, returns_choice. by subst.
Qed.

Lemma returns_when_lt_post p r body (P Q : row -> Prop) :
  P r ->
  (forall r', P r' -> returns (body r') Q) ->
  (forall r', P r' -> Q r') ->
  returns (when_lt p r body) Q.
Proof.
  intros Hr Hbody HPQ. unfold when_lt.
  eapply returns_bind; [apply returns_random_lt|].
  intros [] _; [by apply Hbody|apply returns_ret; by apply HPQ].
Qed.

Lemma returns_randrange_price :
  returns (randrange 22000 70000 500) list_price.
Proof.
  intros g. unfold randrange.
  replace ((70000 - 22000 + 500 - 1) / 500) with 96 by reflexivity.
  cbn [Z.leb Z.compare].
  pose proof (randbelow_lt (Z.to_nat 96) g ltac:(lia)) as Hlt.
  destruct (randbelow (Z.to_nat 96) g) as [k g'].
  eexists _, g'. split; [reflexivity|]. exists k. split; [|done].
  simpl in Hlt. lia.
Qed.

Lemma models_of_make mk :
  mk ∈ map fst models_by_make ->
  exists l, dict_get models_by_make mk = Some l /\ l <> [].
Proof.
  intros Hmk. cbn in Hmk. rewrite !elem_of_cons, elem_of_nil in Hmk.
  destruct_or!; subst; try done; eexists; (split; [reflexivity|done]).
Qed.

Local Ltac draw :=
  eapply returns_bind;
  [ first [ apply returns_choice; by compute
          | apply returns_random_lt ]
  | intros ? ?; cbv beta in * ].

Local Ltac guarded :=
  eapply returns_bind;
  [ apply returns_when_lt with (P := row_domain); [eassumption|]
  | intros ? ?; cbv beta in * ].

Local Ltac fields :=
  cbn [car_id make model model_year trim_level exterior_color transmission
       fuel_type infotainment_system msrp set_model set_model_year
       set_trim_level set_exterior_color set_transmission set_fuel_type
       set_infotainment_system set_msrp].

Lemma returns_make_row_domain idx : returns (make_row idx) row_domain.
Proof.
  unfold make_row.
  eapply returns_bind; [apply returns_choice; by compute|].
  intros mk Hmk.
  destruct (models_of_make mk Hmk) as (l & Hl & Hne). rewrite Hl.
  eapply returns_bind; [by apply (returns_ret l (fun l' => l' = l))|].
  intros ? ->.
  eapply returns_bind; [by apply returns_choice|]. intros mdl Hmdl.
  cbv beta in Hmdl.
  eapply returns_bind; [apply returns_randrange_price|]. intros price Hprice.
  cbv beta in Hprice.
  draw. draw. draw. draw. draw. draw.
  match goal with
  | |- returns (bind (when_lt _ ?r _) _) _ =>
      assert (Hplain : (make r = mk /\ model r = mdl) /\ row_domain r)
  end.
  { split; [done|]. unfold row_domain, nullable_in; fields.
    split; [by exists l, mdl; eauto|].
    split; [right; exists price; eauto|].
    repeat split; try (apply elem_of_app; by left); right; eauto. }
  eapply returns_bind.
  { apply returns_when_lt_post
      with (P := fun r => (make r = mk /\ model r = mdl) /\ row_domain r)
           (Q := row_domain);
      [done| |tauto].
    intros r [[Hmk' Hm] (_ & Hrest)]. apply returns_ret.
    split; [|exact Hrest]. fields. rewrite Hmk', Hm. exists l, mdl. eauto. }
  intros ? ?; cbv beta in *.
  guarded.
  { intros r (? & ? & ? & ? & ? & ? & ?). apply returns_ret.
    unfold row_domain; fields. repeat split; try done. by left. }
  guarded.
  { intros r Hr. by apply returns_ret. }
  guarded.
  { intros r (? & ? & ? & ? & ? & ? & ?). apply returns_ret.
    unfold row_domain; fields. repeat split; try done.
    right. exists price. eauto. }
  guarded.
  { intros r (? & ? & ? & ? & ? & ? & ?). apply returns_ret.
    unfold row_domain; fields. repeat split; try done. by left. }
  guarded.
  { intros r (? & ? & Htrim & ? & ? & ? & ?). draw. apply returns_ret.
    unfold row_domain; fields. repeat split; try done.
    match goal with
    | Hin : _ ∈ [_; _; _; _] |- _ =>
        rewrite !elem_of_cons, elem_of_nil in Hin;
        destruct Hin as [->|[->|[->|[->|[]]]]]
    end; try done; apply elem_of_app; right; unfold trim_variants;
      rewrite !elem_of_cons; tauto. }
  guarded.
  { intros r (? & ? & ? & ? & ? & ? & ?). draw. apply returns_ret.
    unfold row_domain; fields. repeat split; try done.
    apply elem_of_app. by right. }
  guarded.
  { intros r (? & ? & ? & ? & Hfuel & ? & ?). draw. apply returns_ret.
    unfold row_domain; fields. repeat split; try done.
    match goal with
    | Hin : _ ∈ [_; _; _] |- _ =>
        rewrite !elem_of_cons, elem_of_nil in Hin;
        destruct Hin as [->|[->|[->|[]]]]
    end; try done; apply elem_of_app; right; unfold fuel_variants;
      rewrite !elem_of_cons; tauto. }
  guarded.
  { intros r (? & ? & ? & ? & ? & ? & ?). apply returns_ret.
    unfold row_domain; fields. repeat split; try done. by left. }
  by apply returns_ret.
Qed.

Lemma ensures_base_loop (P : row -> Prop) idxs data :
  (forall idx, ensures (make_row idx) P) ->
  Forall P data ->
  ensures (base_loop idxs data) (Forall P).
Proof.
  intros Hrow. revert data. induction idxs as [|idx idxs IH]; intros data Hd.
  - by apply ensures_ret.
  - cbn [base_loop]. eapply ensures_bind; [apply Hrow|].
    intros r Hr. apply IH. apply Forall_app. by split; [|constructor].
Qed.

Lemma ensures_duplicate_loop (P : row -> Prop) n data :
  Forall P data -> ensures (duplicate_loop n data) (Forall P).
Proof.
  revert data. induction n as [|n IH]; intros data Hd.
  - by apply ensures_ret.
  - cbn [duplicate_loop]. eapply ensures_bind; [apply ensures_choice|].
    intros d Hin. apply IH. apply Forall_app. split; [done|].
    constructor; [|done]. rewrite Forall_forall in Hd. by apply Hd.
Qed.

Lemma generate_data_Forall (P : row -> Prop) rows seed data :
  (forall idx, ensures (make_row idx) P) ->
  generate_data rows seed = Ok data ->
  Forall P data.
Proof.
  intros Hrow. unfold generate_data. set (m := bind _ _).
  assert (Hm : ensures m (Forall P)).
  { subst m. eapply ensures_bind; [by apply ensures_base_loop|].
    intros data1 Hd1. eapply ensures_bind; [by apply ensures_duplicate_loop|].
    intros data2 Hd2. eapply ensures_weaken.
    - apply returns_ensures, returns_shuffle.
    - intros out Hperm. by rewrite Hperm. }
  destruct (m (Random seed)) as [[out g']|e] eqn:Erun; [|done].
  intros [= <-]. by eapply Hm.
Qed.

Lemma generate_frame_data rows seed df :
  generate_raw_car_equipment_data rows seed = Ok df ->
  exists data, generate_data rows seed = Ok data /\ df = pd_DataFrame data
               /\ data <> [] /\ data_shape rows data.
Proof.
  intros Hrun.
  destruct (generate_frame_inv rows seed df Hrun) as (Hrows & _).
  destruct (generate_data_returns rows seed Hrows) as (data & Hdata & Hshape).
  exists data. split; [done|].
  unfold generate_raw_car_equipment_data in Hrun. rewrite Hdata in Hrun.
  injection Hrun as <-. split; [done|]. split; [|done].
  by eapply data_shape_nonempty.
Qed.

End MoreDraws.

Lemma pd_DataFrame_get_column data key j :
  data <> [] ->
  index_of key row_keys = Some j ->
  get_column (pd_DataFrame data) key
  = map (fun r => default VNull (row_cells r !! j)) data.
Proof.
  intros Hne Hj. unfold get_column. rewrite pd_DataFrame_columns by done.
  rewrite Hj. unfold column_at. by rewrite pd_DataFrame_rows, map_map.
Qed.

Section GeneratedFields.
Context {rng : Type} `{PyRandom rng}.

Lemma generated_rows_domain rows seed df :
  generate_raw_car_equipment_data rows seed = Ok df ->
  exists data, df = pd_DataFrame data /\ data <> []
               /\ Forall row_domain data.
Proof.
  intros Hrun.
  destruct (generate_frame_data rows seed df Hrun)
    as (data & Hdata & -> & Hne & _).
  exists data. split; [done|]. split; [done|].
  eapply generate_data_Forall; [|exact Hdata].
  intros idx. apply returns_ensures, returns_make_row_domain.
Qed.

Lemma generated_column rows seed df key j v :
  generate_raw_car_equipment_data rows seed = Ok df ->
  index_of key row_keys = Some j ->
  v ∈ get_column df key ->
  exists r, row_domain r /\ v = default VNull (row_cells r !! j).
Proof.
  intros Hrun Hj Hv.
  destruct (generated_rows_domain rows seed df Hrun)
    as (data & -> & Hne & Hdom).
  rewrite (pd_DataFrame_get_column data key j Hne Hj) in Hv.
  apply list_elem_of_fmap in Hv as (r & -> & Hr).
  exists r. split; [|done]. rewrite Forall_forall in Hdom. by apply Hdom.
Qed.

End GeneratedFields.

(** X1.  In every table that the generator returns, the make of a row is a
    make of the catalog and its model is a model of that make, written as
    in the catalog or with one space before it and two after it: the
    padding defect never changes which model a row names, and make and
    model never come from different makes. *)
Theorem generated_model_belongs_to_make {rng : Type} `{PyRandom rng}
    (rows seed : Z) (df : DataFrame) :
  generate_raw_car_equipment_data rows seed = Ok df ->
  forall cells, cells ∈ df_rows df ->
    exists mk mdl models m,
      cells !! 1%nat = Some (VStr mk)
      /\ cells !! 2%nat = Some (VStr mdl)
      /\ dict_get models_by_make mk = Some models
      /\ m ∈ models
      /\ (mdl = m \/ mdl = " " +:+ m +:+ "  ").
Proof.
  intros Hrun cells Hcells.
  destruct (generated_rows_domain rows seed df Hrun)
    as (data & -> & _ & Hdom).
  rewrite pd_DataFrame_rows in Hcells.
  apply list_elem_of_fmap in Hcells as (r & -> & Hr).
  rewrite Forall_forall in Hdom.
  destruct (Hdom r Hr) as ((models & m & Hmodels & Hm & Hmdl) & _).
  by exists (make r), (model r), models, m.
Qed.

Lemma generated_model_belongs_to_make_witness :
  exists df,
    generate_raw_car_equipment_data (rng:=N) 30 7 = Ok df
    /\ forall cells, cells ∈ df_rows df ->
         exists mk mdl models m,
           cells !! 1%nat = Some (VStr mk)
           /\ cells !! 2%nat = Some (VStr mdl)
           /\ dict_get models_by_make mk = Some models
           /\ m ∈ models
           /\ (mdl = m \/ mdl = " " +:+ m +:+ "  ").
Proof.
  eexists. split; [vm_compute; reflexivity|].
  apply (generated_model_belongs_to_make (rng:=N) 30 7).
  vm_compute; reflexivity.
Defined.

(** X2.  In every table that the generator returns, a price cell is a
    number of the list, 22000, 22500, ... up to 69500, or the text of such
    a number with a dollar sign and thousands separators, or the
    placeholder [N/A]; no other price, and no other text, is written. *)
Theorem generated_price_cells {rng : Type} `{PyRandom rng}
    (rows seed : Z) (df : DataFrame) :
  generate_raw_car_equipment_data rows seed = Ok df ->
  forall v, v ∈ get_column df "msrp" ->
    v = VStr "N/A"
    \/ exists p, 22000 <= p < 70000 /\ (p - 22000) mod 500 = 0
                 /\ (v = VInt p \/ v = VStr ("$" +:+ Fmt.comma_int p)).
Proof.
  intros Hrun v Hv.
  destruct (generated_column rows seed df "msrp" 9 v Hrun eq_refl Hv)
    as (r & (_ & Hprice & _) & ->).
  change (default VNull (row_cells r !! 9%nat)) with (msrp r).
  destruct Hprice as [?|(p & (k & Hk & ->) & Hform)]; [by left|].
  right. exists (22000 + 500 * Z.of_nat k). split; [lia|]. split; [|done].
  replace (22000 + 500 * Z.of_nat k - 22000) with (Z.of_nat k * 500) by lia.
  apply Z.mod_mul. lia.
Qed.

Lemma generated_price_cells_witness :
  exists df,
    generate_raw_car_equipment_data (rng:=N) 30 7 = Ok df
    /\ forall v, v ∈ get_column df "msrp" ->
         v = VStr "N/A"
         \/ exists p, 22000 <= p < 70000 /\ (p - 22000) mod 500 = 0
                      /\ (v = VInt p \/ v = VStr ("$" +:+ Fmt.comma_int p)).
Proof.
  eexists. split; [vm_compute; reflexivity|].
  apply (generated_price_cells (rng:=N) 30 7).
  vm_compute; reflexivity.
Defined.

(** X3.  In every table that the generator returns, a trim, transmission or
    fuel cell is a text of the valid vocabulary of its column or one of the
    variants that the generator substitutes, and a colour or infotainment
    cell is missing or a text of its vocabulary: the defects never put a
    number or a missing value into a categorical column, and never a
    misspelling into a nullable one. *)
Theorem generated_categorical_cells {rng : Type} `{PyRandom rng}
    (rows seed : Z) (df : DataFrame) :
  generate_raw_car_equipment_data rows seed = Ok df ->
  (forall v, v ∈ get_column df "trim_level" ->
     exists s, v = VStr s /\ s ∈ trims ++ ["standart"; "Premuim"; "luxary"])
  /\ (forall v, v ∈ get_column df "transmission" ->
        exists s, v = VStr s
          /\ s ∈ transmissions
                 ++ ["Automtic"; "manuall"; "automatic "; "AUTOMATIC"])
  /\ (forall v, v ∈ get_column df "fuel_type" ->
        exists s, v = VStr s /\ s ∈ fuels ++ ["gasolen"; "deisel"])
  /\ (forall v, v ∈ get_column df "exterior_color" ->
        v = VNull \/ exists s, v = VStr s /\ s ∈ colors)
  /\ (forall v, v ∈ get_column df "infotainment_system" ->
        v = VNull \/ exists s, v = VStr s /\ s ∈ infotainment).
Proof.
  intros Hrun. repeat split; intros v Hv.
  - destruct (generated_column rows seed df "trim_level" 4 v Hrun eq_refl Hv)
      as (r & (_ & _ & Hin & _) & ->). by exists (trim_level r).
  - destruct (generated_column rows seed df "transmission" 6 v Hrun
                eq_refl Hv) as (r & (_ & _ & _ & Hin & _) & ->).
    by exists (transmission r).
  - destruct (generated_column rows seed df "fuel_type" 7 v Hrun eq_refl Hv)
      as (r & (_ & _ & _ & _ & Hin & _) & ->). by exists (fuel_type r).
  - destruct (generated_column rows seed df "exterior_color" 5 v Hrun
                eq_refl Hv) as (r & (_ & _ & _ & _ & _ & Hin & _) & ->).
    exact Hin.
  - destruct (generated_column rows seed df "infotainment_system" 8 v Hrun
                eq_refl Hv) as (r & (_ & _ & _ & _ & _ & _ & Hin) & ->).
    exact Hin.
Qed.

Lemma generated_categorical_cells_witness :
  exists df,
    generate_raw_car_equipment_data (rng:=N) 30 7 = Ok df
    /\ forall v, v ∈ get_column df "trim_level" ->
         exists s, v = VStr s
                   /\ s ∈ trims ++ ["standart"; "Premuim"; "luxary"].
Proof.
  eexists. split; [vm_compute; reflexivity|].
  apply (generated_categorical_cells (rng:=N) 30 7).
  vm_compute; reflexivity.
Defined.

(** ** Identifiers *)

Lemma string_app_length (a b : string) :
  String.length (a +:+ b) = (String.length a + String.length b)%nat.
Proof.
  induction a as [|c a IH]; [done|].
  change (S (String.length (a +:+ b))
          = S (String.length a + String.length b)%nat).
  by rewrite IH.
Qed.

Lemma repeat_char_length c n : String.length (Fmt.repeat_char c n) = n.
Proof. induction n as [|n IH]; [done|]. cbn. by rewrite IH. Qed.

Lemma pretty_N_go_length_le k x :
  (x < 10 ^ N.of_nat k)%N -> (String.length (pretty_N_go x "") <= k)%nat.
Proof.
  revert x. induction k as [|k IH]; intros x Hx.
  - assert (x = 0%N) as -> by (simpl in Hx; lia). by rewrite pretty_N_go_0.
  - destruct (decide (x = 0)%N) as [->|Hne];
      [rewrite pretty_N_go_0; simpl; lia|].
    rewrite pretty_N_go_step, pretty_N_go_app, string_app_length by lia.
    assert (Hdiv : (x `div` 10 < 10 ^ N.of_nat k)%N).
    { apply N.Div0.div_lt_upper_bound.
      rewrite Nat2N.inj_succ, N.pow_succ_r' in Hx. lia. }
    specialize (IH _ Hdiv). simpl. lia.
Qed.

Lemma pretty_N_go_length_gt k x :
  (10 ^ N.of_nat k <= x)%N -> (k < String.length (pretty_N_go x ""))%nat.
Proof.
  revert x. induction k as [|k IH]; intros x Hx.
  - assert (0 < x)%N by (simpl in Hx; lia).
    rewrite pretty_N_go_step, pretty_N_go_app, string_app_length by lia.
    simpl. lia.
  - rewrite Nat2N.inj_succ, N.pow_succ_r' in Hx.
    assert (0 < 10 ^ N.of_nat k)%N by (apply N.neq_0_lt_0, N.pow_nonzero; lia).
    rewrite pretty_N_go_step, pretty_N_go_app, string_app_length by lia.
    assert (Hdiv : (10 ^ N.of_nat k <= x `div` 10)%N)
      by (apply N.div_le_lower_bound; lia).
    specialize (IH _ Hdiv). simpl. lia.
Qed.

Lemma pretty_nat_length_le k (n : nat) :
  (0 < k)%nat -> (n < 10 ^ k)%nat -> (String.length (pretty n) <= k)%nat.
Proof.
  intros Hk Hn. unfold pretty, pretty_nat, pretty, pretty_N.
  case_decide; [simpl; lia|]. apply pretty_N_go_length_le.
  change 10%N with (N.of_nat 10). rewrite <- Nat2N.inj_pow. lia.
Qed.

Lemma pretty_nat_length_gt k (n : nat) :
  (10 ^ k <= n)%nat -> (k < String.length (pretty n))%nat.
Proof.
  intros Hn. unfold pretty, pretty_nat, pretty, pretty_N.
  assert (0 < 10 ^ k)%nat by (apply Nat.neq_0_lt_0, Nat.pow_nonzero; lia).
  case_decide; [lia|]. apply pretty_N_go_length_gt.
  change 10%N with (N.of_nat 10). rewrite <- Nat2N.inj_pow. lia.
Qed.

(** X4.  The number in an identifier is padded with zeros to three digits
    and never cut: for a number below 1000 the padded text has exactly
    three characters, from 100 on nothing is added, and in every case the
    text reads back, as a decimal number, to the number itself.  So the
    identifiers have four characters as long as a table has fewer than 1000
    base records, and grow after that. *)
Theorem zero_pad3_width (n : nat) :
  ((n < 1000)%nat -> String.length (Fmt.zero_pad3 n) = 3%nat)
  /\ ((100 <= n)%nat -> Fmt.zero_pad3 n = pretty n)
  /\ ((1000 <= n)%nat -> (3 < String.length (Fmt.zero_pad3 n))%nat)
  /\ digits_value (Fmt.zero_pad3 n) 0 = N.of_nat n
  /\ ((n < 999)%nat -> String.length (car_id_of n) = 4%nat).
Proof.
  assert (Hsmall : forall m, (m < 1000)%nat ->
            String.length (Fmt.zero_pad3 m) = 3%nat).
  { intros m Hm. unfold Fmt.zero_pad3.
    rewrite string_app_length, repeat_char_length.
    pose proof (pretty_nat_length_le 3 m ltac:(lia) ltac:(simpl; lia)). lia. }
  assert (Hbig : (100 <= n)%nat -> Fmt.zero_pad3 n = pretty n).
  { intros Hn. unfold Fmt.zero_pad3.
    pose proof (pretty_nat_length_gt 2 n ltac:(simpl; lia)) as Hlen.
    by replace (3 - String.length (pretty n))%nat with 0%nat by lia. }
  split; [apply Hsmall|]. split; [exact Hbig|]. split; [|split].
  - intros Hn. rewrite Hbig by lia.
    apply (pretty_nat_length_gt 3 n). simpl; lia.
  - apply zero_pad3_value.
  - intros Hn. unfold car_id_of.
    change (S (String.length (Fmt.zero_pad3 (n + 1))) = 4%nat).
    rewrite Hsmall by lia. done.
Qed.

Lemma zero_pad3_width_witness :
  String.length (Fmt.zero_pad3 7) = 3%nat
  /\ Fmt.zero_pad3 123 = pretty 123%nat
  /\ (3 < String.length (Fmt.zero_pad3 1000))%nat
  /\ String.length (car_id_of 41) = 4%nat.
Proof.
  destruct (zero_pad3_width 7) as (Hsmall & _).
  destruct (zero_pad3_width 123) as (_ & Hbig & _).
  destruct (zero_pad3_width 1000) as (_ & _ & Hwide & _).
  destruct (zero_pad3_width 41) as (_ & _ & _ & _ & Hid).
  split; [apply Hsmall; lia|]. split; [apply Hbig; lia|].
  split; [apply Hwide; lia|apply Hid; lia].
Defined.

(** X5.  The identifiers that stand in a returned table are exactly those
    of the base records: [C] followed by the padded numbers 1, 2, ... up to
    [rows - max(2, rows // 6)].  Every one of them occurs, and the copies
    add no identifier of their own. *)
Theorem generated_car_ids {rng : Type} `{PyRandom rng}
    (rows seed : Z) (df : DataFrame) :
  generate_raw_car_equipment_data rows seed = Ok df ->
  forall v,
    v ∈ get_column df "car_id" <->
    exists idx, (Z.of_nat idx < rows - Z.max 2 (rows / 6))
                /\ v = VStr ("C" +:+ Fmt.zero_pad3 (idx + 1)).
Proof.
  intros Hrun v.
  destruct (generate_frame_data rows seed df Hrun)
    as (data & _ & -> & Hne & Hshape).
  rewrite pd_DataFrame_car_id by done.
  destruct Hshape as (base & dups & Hperm & Hb & _ & Hinv & Hdups).
  pose proof (base_car_ids base Hinv) as Hids.
  assert (Hbase : forall s, s ∈ map car_id base <->
            exists idx, (idx < length base)%nat /\ s = car_id_of idx).
  { intros s. rewrite Hids, list_elem_of_fmap.
    split; intros (idx & ? & ?).
    - exists idx. split; [|done]. apply elem_of_seq in H1. lia.
    - exists idx. split; [done|]. apply elem_of_seq. lia. }
  assert (Hbound : forall idx : nat,
            (idx < length base)%nat
            <-> Z.of_nat idx < rows - Z.max 2 (rows / 6)).
  { intros idx. rewrite Hb. unfold base_rows, duplicate_rows_needed. lia. }
  rewrite Forall_forall in Hdups. split.
  - intros Hv. apply list_elem_of_fmap in Hv as (r & -> & Hr).
    rewrite Hperm in Hr.
    assert (Hrb : exists b, b ∈ base /\ car_id b = car_id r).
    { apply elem_of_app in Hr as [Hr|Hr]; [by exists r|].
      exists r. split; [by apply Hdups|done]. }
    destruct Hrb as (b & Hbin & <-).
    destruct (proj1 (Hbase (car_id b))) as (idx & Hidx & Hid).
    { by apply list_elem_of_fmap_2. }
    exists idx. split; [by apply Hbound|]. by rewrite Hid.
  - intros (idx & Hidx & ->).
    assert (Hin : car_id_of idx ∈ map car_id base).
    { apply Hbase. exists idx. split; [by apply Hbound|done]. }
    apply list_elem_of_fmap in Hin as (b & Hid & Hbin).
    apply list_elem_of_fmap. exists b. split.
    + unfold car_id_of in Hid. by rewrite <- Hid.
    + rewrite Hperm. apply elem_of_app. by left.
Qed.

Lemma generated_car_ids_witness :
  exists df,
    generate_raw_car_equipment_data (rng:=N) 30 7 = Ok df
    /\ forall v,
         v ∈ get_column df "car_id" <->
         exists idx, (Z.of_nat idx < 30 - Z.max 2 (30 / 6))
                     /\ v = VStr ("C" +:+ Fmt.zero_pad3 (idx + 1)).
Proof.
  eexists. split; [vm_compute; reflexivity|].
  apply (generated_car_ids (rng:=N) 30 7).
  vm_compute; reflexivity.
Defined.

(** ** Prices as text *)

Lemma string_of_list_ascii_app (a b : list ascii) :
  string_of_list_ascii (a ++ b)
  = string_of_list_ascii a +:+ string_of_list_ascii b.
Proof.
  induction a as [|c a IH]; [done|].
  change (String c (string_of_list_ascii (a ++ b))
          = String c (string_of_list_ascii a +:+ string_of_list_ascii b)).
  by rewrite IH.
Qed.

Lemma strip_commas_digits (s : string) :
  all_digits s = true -> strip_commas s = s.
Proof.
  induction s as [|c s IH]; [done|]. cbn [all_digits strip_commas].
  intros [Hc Hs]%andb_true_iff.
  destruct (Ascii.eqb_spec c ","); [by subst|]. by rewrite IH.
Qed.

Lemma all_digits_chars (s : string) :
  all_digits s = true -> Forall (fun c => is_digit c = true) (chars s).
Proof.
  induction s as [|c s IH]; [constructor|]. cbn [all_digits].
  intros [Hc Hs]%andb_true_iff. constructor; [done|by apply IH].
Qed.

Lemma all_digits_string_of (l : list ascii) :
  Forall (fun c => is_digit c = true) l ->
  all_digits (string_of_list_ascii l) = true.
Proof.
  induction 1 as [|c l Hc _ IH]; [done|]. cbn. by rewrite Hc, IH.
Qed.

Lemma strip_commas_group_rev ds k acc :
  Forall (fun c => is_digit c = true) ds ->
  strip_commas (Fmt.group_rev ds k acc)
  = string_of_list_ascii (List.rev ds) +:+ strip_commas acc.
Proof.
  intros Hds. revert k acc.
  induction Hds as [|d ds Hd _ IH]; intros k acc; [done|].
  cbn [Fmt.group_rev List.rev].
  rewrite string_of_list_ascii_app, string_app_assoc.
  assert (Hnc : Ascii.eqb d "," = false).
  { destruct (Ascii.eqb_spec d ","); [by subst|done]. }
  destruct (k =? 3)%nat; rewrite IH; cbn [strip_commas string_of_list_ascii];
    by rewrite ?Hnc.
Qed.

Lemma all_digits_pretty_N (n : N) : all_digits (pretty n) = true.
Proof.
  pose proof (decimal_pretty n) as Hdec. unfold Sample.decimal in Hdec.
  by destruct (pretty n).
Qed.

(** X6.  The currency text of a price holds the digits of the price and
    nothing else but the dollar sign and commas: for every amount that is
    not negative, taking the commas out of its text with thousands
    separators gives back the plain decimal text of the amount, so a price
    cell with currency formatting can be read back to its number. *)
Theorem comma_int_round_trip (z : Z) :
  0 <= z ->
  strip_commas (Fmt.comma_int z) = Fmt.str_int z
  /\ digits_value (strip_commas (Fmt.comma_int z)) 0 = Z.to_N z.
Proof.
  intros Hz.
  assert (Hround : strip_commas (Fmt.comma_int z) = Fmt.str_int z).
  { unfold Fmt.comma_int, Fmt.str_int.
    destruct (Z.ltb_spec z 0) as [?|_]; [lia|].
    rewrite strip_commas_group_rev
      by (apply Forall_rev, all_digits_chars, all_digits_pretty_N).
    rewrite rev_involutive, string_of_list_ascii_of_string.
    cbn [strip_commas].
    assert (Hnil : forall s, s +:+ "" = s).
    { intros s. induction s as [|c s IH]; [done|].
      change (String c (s +:+ "") = String c s). by rewrite IH. }
    rewrite Hnil. by destruct z. }
  split; [exact Hround|].
  rewrite Hround. unfold Fmt.str_int.
  destruct z as [|p|p]; [done| |lia].
  change (pretty (Z.pos p)) with (pretty (N.pos p)).
  apply digits_value_pretty.
Qed.

Lemma comma_int_round_trip_witness :
  0 <= 45000
  /\ Fmt.comma_int 45000 = "45,000"
  /\ strip_commas (Fmt.comma_int 45000) = Fmt.str_int 45000.
Proof.
  split; [lia|]. split; [vm_compute; reflexivity|].
  apply (comma_int_round_trip 45000). lia.
Defined.

(** * Further properties of the diagnoser *)

(** ** Candidates *)

Lemma first_existing_None w cands :
  first_existing w cands = Ok None <->
  forall c, c ∈ cands -> path_exists w c = Ok false.
Proof.
  induction cands as [|c cands IH]; cbn [first_existing].
  - split; [by intros _ c ?%elem_of_nil|done].
  - destruct (path_exists w c) as [[]|e] eqn:Ec.
    + split; [done|]. intros Hall. specialize (Hall c ltac:(by left)).
      congruence.
    + rewrite IH. split.
      * intros Hall c' [->|?]%elem_of_cons; [done|by apply Hall].
      * intros Hall c' ?. apply Hall. by right.
    + split; [done|]. intros Hall. specialize (Hall c ltac:(by left)).
      congruence.
Qed.

Lemma first_existing_Some w cands p :
  first_existing w cands = Ok (Some p) ->
  exists before c after,
    cands = before ++ c :: after
    /\ path_exists w c = Ok true
    /\ p = path_resolve w c
    /\ forall b, b ∈ before -> path_exists w b = Ok false.
Proof.
  induction cands as [|c cands IH]; cbn [first_existing]; [done|].
  destruct (path_exists w c) as [[]|e] eqn:Ec; [| |done].
  - intros [= <-]. exists [], c, cands. repeat split; try done.
    by intros b ?%elem_of_nil.
  - intros Hrest. destruct (IH Hrest) as (before & c' & after & -> & ? & ? & Hb).
    exists (c :: before), c', after. repeat split; try done.
    intros b [->|?]%elem_of_cons; [done|by apply Hb].
Qed.

Lemma first_existing_Raise w cands e :
  first_existing w cands = Raise e ->
  exists before c after,
    cands = before ++ c :: after
    /\ path_exists w c = Raise e
    /\ forall b, b ∈ before -> path_exists w b = Ok false.
Proof.
  induction cands as [|c cands IH]; cbn [first_existing]; [done|].
  destruct (path_exists w c) as [[]|e'] eqn:Ec; [done| |].
  - intros Hrest. destruct (IH Hrest) as (before & c' & after & -> & ? & Hb).
    exists (c :: before), c', after. repeat split; try done.
    intros b [->|?]%elem_of_cons; [done|by apply Hb].
  - intros [= <-]. exists [], c, cands. repeat split; try done.
    by intros b ?%elem_of_nil.
Qed.

(** X7.  The candidate search answers [None] exactly when no candidate
    exists.  When it answers a path, that path is the resolved form of a
    candidate that exists, and every candidate before it does not exist.
    When it raises, the error is that of the check of a candidate before
    which no candidate exists.  For an absolute source the literal path is
    the only candidate: nothing under the diagnoser's directory is looked
    at. *)
Theorem resolve_candidate_path_sound (w : World) (source : string) :
  (_resolve_candidate_path w source = Ok None <->
   forall c, c ∈ candidates w source -> path_exists w c = Ok false)
  /\ (forall p, _resolve_candidate_path w source = Ok (Some p) ->
      exists before c after,
        candidates w source = before ++ c :: after
        /\ path_exists w c = Ok true
        /\ p = path_resolve w c
        /\ forall b, b ∈ before -> path_exists w b = Ok false)
  /\ (absolute (Path source) = true ->
      candidates w source = [Path source])
  /\ (absolute (Path source) = false ->
      candidates w source
      = [Path source; joinpath (script_dir w) (Path source);
         joinpath (parent (script_dir w)) (Path source)]
      /\ forall c, c ∈ candidates w source ->
           exists dir, parts c = dir ++ parts (Path source))
  /\ (forall e, _resolve_candidate_path w source = Raise e ->
      exists before c after,
        candidates w source = before ++ c :: after
        /\ path_exists w c = Raise e
        /\ forall b, b ∈ before -> path_exists w b = Ok false).
Proof.
  split; [apply first_existing_None|]. split; [apply first_existing_Some|].
  split; [|split; [|apply first_existing_Raise]].
  - unfold candidates. intros Habs. by rewrite Habs.
  - unfold candidates. intros Habs. rewrite Habs.
    split; [done|]. intros c Hc.
    rewrite !elem_of_cons, elem_of_nil in Hc.
    unfold joinpath in Hc. rewrite Habs in Hc.
    destruct Hc as [->|[->|[->|[]]]]; cbn [parts]; [by exists []|eauto..].
Qed.

Lemma resolve_candidate_path_sound_witness :
  _resolve_candidate_path Sample.both_ways "data_generation.py"
  = Ok (Some (Path "/repo/data_generation.py"))
  /\ _resolve_candidate_path Sample.both_ways "missing.csv" = Ok None
  /\ candidates Sample.both_ways "/tmp/raw.csv" = [Path "/tmp/raw.csv"]
  /\ candidates Sample.both_ways "missing.csv"
     = [ Path "missing.csv"; Path "/repo/data_diagnosis/missing.csv";
         Path "/repo/missing.csv" ].
Proof.
  destruct (resolve_candidate_path_sound Sample.both_ways "missing.csv")
    as (Hnone & _).
  destruct (resolve_candidate_path_sound Sample.both_ways "/tmp/raw.csv")
    as (_ & _ & Habs & _).
  split; [reflexivity|]. split.
  - apply Hnone. intros c Hc.
    assert (Hcands : candidates Sample.both_ways "missing.csv"
                     = [Path "missing.csv";
                        Path "/repo/data_diagnosis/missing.csv";
                        Path "/repo/missing.csv"]) by reflexivity.
    rewrite Hcands, !elem_of_cons, elem_of_nil in Hc.
    destruct Hc as [->|[->|[->|[]]]]; reflexivity.
  - split; [apply Habs; reflexivity|].
    destruct (resolve_candidate_path_sound Sample.both_ways "missing.csv")
      as (_ & _ & _ & Hrel & _).
    destruct (Hrel eq_refl) as [Hthree _]. rewrite Hthree. reflexivity.
Defined.

(** ** Texts and their characters *)

Lemma rev_app_spec (s1 s2 : string) :
  String.rev_app s1 s2 = String.rev s1 +:+ s2.
Proof.
  revert s2. induction s1 as [|a s1 IH]; intros s2; [done|].
  unfold String.rev. cbn [String.rev_app].
  rewrite (IH (String a s2)), (IH (String a "")).
  by rewrite string_app_assoc.
Qed.

Lemma string_rev_cons (c : ascii) (s : string) :
  String.rev (String c s) = String.rev s +:+ String c "".
Proof. unfold String.rev at 1. cbn [String.rev_app]. apply rev_app_spec. Qed.

Lemma string_rev_app (a b : string) :
  String.rev (a +:+ b) = String.rev b +:+ String.rev a.
Proof.
  induction a as [|c a IH]; [by rewrite string_app_nil_r|].
  change (String c a +:+ b) with (String c (a +:+ b)).
  by rewrite !string_rev_cons, IH, string_app_assoc.
Qed.

Lemma string_rev_involutive (s : string) : String.rev (String.rev s) = s.
Proof.
  induction s as [|c s IH]; [done|].
  by rewrite string_rev_cons, string_rev_app, IH.
Qed.

Lemma string_rev_length (s : string) :
  String.length (String.rev s) = String.length s.
Proof.
  induction s as [|c s IH]; [done|].
  rewrite string_rev_cons, string_app_length, IH. simpl. lia.
Qed.

Lemma chars_app (a b : string) : chars (a +:+ b) = chars a ++ chars b.
Proof.
  induction a as [|c a IH]; [done|].
  change (c :: chars (a +:+ b) = c :: chars a ++ chars b). by rewrite IH.
Qed.

Lemma chars_rev (s : string) : chars (String.rev s) = List.rev (chars s).
Proof.
  induction s as [|c s IH]; [done|].
  rewrite string_rev_cons, chars_app, IH. done.
Qed.

(** ** Module names *)

Lemma endswith_app (s t : string) : Str.endswith (s +:+ t) t = true.
Proof. unfold Str.endswith. rewrite string_rev_app. apply prefix_app. Qed.

Lemma substring_0_app (s t : string) :
  String.substring 0 (String.length s) (s +:+ t) = s.
Proof.
  induction s as [|c s IH]; [by destruct t|].
  change (String c (String.substring 0 (String.length s) (s +:+ t))
          = String c s).
  by rewrite IH.
Qed.

Lemma drop_last_app (s t : string) :
  Str.drop_last (String.length t) (s +:+ t) = s.
Proof.
  unfold Str.drop_last. rewrite string_app_length.
  replace (String.length s + String.length t - String.length t)%nat
    with (String.length s) by lia.
  apply substring_0_app.
Qed.

Lemma replace_char_absent a b s :
  a ∉ chars s -> Str.replace_char a b s = s.
Proof.
  induction s as [|c s IH]; [done|]. intros Hnot.
  change (chars (String c s)) with (c :: chars s) in Hnot.
  apply not_elem_of_cons in Hnot as [Hne Hrest].
  cbn [Str.replace_char].
  destruct (Ascii.eqb_spec c a); [by subst|]. by rewrite IH.
Qed.

Lemma replace_char_gone a b s :
  a ∉ chars b -> a ∉ chars (Str.replace_char a b s).
Proof.
  intros Hb. induction s as [|c s IH]; [by intros ?%elem_of_nil|].
  cbn [Str.replace_char]. destruct (Ascii.eqb_spec c a) as [->|Hne].
  - rewrite chars_app. intros [?|?]%elem_of_app; done.
  - change (chars (String c (Str.replace_char a b s)))
      with (c :: chars (Str.replace_char a b s)).
    intros [?|?]%elem_of_cons; [by subst|done].
Qed.

(** X8.  The module name made from a source never holds a path separator:
    every separator has become a dot.  A source that ends in [.py] loses
    that ending, once; a source without a separator that does not end in
    [.py], such as a dotted module reference, is taken as it is. *)
Theorem module_name_shape (source : string) :
  ("/"%char ∉ chars (_module_name source))
  /\ _module_name (source +:+ ".py") = Str.replace_char "/" "." source
  /\ (Str.endswith source ".py" = false ->
      _module_name source = Str.replace_char "/" "." source)
  /\ (Str.endswith source ".py" = false -> "/"%char ∉ chars source ->
      _module_name source = source)
  /\ ("/"%char ∉ chars source ->
      _module_name (source +:+ ".py") = source).
Proof.
  assert (Hpy : _module_name (source +:+ ".py")
                = Str.replace_char "/" "." source).
  { assert (Hdrop : Str.drop_last 3 (source +:+ ".py") = source)
      by apply (drop_last_app source ".py").
    unfold _module_name. by rewrite endswith_app, Hdrop. }
  split; [|split; [exact Hpy|split; [|split]]].
  - unfold _module_name. apply replace_char_gone.
    intros [[=]|?%elem_of_nil]%elem_of_cons. done.
  - intros Hends. unfold _module_name. by rewrite Hends.
  - intros Hends Hsep. unfold _module_name. rewrite Hends.
    by apply replace_char_absent.
  - intros Hsep. rewrite Hpy. by apply replace_char_absent.
Qed.

Lemma module_name_shape_witness :
  _module_name "pkg/data_generation.py" = "pkg.data_generation"
  /\ _module_name "pkg.data_generation" = "pkg.data_generation"
  /\ _module_name "data_generation.py" = "data_generation".
Proof.
  destruct (module_name_shape "pkg/data_generation") as (_ & Hpy & _).
  destruct (module_name_shape "pkg.data_generation")
    as (_ & _ & _ & Hsame & _).
  destruct (module_name_shape "data_generation") as (_ & _ & _ & _ & Hplain).
  split; [etrans; [exact Hpy|reflexivity]|]. split.
  - apply Hsame; [reflexivity|].
    apply (bool_decide_eq_false_1 ("/"%char ∈ chars "pkg.data_generation")).
    reflexivity.
  - apply Hplain.
    apply (bool_decide_eq_false_1 ("/"%char ∈ chars "data_generation")).
    reflexivity.
Defined.

(** ** The duplicate count *)

Section DuplicateCount.
Context {A : Type} `{EqDecision A}.

Lemma duplicated_from_upper (l seen k : list A) :
  NoDup k ->
  (forall x, x ∈ k -> x ∈ l) ->
  (forall x, x ∈ k -> x ∉ seen) ->
  (count_true (duplicated_from seen l) + length k <= length l)%nat.
Proof.
  revert seen k. induction l as [|x l IH]; intros seen k Hk Hsub Hfresh.
  - destruct k as [|y k]; [simpl; lia|].
    specialize (Hsub y ltac:(by left)). by apply elem_of_nil in Hsub.
  - cbn [duplicated_from]. unfold count_true in *. rewrite filter_cons.
    case_bool_decide as Hseen.
    + rewrite decide_True by done. cbn [length].
      assert (Hsub' : forall y, y ∈ k -> y ∈ l).
      { intros y Hy. pose proof (Hsub y Hy) as Hyl.
        apply elem_of_cons in Hyl as [->|?]; [|done].
        by destruct (Hfresh _ Hy). }
      assert (Hfresh' : forall y, y ∈ k -> y ∉ x :: seen).
      { intros y Hy [->|?]%elem_of_cons; by eapply Hfresh. }
      specialize (IH (x :: seen) k Hk Hsub' Hfresh'). lia.
    + rewrite decide_False by done.
      destruct (decide (x ∈ k)) as [Hxk|Hxk].
      * apply elem_of_Permutation in Hxk as [k' Hk'].
        rewrite Hk' in Hk. apply NoDup_cons in Hk as [Hxk' Hk'nd].
        assert (Hsub' : forall y, y ∈ k' -> y ∈ l).
        { intros y Hy. assert (Hyk : y ∈ k) by (rewrite Hk'; by right).
          pose proof (Hsub y Hyk) as Hyl.
          apply elem_of_cons in Hyl as [->|?]; done. }
        assert (Hfresh' : forall y, y ∈ k' -> y ∉ x :: seen).
        { intros y Hy [->|?]%elem_of_cons; [done|].
          eapply Hfresh; [|done]. rewrite Hk'. by right. }
        specialize (IH (x :: seen) k' Hk'nd Hsub' Hfresh').
        rewrite Hk'. cbn [length]. lia.
      * assert (Hsub' : forall y, y ∈ k -> y ∈ l).
        { intros y Hy. pose proof (Hsub y Hy) as Hyl.
          apply elem_of_cons in Hyl as [->|?]; done. }
        assert (Hfresh' : forall y, y ∈ k -> y ∉ x :: seen).
        { intros y Hy [->|?]%elem_of_cons; [done|by eapply Hfresh]. }
        specialize (IH (x :: seen) k Hk Hsub' Hfresh'). cbn [length]. lia.
Qed.

Lemma duplicated_from_count (l : list A) :
  (count_true (duplicated_from [] l) + length (remove_dups l))%nat
  = length l.
Proof.
  assert (Hup : (count_true (duplicated_from [] l) + length (remove_dups l)
                 <= length l)%nat).
  { apply duplicated_from_upper.
    - apply NoDup_remove_dups.
    - intros x. by rewrite elem_of_remove_dups.
    - intros x _ ?%elem_of_nil. done. }
  assert (Hlow : (length l <= count_true (duplicated_from [] l)
                              + length (remove_dups l))%nat).
  { apply duplicated_from_bound.
    - apply NoDup_remove_dups.
    - intros x Hx. right. by apply elem_of_remove_dups.
    - intros x _ ?%elem_of_nil. done. }
  lia.
Qed.

Lemma remove_dups_length_Permutation (l l' : list A) :
  l ≡ₚ l' -> length (remove_dups l) = length (remove_dups l').
Proof.
  intros Hperm. apply Permutation_length, NoDup_Permutation.
  - apply NoDup_remove_dups.
  - apply NoDup_remove_dups.
  - intros x. by rewrite !elem_of_remove_dups, Hperm.
Qed.

End DuplicateCount.

(** X9.  For a table with at least one column, the duplicate count is the
    number of rows less the number of distinct rows: each distinct row is
    counted as original once, whatever its position.  The count is
    therefore the same for every reordering of the rows, it is zero when
    the rows are pairwise distinct, and it is below the number of rows of a
    table that has rows. *)
Theorem duplicate_count_formula (df : DataFrame) :
  df_columns df <> [] ->
  let keys := map (map hash_key) (df_rows df) in
  (duplicate_count df + length (remove_dups keys))%nat = length (df_rows df)
  /\ (forall df', df_columns df' <> [] -> df_rows df' ≡ₚ df_rows df ->
        duplicate_count df' = duplicate_count df)
  /\ (NoDup keys -> duplicate_count df = 0%nat)
  /\ (df_rows df <> [] -> (duplicate_count df < length (df_rows df))%nat).
Proof.
  intros Hcols keys.
  assert (Hcount : forall d, df_columns d <> [] ->
            (duplicate_count d
             + length (remove_dups (map (map hash_key) (df_rows d))))%nat
            = length (df_rows d)).
  { intros d Hd. unfold duplicate_count.
    destruct (df_columns d); [done|].
    by rewrite duplicated_from_count, length_map. }
  pose proof (Hcount df Hcols) as Hdf. fold keys in Hdf.
  split; [exact Hdf|]. split; [|split].
  - intros df' Hcols' Hperm. specialize (Hcount df' Hcols').
    assert (Hlen : length (df_rows df') = length (df_rows df))
      by by rewrite Hperm.
    assert (Hkeys : length (remove_dups (map (map hash_key) (df_rows df')))
                    = length (remove_dups keys)).
    { apply remove_dups_length_Permutation. unfold keys. by rewrite Hperm. }
    lia.
  - intros Hnd.
    assert (Hsame : length (remove_dups keys) = length keys).
    { apply Permutation_length, NoDup_Permutation;
        [apply NoDup_remove_dups|done|].
      intros x. apply elem_of_remove_dups. }
    unfold keys in Hsame at 2. rewrite length_map in Hsame. lia.
  - intros Hrows.
    assert (Hpos : (0 < length (remove_dups keys))%nat).
    { destruct (df_rows df) as [|r rs] eqn:Erows; [done|].
      assert (Hin : map hash_key r ∈ remove_dups keys).
      { apply elem_of_remove_dups. unfold keys. rewrite ?Erows. by left. }
      destruct (remove_dups keys); [by apply elem_of_nil in Hin|simpl; lia]. }
    lia.
Qed.

Lemma duplicate_count_formula_witness :
  let df := {| df_columns := [("a", object_); ("b", int64)];
               df_rows := [[VStr "x"; VInt 1]; [VStr "y"; VInt 2];
                           [VStr "x"; VInt 1]; [VStr "x"; VInt 1]] |} in
  df_columns df <> []
  /\ (duplicate_count df + 2)%nat = 4%nat.
Proof.
  intros df. assert (Hcols : df_columns df <> []) by done.
  split; [exact Hcols|].
  destruct (duplicate_count_formula df Hcols) as (Hcount & _).
  exact Hcount.
Defined.

(** ** The mixed-type check *)

Lemma NoDup_length_le_1 {A} (l : list A) :
  NoDup l ->
  ((length l <= 1)%nat <-> forall x y, x ∈ l -> y ∈ l -> x = y).
Proof.
  intros Hnd. split.
  - intros Hlen x y Hx Hy.
    destruct l as [|a [|b l]]; [by apply elem_of_nil in Hx| |simpl in Hlen; lia].
    apply list_elem_of_singleton in Hx, Hy. congruence.
  - intros Hall. destruct l as [|a [|b l]]; [simpl; lia..|].
    apply NoDup_cons in Hnd as [Hab _].
    destruct Hab. rewrite (Hall a b); [by left|by left|right; by left].
Qed.

(** X10.  The mixed-type check writes a line for a column exactly when two
    cells of it that are not missing are of different kinds; missing cells
    are no kind of their own, so a column of numbers with gaps is not
    mixed.  The line lists the kinds present, each once, in ascending
    order. *)
Theorem mixed_type_line_spec (column : string) (cells : list value) :
  let kinds :=
    merge_sort String.le (remove_dups (map type_name (dropna cells))) in
  (mixed_type_line column cells = [] <->
   forall v w, v ∈ cells -> w ∈ cells -> isna v = false -> isna w = false ->
     type_name v = type_name w)
  /\ (mixed_type_line column cells <> [] ->
      mixed_type_line column cells
      = ["- Mixed data types in '" +:+ column +:+ "': "
         +:+ Fmt.join ", " kinds])
  /\ Sorted String.le kinds
  /\ NoDup kinds
  /\ (forall k, k ∈ kinds <->
        exists v, v ∈ cells /\ isna v = false /\ type_name v = k)
  /\ "NoneType" ∉ kinds.
Proof.
  intros kinds.
  assert (Hkinds : forall k, k ∈ kinds <->
            exists v, v ∈ cells /\ isna v = false /\ type_name v = k).
  { intros k. unfold kinds.
    rewrite merge_sort_Permutation, elem_of_remove_dups, list_elem_of_fmap.
    unfold dropna. split.
    - intros (v & -> & Hv). apply list_elem_of_filter in Hv as [? ?].
      by exists v.
    - intros (v & Hv & Hna & <-). exists v. split; [done|].
      by apply list_elem_of_filter. }
  split; [|split; [|split; [|split; [|split]]]].
  - unfold mixed_type_line.
    pose proof (NoDup_length_le_1
                  (remove_dups (map type_name (dropna cells)))
                  (NoDup_remove_dups _)) as Hone.
    destruct (Nat.ltb_spec 1
                (length (remove_dups (map type_name (dropna cells)))))
      as [Hlt|Hle].
    + split; [done|]. intros Hall. exfalso.
      assert (Hle : (length (remove_dups (map type_name (dropna cells)))
                     <= 1)%nat); [|lia].
      apply Hone. intros x y Hx Hy.
      apply elem_of_remove_dups, list_elem_of_fmap in Hx as (v & -> & Hv).
      apply elem_of_remove_dups, list_elem_of_fmap in Hy as (u & -> & Hu).
      apply list_elem_of_filter in Hv as [? ?].
      apply list_elem_of_filter in Hu as [? ?]. by apply Hall.
    + split; [|done]. intros _ v u Hv Hu Hvn Hun.
      apply (proj1 Hone Hle); apply elem_of_remove_dups, list_elem_of_fmap_2;
        by apply list_elem_of_filter.
  - unfold mixed_type_line. by case_match.
  - apply Sorted_merge_sort, _.
  - unfold kinds. rewrite merge_sort_Permutation. apply NoDup_remove_dups.
  - exact Hkinds.
  - intros (v & _ & Hna & Hname)%Hkinds. by destruct v.
Qed.

Lemma mixed_type_line_spec_witness :
  mixed_type_line "model_year" [VInt 2015; VNull; VStr "2016"; VInt 2020]
  = ["- Mixed data types in 'model_year': int, str"]
  /\ mixed_type_line "msrp" [VInt 25000; VNull; VInt 30000] = [].
Proof.
  destruct (mixed_type_line_spec "msrp" [VInt 25000; VNull; VInt 30000])
    as (Hnone & _).
  destruct (mixed_type_line_spec "model_year"
              [VInt 2015; VNull; VStr "2016"; VInt 2020]) as (_ & Hsome & _).
  split.
  - rewrite Hsome; [vm_compute; reflexivity|]. by vm_compute.
  - apply Hnone. intros v w Hv Hw Hvn Hwn.
    rewrite !elem_of_cons, elem_of_nil in Hv, Hw.
    destruct Hv as [->|[->|[->|[]]]], Hw as [->|[->|[->|[]]]]; done.
Defined.

(** ** The whitespace check *)

Lemma lstrip_length (s : string) :
  (String.length (Str.lstrip s) <= String.length s)%nat.
Proof.
  induction s as [|c s IH]; [done|]. cbn [Str.lstrip].
  destruct (Str.isspace c); simpl in *; lia.
Qed.

Lemma lstrip_fixed (s : string) :
  Str.lstrip s = s <->
  match s with String c _ => Str.isspace c = false | EmptyString => True end.
Proof.
  destruct s as [|c s]; [done|]. cbn [Str.lstrip].
  destruct (Str.isspace c) eqn:Ec; [|done]. split; [|done].
  intros Heq. pose proof (lstrip_length s) as Hlen.
  rewrite Heq in Hlen. simpl in Hlen. lia.
Qed.

Lemma lstrip_same_length (s : string) :
  String.length (Str.lstrip s) = String.length s -> Str.lstrip s = s.
Proof.
  destruct s as [|c s]; [done|]. cbn [Str.lstrip].
  destruct (Str.isspace c); [|done].
  intros Heq. pose proof (lstrip_length s). simpl in Heq. lia.
Qed.

Lemma strip_fixed (s : string) :
  Str.strip s = s <->
  Str.lstrip s = s /\ Str.lstrip (String.rev s) = String.rev s.
Proof.
  unfold Str.strip. split.
  - intros Heq.
    pose proof (lstrip_length s) as Hl1.
    pose proof (lstrip_length (String.rev (Str.lstrip s))) as Hl2.
    assert (Hlen : String.length
                     (String.rev
                        (Str.lstrip (String.rev (Str.lstrip s))))
                   = String.length s) by by rewrite Heq.
    rewrite !string_rev_length in *.
    assert (Hfirst : Str.lstrip s = s) by (apply lstrip_same_length; lia).
    split; [done|]. rewrite Hfirst in Hl2, Hlen.
    apply lstrip_same_length. by rewrite string_rev_length.
  - intros [-> ->]. apply string_rev_involutive.
Qed.

Lemma rev_head_last (l : list ascii) (c d : ascii) (l' : list ascii) :
  List.rev l = d :: l' -> List.last l c = d.
Proof.
  intros Hrev.
  assert (Hl : l = List.rev l' ++ [d]).
  { rewrite <- (rev_involutive l), Hrev. done. }
  rewrite Hl. apply last_last.
Qed.

Lemma outer_space_spec (s : string) :
  outer_space s = false <-> Str.strip s = s.
Proof.
  rewrite strip_fixed, !lstrip_fixed. unfold outer_space.
  destruct s as [|c s]; [done|].
  change (chars (String c s)) with (c :: chars s).
  destruct (String.rev (String c s)) as [|d t] eqn:Erev.
  { apply (f_equal String.length) in Erev.
    rewrite string_rev_length in Erev. done. }
  assert (Hlast : List.last (c :: chars s) c = d).
  { apply (rev_head_last _ c d (chars t)).
    change (c :: chars s) with (chars (String c s)).
    by rewrite <- chars_rev, Erev. }
  rewrite Hlast, orb_false_iff. done.
Qed.

Lemma has_outer_space_differs (v : value) :
  has_outer_space v = differs_from_strip v.
Proof.
  destruct v as [|z|x|b|s]; try done. cbn [has_outer_space differs_from_strip].
  destruct (String.eqb_spec s (Str.strip s)) as [Heq|Hne]; cbn [negb].
  - apply outer_space_spec. by symmetry.
  - destruct (outer_space s) eqn:Eo; [done|].
    apply outer_space_spec in Eo. congruence.
Qed.

Lemma trimmed_mismatch_count (cells : list value) :
  trimmed_mismatch cells
  = length (filter (fun v => has_outer_space v = true) cells).
Proof.
  unfold trimmed_mismatch, dropna.
  rewrite !list_filter_filter. f_equal. apply list_filter_iff.
  intros v. rewrite has_outer_space_differs.
  split; [tauto|]. intros Hv. by destruct v.
Qed.

(** X11.  The whitespace check counts, in a column, exactly the texts that
    start or end with a whitespace character; missing cells and cells that
    are no text are never counted.  A line is written for a column of
    dtype [object] whose count is above zero, with that count, and for no
    other column.  The whitespace characters, among those below U+0100,
    are 9 to 13, 28 to 32, U+0085 and U+00A0. *)
Theorem whitespace_check_spec `{ToNumeric} (df : DataFrame) :
  (forall cells,
     trimmed_mismatch cells
     = length (filter (fun v => has_outer_space v = true) cells))
  /\ (forall j column dt,
        df_columns df !! j = Some (column, dt) ->
        let count :=
          length (filter (fun v => has_outer_space v = true)
                    (column_at df j)) in
        (dt = object_ -> (0 < count)%nat ->
         ("- " +:+ pretty count +:+ " values in '" +:+ column
          +:+ "' have leading/trailing spaces") ∈ report_lines df)
        /\ (dt <> object_ \/ count = 0%nat ->
            string_issue_line j (column, dt) df = []))
  /\ (forall s, s ∈ string_issue_lines df ->
        exists j column,
          df_columns df !! j = Some (column, object_)
          /\ s = "- "
                 +:+ pretty (length (filter
                                       (fun v => has_outer_space v = true)
                                       (column_at df j)))
                 +:+ " values in '" +:+ column
                 +:+ "' have leading/trailing spaces")
  /\ (forall c,
        Str.isspace c = true <->
        nat_of_ascii c
          ∈ [9; 10; 11; 12; 13; 28; 29; 30; 31; 32; 133; 160]%nat).
Proof.
  assert (Hcount : forall cells,
    trimmed_mismatch cells
    = length (filter (fun v => has_outer_space v = true) cells)).
  { apply trimmed_mismatch_count. }
  split; [exact Hcount|]. split; [|split].
  - intros j column dt Hj count. split.
    + intros -> Hpos. apply elem_of_report_lines. do 6 right. left.
      unfold string_issue_lines. apply elem_of_concat.
      exists (string_issue_line j (column, object_) df). split.
      * unfold string_issue_line. rewrite Hcount. fold count.
        destruct (Nat.ltb_spec 0 count); [by left|lia].
      * by apply (elem_of_lookup_imap_2
                    (fun j cd => string_issue_line j cd df)).
    + intros Hno. unfold string_issue_line. rewrite Hcount. fold count.
      destruct dt; try done. destruct Hno as [?|Hzero]; [done|].
      by rewrite Hzero.
  - intros s Hs. unfold string_issue_lines in Hs.
    apply elem_of_concat in Hs as (l & Hs & Hl).
    apply elem_of_lookup_imap_1 in Hl as (j & [column dt] & -> & Hj).
    unfold string_issue_line in Hs. rewrite Hcount in Hs.
    destruct dt; try by apply elem_of_nil in Hs.
    case_match; [|by apply elem_of_nil in Hs].
    apply list_elem_of_singleton in Hs as ->. by exists j, column.
  - intros c. rewrite <- (bool_decide_spec (_ ∈ _)).
    by destruct c as [[] [] [] [] [] [] [] []].
Qed.

Lemma whitespace_check_spec_witness :
  let nbsp := String (ascii_of_nat 160) "" in
  let nel := String (ascii_of_nat 133) "" in
  let df := {| df_columns := [("model", object_); ("msrp", int64)];
               df_rows := [[VStr " Civic  "; VInt 1];
                           [VStr "Camry"; VInt 2];
                           [VNull; VInt 3];
                           [VStr "RAV4 "; VInt 4];
                           [VStr (nbsp +:+ "Corolla"); VInt 5];
                           [VStr ("Golf" +:+ nel); VInt 6];
                           [VStr ("Model" +:+ nbsp +:+ "3"); VInt 7]] |} in
  df_columns df !! 0%nat = Some ("model", object_)
  /\ "- 4 values in 'model' have leading/trailing spaces"
       ∈ report_lines (H:=digits_only) df.
Proof.
  intros nbsp nel df. split; [reflexivity|].
  destruct (whitespace_check_spec (H:=digits_only) df) as (_ & Hline & _).
  destruct (Hline 0%nat "model" object_ eq_refl) as [Hthere _].
  apply Hthere; [reflexivity|]. vm_compute. lia.
Defined.

(** * The diagnoser on generated tables *)

Section Generated.
Context {rng : Type} `{PyRandom rng}.

Lemma generated_rows_cells rows seed df :
  generate_raw_car_equipment_data rows seed = Ok df ->
  exists data,
    df = pd_DataFrame data /\ data <> []
    /\ Forall (fun r => row_domain r /\ year_cell (model_year r)) data.
Proof.
  intros Hrun.
  destruct (generate_frame_data rows seed df Hrun)
    as (data & Hdata & -> & Hne & _).
  exists data. split; [done|]. split; [done|].
  apply Forall_and. split.
  - eapply generate_data_Forall; [|exact Hdata].
    intros idx. apply returns_ensures, returns_make_row_domain.
  - eapply (generate_data_Forall (fun r => year_cell (model_year r)));
      [|exact Hdata].
    intros idx. apply returns_ensures.
    eapply returns_weaken; [apply returns_make_row|]. by intros r [_ ?].
Qed.

Lemma generated_not_null r j :
  row_domain r -> year_cell (model_year r) ->
  j <> 5%nat -> j <> 8%nat -> (j < 10)%nat ->
  isna (default VNull (row_cells r !! j)) = false.
Proof.
  intros (_ & Hprice & _) (y & _ & Hyear) H5 H8 Hj.
  destruct j as [|[|[|[|[|[|[|[|[|[|j]]]]]]]]]]; try done; try lia.
  - cbn. by destruct Hyear as [-> | ->].
  - cbn. destruct Hprice as [->|(p & _ & [-> | ->])]; done.
Qed.

End Generated.

Lemma catalog_models_plain :
  Forall (fun m => outer_space m = false) catalog_models.
Proof. by repeat constructor. Qed.

Lemma padded_outer_space m : outer_space (" " +:+ m +:+ "  ") = true.
Proof. done. Qed.

Lemma models_in_catalog mk models m :
  dict_get models_by_make mk = Some models -> m ∈ models ->
  m ∈ catalog_models.
Proof.
  intros Hget Hm. unfold catalog_models. apply elem_of_concat.
  exists models. split; [done|].
  unfold models_by_make in *. cbn [dict_get] in Hget.
  repeat (case_match; [injection Hget as <-;
                       cbn [map snd]; rewrite !elem_of_cons; tauto|]).
  done.
Qed.

(** X12.  On a table that the generator returns, the offenders that the
    vocabulary check lists for a column are exactly the generator's
    variants of that column that occur in it: the three misspelt trims,
    the four transmission variants and the two misspelt fuels.  No valid
    value and no type name is ever listed. *)
Theorem generated_offenders_are_variants {rng : Type} `{PyRandom rng}
    (rows seed : Z) (df : DataFrame) :
  generate_raw_car_equipment_data rows seed = Ok df ->
  (forall x,
     x ∈ unexpected_values ["Base"; "Sport"; "Premium"; "Limited"]
           (get_column df "trim_level") <->
     x ∈ ["standart"; "Premuim"; "luxary"]
     /\ VStr x ∈ get_column df "trim_level")
  /\ (forall x,
        x ∈ unexpected_values ["automatic"; "manual"; "CVT"; "dual clutch"]
              (get_column df "transmission") <->
        x ∈ ["Automtic"; "manuall"; "automatic "; "AUTOMATIC"]
        /\ VStr x ∈ get_column df "transmission")
  /\ (forall x,
        x ∈ unexpected_values ["gasoline"; "diesel"; "hybrid"; "electric"]
              (get_column df "fuel_type") <->
        x ∈ ["gasolen"; "deisel"]
        /\ VStr x ∈ get_column df "fuel_type").
Proof.
  intros Hrun.
  assert (Hgen : forall key j expected variants
                   (proj : row -> string),
    index_of key row_keys = Some j ->
    (forall r, default VNull (row_cells r !! j) = VStr (proj r)) ->
    (forall r, row_domain r -> proj r ∈ expected ++ variants) ->
    (forall x, x ∈ variants -> x ∉ expected) ->
    forall x,
      x ∈ unexpected_values expected (get_column df key) <->
      x ∈ variants /\ VStr x ∈ get_column df key).
  { intros key j expected variants proj Hj Hcell Hdom Hdisj x.
    rewrite elem_of_unexpected_values. split.
    - intros (v & Hv & _ & Hoff).
      destruct (generated_column rows seed df key j v Hrun Hj Hv)
        as (r & Hr & Hvr).
      rewrite Hcell in Hvr. subst v. cbn [offender] in Hoff.
      case_bool_decide as Hin; [done|]. injection Hoff as <-.
      split; [|done].
      specialize (Hdom r Hr). by apply elem_of_app in Hdom as [?|?].
    - intros [Hx Hin]. exists (VStr x). split; [done|]. split; [done|].
      cbn [offender]. by rewrite bool_decide_eq_false_2 by by apply Hdisj. }
  split; [|split].
  - apply (Hgen "trim_level" 4%nat _ _ trim_level); [done|done| |].
    + by intros r (_ & _ & ? & _).
    + intros x Hx. rewrite !elem_of_cons, elem_of_nil in *.
      destruct_or!; subst; try done; intros Hin; destruct_or!; done.
  - apply (Hgen "transmission" 6%nat _ _ transmission); [done|done| |].
    + by intros r (_ & _ & _ & ? & _).
    + intros x Hx. rewrite !elem_of_cons, elem_of_nil in *.
      destruct_or!; subst; try done; intros Hin; destruct_or!; done.
  - apply (Hgen "fuel_type" 7%nat _ _ fuel_type); [done|done| |].
    + by intros r (_ & _ & _ & _ & ? & _).
    + intros x Hx. rewrite !elem_of_cons, elem_of_nil in *.
      destruct_or!; subst; try done; intros Hin; destruct_or!; done.
Qed.

Lemma generated_offenders_are_variants_witness :
  exists df,
    generate_raw_car_equipment_data (rng:=N) 30 7 = Ok df
    /\ forall x,
         x ∈ unexpected_values ["Base"; "Sport"; "Premium"; "Limited"]
               (get_column df "trim_level") <->
         x ∈ ["standart"; "Premuim"; "luxary"]
         /\ VStr x ∈ get_column df "trim_level".
Proof.
  eexists. split; [vm_compute; reflexivity|].
  apply (generated_offenders_are_variants (rng:=N) 30 7).
  vm_compute; reflexivity.
Defined.

Lemma filter_none {A} (P : A -> Prop) `{forall x, Decision (P x)}
    (l : list A) :
  Forall (fun x => ~ P x) l -> filter P l = [].
Proof.
  induction 1 as [|x l Hx _ IH]; [done|]. by rewrite filter_cons_False.
Qed.

(** X13.  On a table that the generator returns, only the colour and the
    infotainment column can hold missing cells: every other column has a
    null count of zero, so the null line of the report names no column but
    [exterior_color] and [infotainment_system]. *)
Theorem generated_nulls_in_two_columns {rng : Type} `{PyRandom rng}
    (rows seed : Z) (df : DataFrame) :
  generate_raw_car_equipment_data rows seed = Ok df ->
  (forall j col,
     columns df !! j = Some col ->
     col <> "exterior_color" -> col <> "infotainment_system" ->
     filter (fun v => isna v = true) (column_at df j) = [])
  /\ (forall col count,
        (col, count) ∈ null_counts df -> (0 < count)%nat ->
        col = "exterior_color" \/ col = "infotainment_system").
Proof.
  intros Hrun.
  destruct (generated_rows_cells rows seed df Hrun)
    as (data & -> & Hne & Hdom).
  assert (Hzero : forall j col,
    columns (pd_DataFrame data) !! j = Some col ->
    col <> "exterior_color" -> col <> "infotainment_system" ->
    filter (fun v => isna v = true) (column_at (pd_DataFrame data) j) = []).
  { intros j col Hj Hcolor Hinfo.
    rewrite pd_DataFrame_columns in Hj by done.
    assert (Hlt : (j < 10)%nat) by (apply lookup_lt_Some in Hj; done).
    assert (H5 : j <> 5%nat) by (intros ->; by injection Hj as <-).
    assert (H8 : j <> 8%nat) by (intros ->; by injection Hj as <-).
    unfold column_at. rewrite pd_DataFrame_rows, map_map.
    apply filter_none, Forall_fmap, Forall_forall.
    intros r Hr. rewrite Forall_forall in Hdom.
    destruct (Hdom r Hr) as [Hrow Hyear]. cbn.
    by rewrite generated_not_null. }
  split; [exact Hzero|].
  intros col count Hin Hpos. unfold null_counts in Hin.
  apply elem_of_lookup_imap_1 in Hin as (j & col' & Heq & Hj).
  injection Heq as Hcol Hcount. subst col' count.
  destruct (decide (col = "exterior_color")) as [?|Hcolor]; [by left|].
  destruct (decide (col = "infotainment_system")) as [?|Hinfo]; [by right|].
  rewrite (Hzero j col Hj Hcolor Hinfo) in Hpos. simpl in Hpos. lia.
Qed.

Lemma generated_nulls_in_two_columns_witness :
  exists df,
    generate_raw_car_equipment_data (rng:=N) 30 7 = Ok df
    /\ forall col count,
         (col, count) ∈ null_counts df -> (0 < count)%nat ->
         col = "exterior_color" \/ col = "infotainment_system".
Proof.
  eexists. split; [vm_compute; reflexivity|].
  apply (generated_nulls_in_two_columns (rng:=N) 30 7).
  vm_compute; reflexivity.
Defined.

Lemma filter_ext_in {A} (P Q : A -> Prop) `{forall x, Decision (P x)}
    `{forall x, Decision (Q x)} (l : list A) :
  (forall x, x ∈ l -> (P x <-> Q x)) -> filter P l = filter Q l.
Proof.
  induction l as [|a l IH]; intros Hext; [done|].
  rewrite !filter_cons.
  assert (Ha : P a <-> Q a) by (apply Hext; by left).
  rewrite IH by (intros x Hx; apply Hext; by right).
  destruct (decide (P a)), (decide (Q a)); tauto.
Qed.

Lemma model_cell_padded mk mdl :
  model_of_make mk mdl ->
  has_outer_space (VStr mdl) = true <-> VStr mdl ∉ map VStr catalog_models.
Proof.
  intros (models & m & Hget & Hm & Hform).
  pose proof (models_in_catalog mk models m Hget Hm) as Hcat.
  pose proof catalog_models_plain as Hplain. rewrite Forall_forall in Hplain.
  cbn [has_outer_space]. destruct Hform as [-> | ->].
  - rewrite (Hplain m Hcat). split; [done|]. intros Hnot. destruct Hnot.
    by apply list_elem_of_fmap_2.
  - rewrite padded_outer_space. split; [|done]. intros _ Hin.
    apply list_elem_of_fmap in Hin as (m' & [= Heq] & Hm').
    specialize (Hplain m' Hm'). rewrite <- Heq in Hplain.
    by rewrite padded_outer_space in Hplain.
Qed.

(** X14.  On a table that the generator returns, the whitespace count of
    the [model] column is the number of its cells that are not a model name
    of the catalog: the padded models are counted, one by one, and nothing
    else is.  When a model was padded the report says how many. *)
Theorem generated_padded_models_counted {rng : Type} `{PyRandom rng}
    `{ToNumeric} (rows seed : Z) (df : DataFrame) :
  generate_raw_car_equipment_data rows seed = Ok df ->
  let padded :=
    length (filter (fun v => v ∉ map VStr catalog_models)
              (get_column df "model")) in
  trimmed_mismatch (get_column df "model") = padded
  /\ ((0 < padded)%nat ->
      ("- " +:+ pretty padded
       +:+ " values in 'model' have leading/trailing spaces")
        ∈ report_lines df).
Proof.
  intros Hrun padded.
  destruct (generated_rows_domain rows seed df Hrun)
    as (data & -> & Hne & Hdom).
  pose proof (pd_DataFrame_get_column data "model" 2 Hne eq_refl) as Hcol.
  assert (Hcells : get_column (pd_DataFrame data) "model"
                   = map (fun r => VStr (model r)) data) by exact Hcol.
  assert (Hcount : trimmed_mismatch (get_column (pd_DataFrame data) "model")
                   = padded).
  { rewrite trimmed_mismatch_count. unfold padded. f_equal.
    apply filter_ext_in. intros v Hv. rewrite Hcells in Hv.
    apply list_elem_of_fmap in Hv as (r & -> & Hr).
    rewrite Forall_forall in Hdom. destruct (Hdom r Hr) as (Hmodel & _).
    by apply (model_cell_padded (make r)). }
  split; [exact Hcount|]. intros Hpos.
  apply elem_of_report_lines. do 6 right. left.
  unfold string_issue_lines. apply elem_of_concat.
  assert (Hthird : exists dt,
    df_columns (pd_DataFrame data) !! 2%nat = Some ("model", dt)
    /\ dt = object_).
  { destruct data as [|r data]; [done|]. eexists. split; [reflexivity|].
    reflexivity. }
  destruct Hthird as (dt & Hthird & ->).
  exists (string_issue_line 2 ("model", object_) (pd_DataFrame data)).
  split.
  - unfold string_issue_line.
    assert (Hat : column_at (pd_DataFrame data) 2
                  = get_column (pd_DataFrame data) "model").
    { unfold get_column. by rewrite pd_DataFrame_columns. }
    rewrite Hat, Hcount.
    destruct (Nat.ltb_spec 0 padded); [by left|lia].
  - by apply (elem_of_lookup_imap_2
                (fun j cd => string_issue_line j cd (pd_DataFrame data))).
Qed.

Lemma generated_padded_models_counted_witness :
  exists df,
    generate_raw_car_equipment_data (rng:=N) 30 7 = Ok df
    /\ trimmed_mismatch (get_column df "model")
       = length (filter (fun v => v ∉ map VStr catalog_models)
                   (get_column df "model")).
Proof.
  eexists. split; [vm_compute; reflexivity|].
  apply (generated_padded_models_counted (rng:=N) (H0:=digits_only) 30 7).
  vm_compute; reflexivity.
Defined.



